(** * Voice conversation client: model router, turn orchestrator and
      voice-activity monitor

    A shallow embedding of the conversational core of the two variants of
    the client, [src/src/App.tsx] (module [App]) and the chat component of
    [src/unnamed/part_000] (module [ChatInterface]), together with the
    properties the specification states about them. *)

From Stdlib Require Import String Ascii Bool ZArith NArith QArith Lia List.
Import ListNotations.

(* ===================================================================== *)
(** * JavaScript strings *)
(* ===================================================================== *)

(** A JavaScript string is a sequence of UTF-16 code units; [length],
    [includes] and [trim] all work on code units. *)
Definition jsstring := list N.

(** Literal of the source, all of whose characters are ASCII. *)
Definition js (s : string) : jsstring :=
  map N_of_ascii (list_ascii_of_string s).

Fixpoint jsstring_eqb (a b : jsstring) : bool :=
  match a, b with
  | [], [] => true
  | x :: a', y :: b' => (x =? y)%N && jsstring_eqb a' b'
  | _, _ => false
  end.

(** [String.prototype.startsWith], the position test [includes] repeats. *)
Fixpoint startsWith (s kw : jsstring) : bool :=
  match kw, s with
  | [], _ => true
  | k :: kw', c :: s' => (k =? c)%N && startsWith s' kw'
  | _ :: _, [] => false
  end.

(** [s.includes(kw)]: [kw] occurs in [s] at some position. *)
Fixpoint includes (s kw : jsstring) : bool :=
  startsWith s kw ||
  match s with
  | [] => false
  | _ :: s' => includes s' kw
  end.

(** [toLowerCase] on one code unit: [A]..[Z] become [a]..[z].  Code units
    outside ASCII are left as they are: lowering one of them never yields
    a letter that a routing keyword can match (the only two that lower
    into ASCII, U+0130 and U+212A, give an [i] followed by a combining
    mark and a [k]; no keyword ends in [i] or contains [k]). *)
Definition lowerUnit (c : N) : N :=
  if ((65 <=? c) && (c <=? 90))%N then (c + 32)%N else c.

Definition toLowerCase (s : jsstring) : jsstring := map lowerUnit s.

(** WhiteSpace and LineTerminator code units of ECMAScript, the ones
    [String.prototype.trim] strips. *)
Definition isWhiteSpace (c : N) : bool :=
  existsb (N.eqb c)
    [ 9; 10; 11; 12; 13; 32; 160; 5760;
      8192; 8193; 8194; 8195; 8196; 8197; 8198; 8199; 8200; 8201; 8202;
      8232; 8233; 8239; 8287; 12288; 65279 ]%N.

Fixpoint trimStart (s : jsstring) : jsstring :=
  match s with
  | c :: s' => if isWhiteSpace c then trimStart s' else s
  | [] => []
  end.

Definition trimEnd (s : jsstring) : jsstring := rev (trimStart (rev s)).

Definition trim (s : jsstring) : jsstring := trimEnd (trimStart s).

(* ===================================================================== *)
(** * Model router *)
(* ===================================================================== *)

(** [determineOptimalModel], identical in both variants.  [selectedModel]
    is the state the callback closes over. *)
Definition determineOptimalModel (selectedModel prompt : jsstring) : jsstring :=
  if negb (jsstring_eqb selectedModel (js "auto")) then selectedModel
  else
    let lowerPrompt := toLowerCase prompt in
    (* Code-related queries *)
    if includes lowerPrompt (js "code") || includes lowerPrompt (js "programming") ||
       includes lowerPrompt (js "function") || includes lowerPrompt (js "debug")
    then js "gpt-4o"
    (* Creative writing *)
    else if includes lowerPrompt (js "write") || includes lowerPrompt (js "story") ||
            includes lowerPrompt (js "creative") || includes lowerPrompt (js "poem")
    then js "claude-3-5-sonnet-20241022"
    (* Analysis and reasoning *)
    else if includes lowerPrompt (js "analyze") || includes lowerPrompt (js "explain") ||
            includes lowerPrompt (js "compare") || includes lowerPrompt (js "why")
    then js "gpt-4o"
    (* Default for conversational queries *)
    else js "gpt-4o-mini".

(** ** The router as the specification words it

    A precedence table of keyword classes; the first class one of whose
    keywords occurs in the utterance, whatever the case of its letters,
    names the model. *)

(** [kw] occurs in [p] up to the case of the letters of [p]. *)
Definition mentions (p kw : jsstring) : Prop :=
  exists pre w post, p = pre ++ w ++ post /\ toLowerCase w = kw.

Definition mentionsb (p kw : jsstring) : bool := includes (toLowerCase p) kw.

Definition codeKeywords : list jsstring :=
  [js "code"; js "programming"; js "function"; js "debug"].
Definition creativeKeywords : list jsstring :=
  [js "write"; js "story"; js "creative"; js "poem"].
Definition analysisKeywords : list jsstring :=
  [js "analyze"; js "explain"; js "compare"; js "why"].

Definition routingTable : list (list jsstring * jsstring) :=
  [ (codeKeywords, js "gpt-4o");
    (creativeKeywords, js "claude-3-5-sonnet-20241022");
    (analysisKeywords, js "gpt-4o") ].

(** One of the keywords occurs in the utterance. *)
Definition mentionsAny (utterance : jsstring) (keywords : list jsstring) : Prop :=
  exists kw, In kw keywords /\ mentions utterance kw.

Definition selectModel_spec (utterance override : jsstring) : jsstring :=
  if jsstring_eqb override (js "auto") then
    match find (fun class => existsb (mentionsb utterance) (fst class)) routingTable with
    | Some class => snd class
    | None => js "gpt-4o-mini"
    end
  else override.

(* ===================================================================== *)
(** * Messages, collaborators and the effects of an async function *)
(* ===================================================================== *)

Inductive Role := user | assistant.

Record Message := mkMessage {
  id : Z;                       (* [Date.now().toString()]: a decimal integer *)
  type : Role;
  content : jsstring;
  model : option jsstring;
  timestamp : Z;
  audioUrl : option jsstring;
  isStreaming : option bool
}.

(** [{ ...msg, content }], [{ ...msg, isStreaming }], [{ ...msg, audioUrl }]. *)
Definition with_content (c : jsstring) (m : Message) : Message :=
  mkMessage (id m) (type m) c (model m) (timestamp m) (audioUrl m) (isStreaming m).
Definition with_isStreaming (b : bool) (m : Message) : Message :=
  mkMessage (id m) (type m) (content m) (model m) (timestamp m) (audioUrl m) (Some b).
Definition with_audioUrl (u : jsstring) (m : Message) : Message :=
  mkMessage (id m) (type m) (content m) (model m) (timestamp m) (Some u) (isStreaming m).

(** [prev.map(msg => msg.id === target ? f msg : msg)]. *)
Definition updateById (target : Z) (f : Message -> Message) (prev : list Message)
  : list Message :=
  map (fun msg => if (id msg =? target)%Z then f msg else msg) prev.

(** A recorded chunk and the clip built from the chunks are byte buffers. *)
Definition Blob := list Byte.byte.

(** [messages.slice(-6).map(...)], the context sent to the model. *)
Definition conversationHistoryOf (messages : list Message) : list (Role * jsstring) :=
  map (fun msg => (match type msg with user => user | assistant => assistant end,
                   content msg))
      (skipn (length messages - 6) messages).

Inductive Error := ServiceError | EmptyAudioBuffer | NotAllowedError | NotFoundError.

(** How an awaited promise settles, if it does. *)
Inductive outcome (A : Type) :=
| Resolved (a : A)
| Rejected (e : Error)
| Unsettled.
Arguments Resolved {A} a.
Arguments Rejected {A} e.
Arguments Unsettled {A}.

(** A streamed generation delivers chunks to the callback, then settles. *)
Record StreamOutcome := { chunks : list jsstring; settled : outcome unit }.

(** What happens to the audio element [playAudio] creates. *)
Inductive PlaybackOutcome :=
| PlaybackEnds        (* loadstart, then ended *)
| PlaybackErrors      (* the error event *)
| PlayRejected        (* [audio.play()] rejects *)
| PlaybackStalls.     (* loadstart, and neither event ever comes *)

(** The collaborators of one run: the clock, the browser and the three
    services. *)
Record Env := {
  clock : nat -> Z;             (* successive readings of the time *)
  getUserMedia : outcome unit;
  audioContext : outcome unit;  (* [new AudioContext()] *)
  audioGraph : option Error;    (* what [createAnalyser], [createMediaStreamSource]
                                   or [connect] throws, if one of them does *)
  analyserLevel : Q;            (* the energy of the speech band, [rms], that the
                                   first frame of the monitor reads *)
  speechStartTimeRef : Z;       (* [speechStartTimeRef.current], a ref the entry
                                   points followed here read and never write *)
  transcribeAudio : Blob -> outcome (option jsstring);      (* [result.text] *)
  streamText : list (Role * jsstring) -> jsstring -> N -> StreamOutcome;
  generateSpeech : jsstring -> jsstring -> outcome jsstring; (* [result.url] *)
  playback : jsstring -> PlaybackOutcome
}.

(** Calls that leave the component, in the order they are made. *)
Inductive Call :=
| CallTranscribeAudio (audio : Blob) (language model : jsstring)
| CallStreamText (messages : list (Role * jsstring)) (model : jsstring) (maxTokens : N)
| CallGenerateSpeech (text voice : jsstring)
| CallPlay (audioUrl : jsstring)
| CallOnConversationComplete
| CallGetUserMedia
| CallRequestAnimationFrame     (* the next frame of the monitor is asked for *)
| CallStartAutomaticRecording
| CallStopRecording
| CallAlert (message : jsstring).

Record World := { clockReads : nat; calls : list Call }.

(** Completion of a statement: it falls through with a value, executes
    [return], throws, or waits for a promise that never settles. *)
Inductive completion (A : Type) :=
| Normal (a : A)
| Return
| Throw (e : Error)
| Pending.
Arguments Normal {A} a.
Arguments Return {A}.
Arguments Throw {A} e.
Arguments Pending {A}.

Definition M (S A : Type) : Type := Env -> S * World -> completion A * (S * World).

Definition ret {S A} (a : A) : M S A := fun _ s => (Normal a, s).

Definition bind {S A B} (m : M S A) (k : A -> M S B) : M S B :=
  fun env s =>
    match m env s with
    | (Normal a, s') => k a env s'
    | (Return, s') => (Return, s')
    | (Throw e, s') => (Throw e, s')
    | (Pending, s') => (Pending, s')
    end.

Declare Scope js_scope.
Delimit Scope js_scope with js.
Notation "x <- m ;; k" := (bind m (fun x => k))
  (at level 61, m at next level, right associativity) : js_scope.
Notation "m ;; k" := (bind m (fun _ => k))
  (at level 61, right associativity) : js_scope.
Open Scope js_scope.

Definition returnM {S A} : M S A := fun _ s => (Return, s).
Definition throw {S A} (e : Error) : M S A := fun _ s => (Throw e, s).
Definition gets {S A} (f : S -> A) : M S A := fun _ s => (Normal (f (fst s)), s).
Definition modify {S} (f : S -> S) : M S unit :=
  fun _ s => (Normal tt, (f (fst s), snd s)).
Definition ask {S A} (f : Env -> A) : M S A := fun env s => (Normal (f env), s).
Definition when {S} (b : bool) (m : M S unit) : M S unit := if b then m else ret tt.

(** [Date.now()] and [new Date()]: the next reading of the clock. *)
Definition dateNow {S} : M S Z :=
  fun env s =>
    (Normal (clock env (clockReads (snd s))),
     (fst s, {| clockReads := Datatypes.S (clockReads (snd s)); calls := calls (snd s) |})).

Definition call {S} (c : Call) : M S unit :=
  fun _ s =>
    (Normal tt, (fst s, {| clockReads := clockReads (snd s); calls := calls (snd s) ++ [c] |})).

(** [await p]. *)
Definition await {S A} (p : outcome A) : M S A :=
  fun _ s =>
    match p with
    | Resolved a => (Normal a, s)
    | Rejected e => (Throw e, s)
    | Unsettled => (Pending, s)
    end.

(** [try { body } catch (error) { handler }]. *)
Definition tryCatch {S A} (body : M S A) (handler : Error -> M S A) : M S A :=
  fun env s =>
    match body env s with
    | (Throw e, s') => handler e env s'
    | r => r
    end.

(** [try { body } finally { finalizer }]: the finalizer runs however the
    body completes, and the completion of the body stands unless the
    finalizer completes abruptly itself. *)
Definition tryFinally {S A} (body : M S A) (finalizer : M S unit) : M S A :=
  fun env s =>
    match body env s with
    | (Pending, s') => (Pending, s')
    | (c, s') =>
        match finalizer env s' with
        | (Normal _, s'') => (c, s'')
        | (Return, s'') => (Return, s'')
        | (Throw e, s'') => (Throw e, s'')
        | (Pending, s'') => (Pending, s'')
        end
    end.

(** The body of a function: [return] ends the function normally. *)
Definition functionBody {S} (body : M S unit) : M S unit :=
  fun env s =>
    match body env s with
    | (Return, s') => (Normal tt, s')
    | r => r
    end.

Definition apology : jsstring :=
  js "Sorry, I encountered an error processing your request. Please try again.".

(* ===================================================================== *)
(** * The client of [src/src/App.tsx] *)
(* ===================================================================== *)

Module App.

Inductive ConversationMode := manual | continuous | push_to_talk.

Record VoiceState := mkVoiceState {
  isRecording : bool;
  isProcessing : bool;
  isPlaying : bool;
  audioLevel : Q;
  isListening : bool;
  conversationMode : ConversationMode
}.

Definition with_isProcessing (b : bool) (prev : VoiceState) : VoiceState :=
  mkVoiceState (isRecording prev) b (isPlaying prev) (audioLevel prev)
               (isListening prev) (conversationMode prev).
Definition with_isPlaying (b : bool) (prev : VoiceState) : VoiceState :=
  mkVoiceState (isRecording prev) (isProcessing prev) b (audioLevel prev)
               (isListening prev) (conversationMode prev).

(** State of the component and the refs the turn pipeline touches. *)
Record Store := mkStore {
  showChat : bool;
  conversationCount : Z;
  messages : list Message;
  voiceState : VoiceState;
  showTextFallback : bool;
  textInput : jsstring;
  audioChunksRef : list Blob;
  currentAudioRef : option jsstring
}.

(** What the callbacks of one render close over. *)
Record Render := mkRender {
  r_user : bool;                (* [user] is not null *)
  r_showChat : bool;
  r_conversationCount : Z;
  r_messages : list Message;
  r_voiceState : VoiceState;
  r_selectedModel : jsstring;
  r_showTextFallback : bool;
  r_textInput : jsstring
}.

Definition setShowChat (b : bool) : M Store unit :=
  modify (fun st => mkStore b (conversationCount st) (messages st) (voiceState st)
                            (showTextFallback st) (textInput st)
                            (audioChunksRef st) (currentAudioRef st)).
Definition setConversationCount (f : Z -> Z) : M Store unit :=
  modify (fun st => mkStore (showChat st) (f (conversationCount st)) (messages st)
                            (voiceState st) (showTextFallback st) (textInput st)
                            (audioChunksRef st) (currentAudioRef st)).
Definition setMessages (f : list Message -> list Message) : M Store unit :=
  modify (fun st => mkStore (showChat st) (conversationCount st) (f (messages st))
                            (voiceState st) (showTextFallback st) (textInput st)
                            (audioChunksRef st) (currentAudioRef st)).
Definition setVoiceState (f : VoiceState -> VoiceState) : M Store unit :=
  modify (fun st => mkStore (showChat st) (conversationCount st) (messages st)
                            (f (voiceState st)) (showTextFallback st) (textInput st)
                            (audioChunksRef st) (currentAudioRef st)).
Definition setShowTextFallback (b : bool) : M Store unit :=
  modify (fun st => mkStore (showChat st) (conversationCount st) (messages st)
                            (voiceState st) b (textInput st)
                            (audioChunksRef st) (currentAudioRef st)).
Definition setTextInput (t : jsstring) : M Store unit :=
  modify (fun st => mkStore (showChat st) (conversationCount st) (messages st)
                            (voiceState st) (showTextFallback st) t
                            (audioChunksRef st) (currentAudioRef st)).
Definition setCurrentAudioRef (a : option jsstring) : M Store unit :=
  modify (fun st => mkStore (showChat st) (conversationCount st) (messages st)
                            (voiceState st) (showTextFallback st) (textInput st)
                            (audioChunksRef st) a).

(** Minimum size of a clip worth transcribing, in bytes. *)
Definition MIN_BLOB_SIZE : nat := 100.

Definition transcriptionErrorText : jsstring :=
  js "I'm having trouble processing your audio right now. This could be due to:"
  ++ [10; 10; 8226]%N ++ js " Network connectivity issues"
  ++ [10; 8226]%N ++ js " Audio format compatibility"
  ++ [10; 8226]%N ++ js " Server overload"
  ++ [10; 10]%N
  ++ js "Please try again in a moment, or use the text input option below.".

Definition unclearSpeechText : jsstring :=
  js "I couldn't hear you clearly. Please try:"
  ++ [10; 10; 8226]%N ++ js " Speaking louder and more clearly"
  ++ [10; 8226]%N ++ js " Getting closer to your microphone"
  ++ [10; 8226]%N ++ js " Reducing background noise"
  ++ [10; 8226]%N ++ js " Speaking for at least 1-2 seconds"
  ++ [10; 10]%N
  ++ js "Or use the text input option below.".

(** [playAudio]: the promise resolves on [ended], on [error] and when
    [play()] rejects. *)
Definition playAudio (audioUrl : jsstring) : M Store unit :=
  (* Stop any currently playing audio *)
  setCurrentAudioRef None ;;
  setCurrentAudioRef (Some audioUrl) ;;
  call (CallPlay audioUrl) ;;
  o <- ask (fun env => playback env audioUrl) ;;
  match o with
  | PlaybackEnds =>
      setVoiceState (with_isPlaying true) ;;
      setVoiceState (with_isPlaying false) ;;
      setCurrentAudioRef None
  | PlaybackErrors | PlayRejected =>
      setVoiceState (with_isPlaying false) ;;
      setCurrentAudioRef None
  | PlaybackStalls =>
      setVoiceState (with_isPlaying true) ;;
      await Unsettled
  end.

(** [result.text?.trim() || ''] *)
Definition transcriptOf (text : option jsstring) : jsstring :=
  match text with
  | Some t => match trim t with [] => [] | t' => t' end
  | None => []
  end.

(** The streaming callback, once per chunk, then the settling of the call. *)
Fixpoint deliverChunks (assistantId : Z) (responseText : jsstring)
         (cs : list jsstring) : M Store jsstring :=
  match cs with
  | [] => ret responseText
  | chunk :: cs' =>
      let responseText := responseText ++ chunk in
      setMessages (updateById assistantId (with_content responseText)) ;;
      deliverChunks assistantId responseText cs'
  end.

Definition streamInto (assistantId : Z) (history : list (Role * jsstring))
           (model : jsstring) : M Store jsstring :=
  let sent := if jsstring_eqb model (js "auto") then js "gpt-4o-mini" else model in
  call (CallStreamText history sent 300) ;;
  o <- ask (fun env => streamText env history sent 300%N) ;;
  responseText <- deliverChunks assistantId [] (chunks o) ;;
  await (settled o) ;;
  ret responseText.

(** Generate and play speech response: failures are logged and dropped. *)
Definition speak (assistantId : Z) (responseText : jsstring) : M Store unit :=
  tryCatch
    (call (CallGenerateSpeech responseText (js "nova")) ;;
     p <- ask (fun env => generateSpeech env responseText (js "nova")) ;;
     audioUrl <- await p ;;
     setMessages (updateById assistantId (with_audioUrl audioUrl)) ;;
     playAudio audioUrl)
    (fun _ => ret tt).

Definition processRecording (r : Render) : M Store unit :=
  functionBody
    (audioChunks <- gets audioChunksRef ;;
     when (length audioChunks =? 0)%nat returnM ;;
     setVoiceState (with_isProcessing true) ;;
     tryFinally
       (tryCatch
          (let audioBlob : Blob := concat audioChunks in
           when (length audioBlob <? MIN_BLOB_SIZE)%nat
                (setVoiceState (with_isProcessing false) ;; returnM) ;;
           (* Validate audio blob *)
           when (length audioBlob =? 0)%nat
                (setVoiceState (with_isProcessing false) ;; returnM) ;;
           (* Check authentication before transcription *)
           when (negb (r_user r))
                (setVoiceState (with_isProcessing false) ;; returnM) ;;
           (* Transcribe audio with improved error handling *)
           text <- tryCatch
                     (let arrayBuffer := audioBlob in
                      when (length arrayBuffer =? 0)%nat (throw EmptyAudioBuffer) ;;
                      call (CallTranscribeAudio arrayBuffer (js "en") (js "whisper-1")) ;;
                      p <- ask (fun env => transcribeAudio env arrayBuffer) ;;
                      result <- await p ;;
                      ret (transcriptOf result))
                     (fun _ =>
                        i <- dateNow ;;
                        t <- dateNow ;;
                        let errorMessage :=
                          mkMessage i assistant transcriptionErrorText None t None None in
                        setMessages (fun prev => prev ++ [errorMessage]) ;;
                        setShowTextFallback true ;;
                        setVoiceState (with_isProcessing false) ;;
                        returnM) ;;
           (* If transcription returned empty or very short text *)
           when ((length text =? 0)%nat || (length text <? 2)%nat)
                (i <- dateNow ;;
                 t <- dateNow ;;
                 let errorMessage :=
                   mkMessage i assistant unclearSpeechText None t None None in
                 setMessages (fun prev => prev ++ [errorMessage]) ;;
                 setShowTextFallback true ;;
                 setVoiceState (with_isProcessing false) ;;
                 returnM) ;;
           (* Add user message *)
           i <- dateNow ;;
           t <- dateNow ;;
           let userMessage := mkMessage i user text None t None None in
           setMessages (fun prev => prev ++ [userMessage]) ;;
           (* Determine best model and generate response *)
           let model := determineOptimalModel (r_selectedModel r) text in
           i <- dateNow ;;
           t <- dateNow ;;
           let assistantMessage :=
             mkMessage (i + 1) assistant [] (Some model) t None (Some true) in
           setMessages (fun prev => prev ++ [assistantMessage]) ;;
           (* Build conversation context *)
           let conversationHistory :=
             conversationHistoryOf (r_messages r) ++ [(user, text)] in
           responseText <-
             tryCatch
               (streamInto (id assistantMessage) conversationHistory model)
               (fun _ =>
                  let responseText := apology in
                  setMessages (updateById (id assistantMessage)
                                          (with_content responseText)) ;;
                  ret responseText) ;;
           (* Mark streaming as complete *)
           setMessages (updateById (id assistantMessage) (with_isStreaming false)) ;;
           speak (id assistantMessage) responseText)
          (fun _ => ret tt))
       (setVoiceState (with_isProcessing false))).

Definition handleStartChat (r : Render) : M Store unit :=
  functionBody
    (when (8 <=? r_conversationCount r)%Z returnM ;;
     setShowChat true ;;
     setConversationCount (fun prev => prev + 1)%Z).

Definition handleTextSubmit (r : Render) (text : jsstring) : M Store unit :=
  functionBody
    (when ((length (trim text) =? 0)%nat || negb (r_user r)) returnM ;;
     setVoiceState (with_isProcessing true) ;;
     tryFinally
       (tryCatch
          ((* Add user message *)
           i <- dateNow ;;
           t <- dateNow ;;
           let userMessage := mkMessage i user text None t None None in
           setMessages (fun prev => prev ++ [userMessage]) ;;
           (* Generate AI response *)
           let model := determineOptimalModel (r_selectedModel r) text in
           i <- dateNow ;;
           t <- dateNow ;;
           let assistantMessage :=
             mkMessage (i + 1) assistant [] (Some model) t None (Some true) in
           setMessages (fun prev => prev ++ [assistantMessage]) ;;
           let conversationHistory :=
             conversationHistoryOf (r_messages r) ++ [(user, text)] in
           responseText <- streamInto (id assistantMessage) conversationHistory model ;;
           (* Mark streaming as complete *)
           setMessages (updateById (id assistantMessage) (with_isStreaming false)) ;;
           speak (id assistantMessage) responseText ;;
           setTextInput [] ;;
           setShowTextFallback false ;;
           setConversationCount (fun prev => prev + 1)%Z)
          (fun _ => ret tt))
       (setVoiceState (with_isProcessing false))).

(** The text fallback of the rendered page.  The field carries
    [disabled={voiceState.isProcessing}] and the button
    [disabled={!textInput.trim() || voiceState.isProcessing}]; a disabled
    control delivers neither key presses nor clicks, and the panel is
    rendered only while [showChat] and [showTextFallback] hold. *)
Definition pressEnterInTextField (r : Render) : M Store unit :=
  if negb (r_showChat r) || negb (r_showTextFallback r) ||
     isProcessing (r_voiceState r)
  then ret tt
  else handleTextSubmit r (r_textInput r).

Definition clickSend (r : Render) : M Store unit :=
  if negb (r_showChat r) || negb (r_showTextFallback r) ||
     (length (trim (r_textInput r)) =? 0)%nat || isProcessing (r_voiceState r)
  then ret tt
  else handleTextSubmit r (r_textInput r).

(** The render that shows a given state. *)
Definition renderOf (signedIn : bool) (selectedModel : jsstring) (st : Store) : Render :=
  mkRender signedIn (showChat st) (conversationCount st) (messages st)
           (voiceState st) selectedModel (showTextFallback st) (textInput st).

End App.

(* ===================================================================== *)
(** * The chat component of [src/unnamed/part_000] *)
(* ===================================================================== *)

Module ChatInterface.

Record VoiceState := mkVoiceState {
  isRecording : bool;
  isProcessing : bool;
  isPlaying : bool;
  audioLevel : Q;
  isListening : bool;
  conversationMode : bool       (* tracks if conversation mode is active *)
}.

Definition with_isProcessing (b : bool) (prev : VoiceState) : VoiceState :=
  mkVoiceState (isRecording prev) b (isPlaying prev) (audioLevel prev)
               (isListening prev) (conversationMode prev).
Definition with_isPlaying (b : bool) (prev : VoiceState) : VoiceState :=
  mkVoiceState (isRecording prev) (isProcessing prev) b (audioLevel prev)
               (isListening prev) (conversationMode prev).
Definition with_audioLevel (level : Q) (prev : VoiceState) : VoiceState :=
  mkVoiceState (isRecording prev) (isProcessing prev) (isPlaying prev)
               level (isListening prev) (conversationMode prev).
Definition with_isListening (b : bool) (prev : VoiceState) : VoiceState :=
  mkVoiceState (isRecording prev) (isProcessing prev) (isPlaying prev)
               (audioLevel prev) b (conversationMode prev).
Definition with_conversationMode (b : bool) (prev : VoiceState) : VoiceState :=
  mkVoiceState (isRecording prev) (isProcessing prev) (isPlaying prev)
               (audioLevel prev) (isListening prev) b.
(** [{ ...prev, isListening: false, audioLevel: 0, conversationMode: false }] *)
Definition stoppedListening (prev : VoiceState) : VoiceState :=
  mkVoiceState (isRecording prev) (isProcessing prev) (isPlaying prev) 0 false false.

(** State of the component and the refs the entry points touch. *)
Record Store := mkStore {
  messages : list Message;
  voiceState : VoiceState;
  showTextFallback : bool;
  textInput : jsstring;
  hasStartedConversation : bool;
  audioChunksRef : list Blob;
  currentAudioRef : option jsstring;
  audioContextRef : bool;       (* an audio context is held *)
  continuousStreamRef : bool;   (* a microphone stream is held *)
  voiceDetectionRef : bool
}.

(** Props and state the callbacks of one render close over. *)
Record Render := mkRender {
  r_user : bool;                (* [user] is not null *)
  r_conversationCount : Z;
  r_maxFreeConversations : Z;
  r_messages : list Message;
  r_voiceState : VoiceState;
  r_selectedModel : jsstring;
  r_showTextFallback : bool;
  r_textInput : jsstring;
  r_hasStartedConversation : bool
}.

(** Check if user has reached free limit *)
Definition hasReachedLimit (r : Render) : bool :=
  (r_maxFreeConversations r <=? r_conversationCount r)%Z.

Definition setMessages (f : list Message -> list Message) : M Store unit :=
  modify (fun st => mkStore (f (messages st)) (voiceState st) (showTextFallback st)
                            (textInput st) (hasStartedConversation st)
                            (audioChunksRef st) (currentAudioRef st)
                            (audioContextRef st) (continuousStreamRef st)
                            (voiceDetectionRef st)).
Definition setVoiceState (f : VoiceState -> VoiceState) : M Store unit :=
  modify (fun st => mkStore (messages st) (f (voiceState st)) (showTextFallback st)
                            (textInput st) (hasStartedConversation st)
                            (audioChunksRef st) (currentAudioRef st)
                            (audioContextRef st) (continuousStreamRef st)
                            (voiceDetectionRef st)).
Definition setShowTextFallback (b : bool) : M Store unit :=
  modify (fun st => mkStore (messages st) (voiceState st) b
                            (textInput st) (hasStartedConversation st)
                            (audioChunksRef st) (currentAudioRef st)
                            (audioContextRef st) (continuousStreamRef st)
                            (voiceDetectionRef st)).
Definition setTextInput (t : jsstring) : M Store unit :=
  modify (fun st => mkStore (messages st) (voiceState st) (showTextFallback st)
                            t (hasStartedConversation st)
                            (audioChunksRef st) (currentAudioRef st)
                            (audioContextRef st) (continuousStreamRef st)
                            (voiceDetectionRef st)).
Definition setHasStartedConversation (b : bool) : M Store unit :=
  modify (fun st => mkStore (messages st) (voiceState st) (showTextFallback st)
                            (textInput st) b
                            (audioChunksRef st) (currentAudioRef st)
                            (audioContextRef st) (continuousStreamRef st)
                            (voiceDetectionRef st)).
Definition setCurrentAudioRef (a : option jsstring) : M Store unit :=
  modify (fun st => mkStore (messages st) (voiceState st) (showTextFallback st)
                            (textInput st) (hasStartedConversation st)
                            (audioChunksRef st) a
                            (audioContextRef st) (continuousStreamRef st)
                            (voiceDetectionRef st)).
Definition setAudioContextRef (b : bool) : M Store unit :=
  modify (fun st => mkStore (messages st) (voiceState st) (showTextFallback st)
                            (textInput st) (hasStartedConversation st)
                            (audioChunksRef st) (currentAudioRef st)
                            b (continuousStreamRef st) (voiceDetectionRef st)).
Definition setContinuousStreamRef (b : bool) : M Store unit :=
  modify (fun st => mkStore (messages st) (voiceState st) (showTextFallback st)
                            (textInput st) (hasStartedConversation st)
                            (audioChunksRef st) (currentAudioRef st)
                            (audioContextRef st) b (voiceDetectionRef st)).
Definition setVoiceDetectionRef (b : bool) : M Store unit :=
  modify (fun st => mkStore (messages st) (voiceState st) (showTextFallback st)
                            (textInput st) (hasStartedConversation st)
                            (audioChunksRef st) (currentAudioRef st)
                            (audioContextRef st) (continuousStreamRef st) b).

(** Minimum size of a clip worth transcribing, in bytes. *)
Definition MIN_BLOB_SIZE : nat := 500.

Definition transcriptionErrorText : jsstring :=
  js "Sorry, I had trouble understanding your audio. Please try the text input below.".

Definition unclearSpeechText : jsstring :=
  js "I couldn't hear you clearly. Please try speaking again or use the text input below.".

Definition playAudio (audioUrl : jsstring) : M Store unit :=
  setCurrentAudioRef None ;;
  setCurrentAudioRef (Some audioUrl) ;;
  call (CallPlay audioUrl) ;;
  o <- ask (fun env => playback env audioUrl) ;;
  match o with
  | PlaybackEnds =>
      setVoiceState (with_isPlaying true) ;;
      setVoiceState (with_isPlaying false) ;;
      setCurrentAudioRef None
  | PlaybackErrors | PlayRejected =>
      setVoiceState (with_isPlaying false) ;;
      setCurrentAudioRef None
  | PlaybackStalls =>
      setVoiceState (with_isPlaying true) ;;
      await Unsettled
  end.

Definition stopAudio : M Store unit :=
  a <- gets currentAudioRef ;;
  match a with
  | Some _ => setCurrentAudioRef None ;; setVoiceState (with_isPlaying false)
  | None => ret tt
  end.

(** [result.text?.trim() || ''] *)
Definition transcriptOf (text : option jsstring) : jsstring :=
  match text with
  | Some t => match trim t with [] => [] | t' => t' end
  | None => []
  end.

Fixpoint deliverChunks (assistantId : Z) (responseText : jsstring)
         (cs : list jsstring) : M Store jsstring :=
  match cs with
  | [] => ret responseText
  | chunk :: cs' =>
      let responseText := responseText ++ chunk in
      setMessages (updateById assistantId (with_content responseText)) ;;
      deliverChunks assistantId responseText cs'
  end.

Definition streamInto (assistantId : Z) (history : list (Role * jsstring))
           (model : jsstring) : M Store jsstring :=
  let sent := if jsstring_eqb model (js "auto") then js "gpt-4o-mini" else model in
  call (CallStreamText history sent 300) ;;
  o <- ask (fun env => streamText env history sent 300%N) ;;
  responseText <- deliverChunks assistantId [] (chunks o) ;;
  await (settled o) ;;
  ret responseText.

Definition speak (assistantId : Z) (responseText : jsstring) : M Store unit :=
  tryCatch
    (call (CallGenerateSpeech responseText (js "nova")) ;;
     p <- ask (fun env => generateSpeech env responseText (js "nova")) ;;
     audioUrl <- await p ;;
     setMessages (updateById assistantId (with_audioUrl audioUrl)) ;;
     playAudio audioUrl)
    (fun _ => ret tt).

Definition processRecording (r : Render) : M Store unit :=
  functionBody
    (audioChunks <- gets audioChunksRef ;;
     when (length audioChunks =? 0)%nat returnM ;;
     setVoiceState (with_isProcessing true) ;;
     tryFinally
       (tryCatch
          ((* Create audio blob *)
           let audioBlob : Blob := concat audioChunks in
           when (length audioBlob <? MIN_BLOB_SIZE)%nat
                (setVoiceState (with_isProcessing false) ;; returnM) ;;
           (* Transcribe audio *)
           text <- tryCatch
                     (let arrayBuffer := audioBlob in
                      call (CallTranscribeAudio arrayBuffer (js "en") (js "whisper-1")) ;;
                      p <- ask (fun env => transcribeAudio env arrayBuffer) ;;
                      result <- await p ;;
                      ret (transcriptOf result))
                     (fun _ =>
                        setShowTextFallback true ;;
                        i <- dateNow ;;
                        t <- dateNow ;;
                        let errorMessage :=
                          mkMessage i assistant transcriptionErrorText None t None None in
                        setMessages (fun prev => prev ++ [errorMessage]) ;;
                        setVoiceState (with_isProcessing false) ;;
                        returnM) ;;
           when ((length text =? 0)%nat || (length text <? 2)%nat)
                (setShowTextFallback true ;;
                 i <- dateNow ;;
                 t <- dateNow ;;
                 let errorMessage :=
                   mkMessage i assistant unclearSpeechText None t None None in
                 setMessages (fun prev => prev ++ [errorMessage]) ;;
                 setVoiceState (with_isProcessing false) ;;
                 returnM) ;;
           (* Mark conversation as started *)
           when (negb (r_hasStartedConversation r)) (setHasStartedConversation true) ;;
           (* Add user message *)
           i <- dateNow ;;
           t <- dateNow ;;
           let userMessage := mkMessage i user text None t None None in
           setMessages (fun prev => prev ++ [userMessage]) ;;
           (* Determine best model and generate response *)
           let model := determineOptimalModel (r_selectedModel r) text in
           i <- dateNow ;;
           t <- dateNow ;;
           let assistantMessage :=
             mkMessage (i + 1) assistant [] (Some model) t None (Some true) in
           setMessages (fun prev => prev ++ [assistantMessage]) ;;
           (* Build conversation context *)
           let conversationHistory :=
             conversationHistoryOf (r_messages r) ++ [(user, text)] in
           responseText <-
             tryCatch
               (streamInto (id assistantMessage) conversationHistory model)
               (fun _ =>
                  let responseText := apology in
                  setMessages (updateById (id assistantMessage)
                                          (with_content responseText)) ;;
                  ret responseText) ;;
           (* Mark streaming as complete *)
           setMessages (updateById (id assistantMessage) (with_isStreaming false)) ;;
           speak (id assistantMessage) responseText ;;
           (* Mark conversation as complete *)
           call CallOnConversationComplete)
          (fun _ => ret tt))
       (setVoiceState (with_isProcessing false))).

(** The locals of [setupContinuousVoiceDetection] that its monitor
    updates from frame to frame. *)
Record Locals := mkLocals {
  speechStartTime : Z;
  lastSpeechTime : Z;
  isCurrentlyRecording : bool
}.

(** One frame of the monitor, as the component runs it.  The two functions
    it may call, [startAutomaticRecording] and [stopRecording], are
    followed in [Vad]; here their calls are recorded.  The analyser the
    frame tests first was created by the set-up and is not null. *)
Definition monitorVoiceActivity (l : Locals) : M Store Locals :=
  let SPEECH_THRESHOLD : Q := 15 in
  let SPEECH_START_DURATION : Z := 200%Z in
  let SPEECH_END_DURATION : Z := 1200%Z in
  let MIN_RECORDING_TIME : Z := 600%Z in
  rms <- ask analyserLevel ;;
  setVoiceState (with_audioLevel rms) ;;
  now <- dateNow ;;
  l <- (if negb (Qle_bool rms SPEECH_THRESHOLD) then
          detecting <- gets voiceDetectionRef ;;
          l <- (if negb detecting
                then setVoiceDetectionRef true ;;
                     ret (mkLocals now (lastSpeechTime l) (isCurrentlyRecording l))
                else ret l) ;;
          let l := mkLocals (speechStartTime l) now (isCurrentlyRecording l) in
          if negb (isCurrentlyRecording l) &&
             (SPEECH_START_DURATION <? now - speechStartTime l)%Z
          then call CallStartAutomaticRecording ;;
               ret (mkLocals (speechStartTime l) (lastSpeechTime l) true)
          else ret l
        else
          detecting <- gets voiceDetectionRef ;;
          if detecting && isCurrentlyRecording l then
            let silenceDuration := (now - lastSpeechTime l)%Z in
            started <- ask speechStartTimeRef ;;
            let recordingDuration := (now - started)%Z in
            if (SPEECH_END_DURATION <? silenceDuration)%Z &&
               (MIN_RECORDING_TIME <? recordingDuration)%Z
            then call CallStopRecording ;;
                 setVoiceDetectionRef false ;;
                 ret (mkLocals (speechStartTime l) (lastSpeechTime l) false)
            else ret l
          else if negb (isCurrentlyRecording l) then
            setVoiceDetectionRef false ;; ret l
          else ret l) ;;
  stream <- gets continuousStreamRef ;;
  when stream (call CallRequestAnimationFrame) ;;
  ret l.

(** The audio graph of the detector and the first frame of its monitor.
    The context is kept in its ref as soon as it exists; whatever is
    thrown after that, by the rest of the graph, is caught with the ref
    already set. *)
Definition setupContinuousVoiceDetection : M Store unit :=
  tryCatch
    (p <- ask audioContext ;;
     await p ;;
     setAudioContextRef true ;;
     thrown <- ask audioGraph ;;
     match thrown with Some e => throw e | None => ret tt end ;;
     let speechStartTime := 0%Z in
     let lastSpeechTime := 0%Z in
     let isCurrentlyRecording := false in
     setVoiceDetectionRef false ;;
     monitorVoiceActivity (mkLocals speechStartTime lastSpeechTime isCurrentlyRecording) ;;
     ret tt)
    (fun _ => ret tt).

Definition startContinuousListening (r : Render) : M Store unit :=
  functionBody
    (when (hasReachedLimit r) returnM ;;
     tryCatch
       (call CallGetUserMedia ;;
        p <- ask getUserMedia ;;
        await p ;;
        setContinuousStreamRef true ;;
        setVoiceState (with_isListening true) ;;
        setupContinuousVoiceDetection)
       (fun error =>
          match error with
          | NotAllowedError =>
              call (CallAlert (js "Microphone access denied. Please allow microphone access and try again."))
          | _ => ret tt
          end)).

Definition stopContinuousListening : M Store unit :=
  setContinuousStreamRef false ;;
  setAudioContextRef false ;;
  setVoiceState stoppedListening ;;
  setVoiceDetectionRef false.

(** New function to toggle conversation mode *)
Definition toggleConversationMode (r : Render) : M Store unit :=
  functionBody
    (when (hasReachedLimit r) returnM ;;
     if conversationMode (r_voiceState r)
     then (* Stop conversation mode *)
       stopContinuousListening ;; stopAudio
     else (* Start conversation mode *)
       startContinuousListening r ;;
       setVoiceState (with_conversationMode true)).

Definition handleTextSubmit (r : Render) (text : jsstring) : M Store unit :=
  functionBody
    (when ((length (trim text) =? 0)%nat || hasReachedLimit r) returnM ;;
     setVoiceState (with_isProcessing true) ;;
     tryFinally
       (tryCatch
          ((* Mark conversation as started *)
           when (negb (r_hasStartedConversation r)) (setHasStartedConversation true) ;;
           (* Add user message *)
           i <- dateNow ;;
           t <- dateNow ;;
           let userMessage := mkMessage i user text None t None None in
           setMessages (fun prev => prev ++ [userMessage]) ;;
           (* Generate AI response *)
           let model := determineOptimalModel (r_selectedModel r) text in
           i <- dateNow ;;
           t <- dateNow ;;
           let assistantMessage :=
             mkMessage (i + 1) assistant [] (Some model) t None (Some true) in
           setMessages (fun prev => prev ++ [assistantMessage]) ;;
           let conversationHistory :=
             conversationHistoryOf (r_messages r) ++ [(user, text)] in
           responseText <- streamInto (id assistantMessage) conversationHistory model ;;
           (* Mark streaming as complete *)
           setMessages (updateById (id assistantMessage) (with_isStreaming false)) ;;
           speak (id assistantMessage) responseText ;;
           setTextInput [] ;;
           setShowTextFallback false ;;
           call CallOnConversationComplete)
          (fun _ => ret tt))
       (setVoiceState (with_isProcessing false))).

(** The text fallback of the rendered page: it is rendered for a signed-in
    user below the limit while [showTextFallback] holds; the field carries
    [disabled={voiceState.isProcessing}] and the button
    [disabled={!textInput.trim() || voiceState.isProcessing}], and a
    disabled control delivers neither key presses nor clicks. *)
Definition textFallbackRendered (r : Render) : bool :=
  r_user r && negb (hasReachedLimit r) && r_showTextFallback r.

Definition pressEnterInTextField (r : Render) : M Store unit :=
  if negb (textFallbackRendered r) || isProcessing (r_voiceState r)
  then ret tt
  else handleTextSubmit r (r_textInput r).

Definition clickSend (r : Render) : M Store unit :=
  if negb (textFallbackRendered r) ||
     (length (trim (r_textInput r)) =? 0)%nat || isProcessing (r_voiceState r)
  then ret tt
  else handleTextSubmit r (r_textInput r).

(** The render that shows a given state under given props. *)
Definition renderOf (signedIn : bool) (conversationCount maxFreeConversations : Z)
           (selectedModel : jsstring) (st : Store) : Render :=
  mkRender signedIn conversationCount maxFreeConversations (messages st)
           (voiceState st) selectedModel (showTextFallback st) (textInput st)
           (hasStartedConversation st).

End ChatInterface.

(* ===================================================================== *)
(** * The voice-activity monitor *)
(* ===================================================================== *)

(** [setupContinuousVoiceDetection] and the two functions its monitor
    calls, the same in both variants but for the choice of a recording
    format.  The monitor is followed frame by frame, over the frames of
    one listening session; the 15 s timer of a recording and the buffer of
    chunks belong to the recorder and are not part of this state. *)
Module Vad.

Definition SPEECH_THRESHOLD : Q := 15.
Definition SPEECH_START_DURATION : Z := 200. (* 200ms of speech to start recording *)
Definition SPEECH_END_DURATION : Z := 1200.  (* 1.2s of silence to stop recording *)
Definition MIN_RECORDING_TIME : Z := 600.    (* Minimum 600ms recording *)

(** One animation frame: what [monitorVoiceActivity] observes. *)
Record Tick := mkTick {
  rms : Q;                    (* energy of the speech band of this frame *)
  now : Z;                    (* [Date.now()] read by the monitor *)
  startedAt : Z;              (* [Date.now()] read by [startAutomaticRecording] *)
  streamLive : bool;          (* [continuousStreamRef.current] is set *)
  recorderFails : bool;       (* [new MediaRecorder] would throw *)
  startFails : bool           (* [mediaRecorder.start()] would throw *)
}.

(** The voice state the callbacks handed to the monitor closed over. *)
Record Captured := mkCaptured { capIsRecording : bool; capIsProcessing : bool }.

Record State := mkState {
  (* locals of [setupContinuousVoiceDetection] *)
  speechStartTime : Z;
  lastSpeechTime : Z;
  isCurrentlyRecording : bool;
  (* refs *)
  voiceDetectionRef : bool;
  speechStartTimeRef : Z;
  mediaRecorderActive : bool; (* a recorder exists and is not inactive *)
  (* voice state *)
  isRecording : bool;
  audioLevel : Q
}.

Inductive Invocation := StartAutomaticRecording | StopRecording.

(** The component as mounted: nothing was ever recorded. *)
Definition initial : State := mkState 0 0 false false 0 false false 0.

(** [setupContinuousVoiceDetection] gives its monitor fresh locals and
    clears [voiceDetectionRef].  The voice state, [speechStartTimeRef] and
    the recorder are not touched: the monitor finds them as the component,
    in the state [prior], left them. *)
Definition setUp (prior : State) : State :=
  mkState 0 0 false false (speechStartTimeRef prior) (mediaRecorderActive prior)
          (isRecording prior) (audioLevel prior).

Definition aboveThreshold (t : Tick) : bool := negb (Qle_bool (rms t) SPEECH_THRESHOLD).

Definition stopRecording (s : State) : State :=
  if mediaRecorderActive s
  then mkState (speechStartTime s) (lastSpeechTime s) (isCurrentlyRecording s)
               (voiceDetectionRef s) (speechStartTimeRef s) false false 0
  else s.

Definition startAutomaticRecording (cap : Captured) (t : Tick) (s : State) : State :=
  if capIsRecording cap || capIsProcessing cap || negb (streamLive t) then s
  else if recorderFails t then s
  else if startFails t then
    (* the new recorder takes the place of the old one and the time is
       noted, but it is not recording and the flag is not set *)
    mkState (speechStartTime s) (lastSpeechTime s) (isCurrentlyRecording s)
            (voiceDetectionRef s) (startedAt t) false (isRecording s) (audioLevel s)
  else mkState (speechStartTime s) (lastSpeechTime s) (isCurrentlyRecording s)
               (voiceDetectionRef s) (startedAt t) true true (audioLevel s).

(** The call of [startAutomaticRecording] at frame [t] gets a recorder
    going: it passes the guard and nothing throws. *)
Definition startsRecorder (cap : Captured) (t : Tick) : bool :=
  negb (capIsRecording cap || capIsProcessing cap || negb (streamLive t)) &&
  negb (recorderFails t) && negb (startFails t).

Definition monitorVoiceActivity (cap : Captured) (s : State) (t : Tick)
  : list Invocation * State :=
  (* Update audio level for visual feedback *)
  let s := mkState (speechStartTime s) (lastSpeechTime s) (isCurrentlyRecording s)
                   (voiceDetectionRef s) (speechStartTimeRef s)
                   (mediaRecorderActive s) (isRecording s) (rms t) in
  (* Check for voice activity *)
  if aboveThreshold t then
    let s :=
      if negb (voiceDetectionRef s)
      then (* First detection of speech *)
        mkState (now t) (lastSpeechTime s) (isCurrentlyRecording s) true
                (speechStartTimeRef s) (mediaRecorderActive s) (isRecording s)
                (audioLevel s)
      else s in
    let s := mkState (speechStartTime s) (now t) (isCurrentlyRecording s)
                     (voiceDetectionRef s) (speechStartTimeRef s)
                     (mediaRecorderActive s) (isRecording s) (audioLevel s) in
    (* Start recording if we've had continuous speech for the threshold duration *)
    if negb (isCurrentlyRecording s) &&
       (SPEECH_START_DURATION <? now t - speechStartTime s)%Z
    then
      let s := mkState (speechStartTime s) (lastSpeechTime s) true
                       (voiceDetectionRef s) (speechStartTimeRef s)
                       (mediaRecorderActive s) (isRecording s) (audioLevel s) in
      ([StartAutomaticRecording], startAutomaticRecording cap t s)
    else ([], s)
  else
    (* Silence detected *)
    if voiceDetectionRef s && isCurrentlyRecording s then
      let silenceDuration := (now t - lastSpeechTime s)%Z in
      let recordingDuration := (now t - speechStartTimeRef s)%Z in
      (* Stop recording if we've had enough silence and minimum recording time *)
      if (SPEECH_END_DURATION <? silenceDuration)%Z &&
         (MIN_RECORDING_TIME <? recordingDuration)%Z
      then
        let s := mkState (speechStartTime s) (lastSpeechTime s) false
                         (voiceDetectionRef s) (speechStartTimeRef s)
                         (mediaRecorderActive s) (isRecording s) (audioLevel s) in
        let s := stopRecording s in
        ([StopRecording],
         mkState (speechStartTime s) (lastSpeechTime s) (isCurrentlyRecording s)
                 false (speechStartTimeRef s) (mediaRecorderActive s)
                 (isRecording s) (audioLevel s))
      else ([], s)
    else if negb (isCurrentlyRecording s) then
      (* Reset speech detection if not recording and no speech *)
      ([], mkState (speechStartTime s) (lastSpeechTime s) (isCurrentlyRecording s)
                   false (speechStartTimeRef s) (mediaRecorderActive s)
                   (isRecording s) (audioLevel s))
    else ([], s).

(** The monitor over the frames that ran, from the state it starts in:
    what it invoked, frame by frame, and the state it is left in. *)
Fixpoint monitor (cap : Captured) (s : State) (ticks : list Tick)
  : list (list Invocation) * State :=
  match ticks with
  | [] => ([], s)
  | t :: ticks' =>
      let (invoked, s') := monitorVoiceActivity cap s t in
      let (rest, s'') := monitor cap s' ticks' in
      (invoked :: rest, s'')
  end.

(** A listening session: the detector is set up in a component left in
    the state [prior], and the monitor runs over [ticks]. *)
Definition stateAfter (cap : Captured) (prior : State) (ticks : list Tick) : State :=
  snd (monitor cap (setUp prior) ticks).

Definition invocations (cap : Captured) (prior : State) (ticks : list Tick)
  : list Invocation :=
  concat (fst (monitor cap (setUp prior) ticks)).

(** What the monitor invokes at frame [t] after the frames [before]. *)
Definition invokedAt (cap : Captured) (prior : State) (before : list Tick) (t : Tick)
  : list Invocation :=
  fst (monitorVoiceActivity cap (stateAfter cap prior before) t).

(** What the monitor invokes over the frames [l] that follow [before]. *)
Definition invokedOver (cap : Captured) (prior : State) (before l : list Tick)
  : list Invocation :=
  concat (fst (monitor cap (stateAfter cap prior before) l)).

(** ** Reading the state of the monitor off the frames *)

Definition speech (t : Tick) : Prop := aboveThreshold t = true.
Definition silence (t : Tick) : Prop := aboveThreshold t = false.

(** The frames end in silence, or there are none. *)
Definition silentEnd (l : list Tick) : Prop :=
  l = [] \/ exists p tl, l = p ++ [tl] /\ silence tl.

(** [lastSpeechTime] is the time of the latest frame of speech. *)
Definition heard (before : list Tick) (s : State) : Prop :=
  exists pre tj sil,
    before = pre ++ tj :: sil /\ speech tj /\ Forall silence sil /\
    lastSpeechTime s = now tj.

(** [speechStartTime] is the time of the first frame of the run of
    speech the frames end in. *)
Definition episodeAt (before : list Tick) (s : State) : Prop :=
  exists pre first rest,
    before = pre ++ first :: rest /\ silentEnd pre /\
    Forall speech (first :: rest) /\ speechStartTime s = now first.

(** The recorder that is active after the frames [before] is the one
    started at the frame [ts]: at [ts] the monitor called
    [startAutomaticRecording], the call got a recorder going, and the
    monitor has called nothing since, so that recorder was neither stopped
    nor replaced. *)
Definition recordingSince (cap : Captured) (prior : State) (before : list Tick)
  (ts : Tick) : Prop :=
  exists b1 b2,
    before = b1 ++ ts :: b2 /\
    In StartAutomaticRecording (invokedAt cap prior b1 ts) /\
    startsRecorder cap ts = true /\
    invokedOver cap prior (b1 ++ [ts]) b2 = [].

(** The recorder that is active after the frames [before] was running
    when the detector was set up: no call of [startAutomaticRecording]
    since has got a recorder going. *)
Definition recordingFromBefore (cap : Captured) (prior : State) (before : list Tick)
  : Prop :=
  mediaRecorderActive prior = true /\
  forall b1 ts b2,
    before = b1 ++ ts :: b2 ->
    In StartAutomaticRecording (invokedAt cap prior b1 ts) ->
    startsRecorder cap ts = false.

(** Starts and stops take turns; [recording] tells which is due. *)
Fixpoint alternates (recording : bool) (l : list Invocation) : Prop :=
  match l with
  | [] => True
  | StartAutomaticRecording :: l' => recording = false /\ alternates true l'
  | StopRecording :: l' => recording = true /\ alternates false l'
  end.

End Vad.

(* ===================================================================== *)
(** * Vocabulary of the statements and sample runs *)
(* ===================================================================== *)

(** A transcription result that carries no text at all: the field is
    missing, or every code unit of it is white space. *)
Definition onlyWhiteSpace (text : option jsstring) : bool :=
  match text with
  | Some t => forallb isWhiteSpace t
  | None => true
  end.

(** The same collaborators, but for a transcription service that answers
    [text] to every clip. *)
Definition withTranscript (env : Env) (text : option jsstring) : Env :=
  {| clock := clock env;
     getUserMedia := getUserMedia env;
     audioContext := audioContext env;
     audioGraph := audioGraph env;
     analyserLevel := analyserLevel env;
     speechStartTimeRef := speechStartTimeRef env;
     transcribeAudio := fun _ => Resolved text;
     streamText := streamText env;
     generateSpeech := generateSpeech env;
     playback := playback env |}.

Definition isGenerateSpeech (c : Call) : bool :=
  match c with CallGenerateSpeech _ _ => true | _ => false end.

(** What a turn whose generation failed leaves behind.  [before] and [w]
    are the log and the world at entry, [heard] the transcription call,
    [history] and [sent] the arguments of the generation call; [c],
    [after] and [w'] are the completion, the log and the world at the end.
    The function does not throw; the log has grown by the user message
    and the assistant message of the turn, the latter holding the apology
    and no longer streaming; after transcription and generation, speech
    was requested once, for the apology. *)
Definition generationFailed (before : list Message) (w : World)
  (heard : Call) (history : list (Role * jsstring)) (sent : jsstring)
  (c : completion unit) (after : list Message) (w' : World) : Prop :=
  (c = Normal tt \/ c = Pending) /\
  (exists earlier a,
      after = earlier ++ [a] /\
      length earlier = S (length before) /\
      type a = assistant /\ content a = apology /\ isStreaming a = Some false) /\
  (exists rest,
      calls w' = calls w ++
                 [heard; CallStreamText history sent 300;
                  CallGenerateSpeech apology (js "nova")] ++ rest /\
      filter isGenerateSpeech rest = []).

Module Samples.

(** Services that hear [heard], generate [generated] and always speak. *)
Definition services (heard : outcome (option jsstring)) (generated : StreamOutcome)
  : Env :=
  {| clock := fun n => (1700000000000 + 7 * Z.of_nat n)%Z;
     getUserMedia := Resolved tt;
     audioContext := Resolved tt;
     audioGraph := None;
     analyserLevel := 3;
     speechStartTimeRef := 0;
     transcribeAudio := fun _ => heard;
     streamText := fun _ _ _ => generated;
     generateSpeech := fun _ _ => Resolved (js "blob:reply");
     playback := fun _ => PlaybackEnds |}.

Definition silent : StreamOutcome := {| chunks := []; settled := Resolved tt |}.
Definition failing : StreamOutcome :=
  {| chunks := [js "The ans"]; settled := Rejected ServiceError |}.

Definition world0 : World := {| clockReads := 0; calls := [] |}.

Definition click : list Blob := [[Byte.x1a; Byte.x45; Byte.xdf; Byte.xa3]].
Definition utterance : list Blob := [repeat Byte.x1a 400; repeat Byte.x45 400].

Definition greeting : Message :=
  mkMessage 1699999999000 assistant (js "Hello!") (Some (js "gpt-4o-mini"))
            1699999999000 None (Some false).

Definition appVoice (processing : bool) : App.VoiceState :=
  App.mkVoiceState false processing false 0 true App.continuous.
Definition appStore (processing : bool) (clip : list Blob) : App.Store :=
  App.mkStore true 1 [greeting] (appVoice processing) true (js "hi there") clip None.
Definition appRender (processing : bool) (clip : list Blob) : App.Render :=
  App.renderOf true (js "auto") (appStore processing clip).

Definition appRenderAt (count : Z) : App.Render :=
  App.mkRender true false count [] (appVoice false) (js "auto") false [].

Definition chatVoice (processing : bool) : ChatInterface.VoiceState :=
  ChatInterface.mkVoiceState false processing false 0 true true.
Definition chatStore (processing : bool) (clip : list Blob) : ChatInterface.Store :=
  ChatInterface.mkStore [greeting] (chatVoice processing) true (js "hi there")
                        true clip None true true false.
Definition chatRender (count : Z) (processing : bool) (clip : list Blob)
  : ChatInterface.Render :=
  ChatInterface.renderOf true count 8 (js "auto") (chatStore processing clip).

(** Frames of a session: speech from 0 ms, a pause, speech again. *)
Definition frame (level : Q) (time : Z) : Vad.Tick :=
  Vad.mkTick level time (time + 1) true false false.
Definition live : Vad.Captured := Vad.mkCaptured false false.
Definition speaking : list Vad.Tick :=
  [frame 20 0; frame 22 100; frame 25 250; frame 21 300].
Definition pausing : list Vad.Tick := [frame 3 1000].
Definition closing : Vad.Tick := frame 2 1501.
Definition resuming : list Vad.Tick := [frame 30 2000; frame 30 2100; frame 30 2201].

(** A frame at which the clock read by [startAutomaticRecording] is far
    ahead of the one the monitor read. *)
Definition delayed (level : Q) (time started : Z) : Vad.Tick :=
  Vad.mkTick level time started true false false.

(** The component after a session that was switched off in the middle of
    a recording: the recorder went with the stream, [isRecording] is
    still on. *)
Definition interrupted : Vad.State := Vad.mkState 0 0 false false 234 false true 0.

End Samples.

(* ===================================================================== *)
(** * Further vocabulary: the log of a turn, settling collaborators *)
(* ===================================================================== *)

(** The log after the chunks [cs] have been streamed into the message
    [assistantId], [responseText] being what was streamed before. *)
Fixpoint streamed (assistantId : Z) (responseText : jsstring) (cs : list jsstring)
         (log : list Message) : list Message :=
  match cs with
  | [] => log
  | chunk :: cs' =>
      streamed assistantId (responseText ++ chunk) cs'
               (updateById assistantId (with_content (responseText ++ chunk)) log)
  end.

(** Collaborators whose promises all settle and whose playback never stalls. *)
Definition settles (env : Env) : Prop :=
  (forall audio, transcribeAudio env audio <> Unsettled) /\
  (forall history model maxTokens,
      settled (streamText env history model maxTokens) <> Unsettled) /\
  (forall text voice, generateSpeech env text voice <> Unsettled) /\
  (forall audioUrl, playback env audioUrl <> PlaybackStalls).

(** A rewriting of a message that leaves its id and its author alone. *)
Definition keepsIdentity (f : Message -> Message) : Prop :=
  forall m, id (f m) = id m /\ type (f m) = type m.

(** [new] is [old] after [n] messages were pushed at its end and
    messages with the id [aid] were rewritten, in any order. *)
Inductive extends (aid : Z) (old : list Message) : nat -> list Message -> Prop :=
| extends_same : extends aid old 0 old
| extends_push n new m : extends aid old n new -> extends aid old (S n) (new ++ [m])
| extends_update n new f :
    keepsIdentity f -> extends aid old n new -> extends aid old n (updateById aid f new).

(** [k] is the message [o], or, where [o] carries the id [aid], a message
    with the id and the author of [o]. *)
Definition sameBut (aid : Z) (k o : Message) : Prop :=
  id k = id o /\ type k = type o /\ (id o <> aid -> k = o).

(** [new] is the log [old] with at most two messages added at its end; only
    messages with the id [aid] may have been rewritten, and these keep their
    id and their author. *)
Definition grown (aid : Z) (old new : list Message) : Prop :=
  exists kept added,
    new = kept ++ added /\ (length added <= 2)%nat /\ Forall2 (sameBut aid) kept old.

(** The id a turn that starts in the world [w] gives its reply: the third
    reading of the clock, plus one. *)
Definition turnId (env : Env) (w : World) : Z :=
  (clock env (S (S (clockReads w))) + 1)%Z.

Definition isConversationComplete (c : Call) : bool :=
  match c with CallOnConversationComplete => true | _ => false end.

(** How often the conversation-complete callback was called. *)
Definition completions (made : list Call) : nat :=
  length (filter isConversationComplete made).

Definition returned (c : completion unit) : bool :=
  match c with Normal _ => true | _ => false end.

Definition microphoneDenied : jsstring :=
  js "Microphone access denied. Please allow microphone access and try again.".

(** The voice state once [stopAudio] has run with [audio] in
    [currentAudioRef]. *)
Definition silenced (audio : option jsstring) (vs : ChatInterface.VoiceState)
  : ChatInterface.VoiceState :=
  match audio with
  | Some _ => ChatInterface.with_isPlaying false vs
  | None => vs
  end.

(* ===================================================================== *)
(** * The referral code of the subscription dialog, [src/unnamed/part_001] *)
(* ===================================================================== *)

Module SubscriptionModal.

Record State := mkState {
  referralCode : jsstring;
  isValidatingCode : bool;
  codeError : jsstring
}.

(** [\d] *)
Definition isDigit (c : N) : bool := ((48 <=? c) && (c <=? 57))%N.

(** A code unit against an upper-case letter of the pattern under [/i]:
    the letter itself or its lower-case form. *)
Definition matchesLetter (c letter : N) : bool := ((c =? letter) || (c =? letter + 32))%N.

(** [referralCode.match(/^ORKES(\d+)$/i)]: the digits captured, if the
    whole code matches. *)
Definition matchCode (code : jsstring) : option jsstring :=
  match code with
  | o :: r :: k :: e :: s :: digits =>
      if matchesLetter o 79 && matchesLetter r 82 && matchesLetter k 75 &&
         matchesLetter e 69 && matchesLetter s 83 &&
         negb (length digits =? 0)%nat && forallb isDigit digits
      then Some digits else None
  | _ => None
  end.

(** [parseInt] on a string of decimal digits.  The number is kept exact;
    the double the source computes lies on the same side of 1 and of 100. *)
Definition parseInt (digits : jsstring) : N :=
  fold_left (fun acc d => 10 * acc + (d - 48))%N digits 0%N.

Definition congratulations : jsstring :=
  [55356; 57225]%N ++
  js " Congratulations! Your referral code is valid. You now have lifetime free access to Orkestra AI!".

Definition invalidCode : jsstring :=
  js "Invalid referral code. Please check and try again.".

(** What the 1500 ms timer set by a validation will do; the granting timer
    closes over the code as it was typed. *)
Inductive Timer :=
| GrantAccess (code : jsstring)
| RejectCode.

Inductive Effect :=
| Alert (message : jsstring)
| SetItem (key value : jsstring)
| OnClose
| Reload.

Definition validateReferralCode (st : State) : State * option Timer :=
  if (length (trim (referralCode st)) =? 0)%nat then (st, None)
  else
    let st' := mkState (referralCode st) true [] in
    (* Check if code is in ORKES1-ORKES100 range *)
    match matchCode (referralCode st) with
    | Some digits =>
        let codeNumber := parseInt digits in
        if ((1 <=? codeNumber) && (codeNumber <=? 100))%N
        then (* Valid code - grant lifetime free access *)
          (st', Some (GrantAccess (referralCode st)))
        else (st', Some RejectCode)
    | None => (* Invalid code *) (st', Some RejectCode)
    end.

(** The callback of the timer. *)
Definition fire (t : Timer) (st : State) : State * list Effect :=
  match t with
  | GrantAccess code =>
      (mkState (referralCode st) false (codeError st),
       [Alert congratulations;
        SetItem (js "orkestra_lifetime_access") (js "true");
        SetItem (js "orkestra_referral_code") code;
        OnClose;
        Reload])
  | RejectCode => (mkState (referralCode st) false invalidCode, [])
  end.

(** The code gives lifetime access. *)
Definition grants (code : jsstring) : bool :=
  match snd (validateReferralCode (mkState code false [])) with
  | Some (GrantAccess _) => true
  | _ => false
  end.

(** The number a string of decimal digits writes. *)
Fixpoint decimal (digits : jsstring) : N :=
  match digits with
  | [] => 0
  | d :: rest => (d - 48) * 10 ^ N.of_nat (length rest) + decimal rest
  end%N.

End SubscriptionModal.

Module Scenes.

(** Services that hear and generate but whose speech synthesis fails. *)
Definition mute (heard : outcome (option jsstring)) (generated : StreamOutcome) : Env :=
  {| clock := fun n => (1700000000000 + 7 * Z.of_nat n)%Z;
     getUserMedia := Resolved tt;
     audioContext := Resolved tt;
     audioGraph := None;
     analyserLevel := 3;
     speechStartTimeRef := 0;
     transcribeAudio := fun _ => heard;
     streamText := fun _ _ _ => generated;
     generateSpeech := fun _ _ => Rejected ServiceError;
     playback := fun _ => PlaybackEnds |}.

(** A browser that refuses the microphone. *)
Definition noMicrophone : Env :=
  {| clock := fun n => (1700000000000 + 7 * Z.of_nat n)%Z;
     getUserMedia := Rejected NotAllowedError;
     audioContext := Resolved tt;
     audioGraph := None;
     analyserLevel := 3;
     speechStartTimeRef := 0;
     transcribeAudio := fun _ => Rejected ServiceError;
     streamText := fun _ _ _ => Samples.silent;
     generateSpeech := fun _ _ => Rejected ServiceError;
     playback := fun _ => PlaybackEnds |}.

(** A browser whose microphone already hears speech when the detector
    is set up. *)
Definition speechAtOnce : Env :=
  {| clock := fun n => (1700000000000 + 7 * Z.of_nat n)%Z;
     getUserMedia := Resolved tt;
     audioContext := Resolved tt;
     audioGraph := None;
     analyserLevel := 40;
     speechStartTimeRef := 0;
     transcribeAudio := fun _ => Rejected ServiceError;
     streamText := fun _ _ _ => Samples.silent;
     generateSpeech := fun _ _ => Rejected ServiceError;
     playback := fun _ => PlaybackEnds |}.

(** A browser that makes the audio context but cannot connect the
    microphone to the analyser. *)
Definition brokenGraph : Env :=
  {| clock := fun n => (1700000000000 + 7 * Z.of_nat n)%Z;
     getUserMedia := Resolved tt;
     audioContext := Resolved tt;
     audioGraph := Some ServiceError;
     analyserLevel := 40;
     speechStartTimeRef := 0;
     transcribeAudio := fun _ => Rejected ServiceError;
     streamText := fun _ _ _ => Samples.silent;
     generateSpeech := fun _ _ => Rejected ServiceError;
     playback := fun _ => PlaybackEnds |}.

Definition answering : StreamOutcome :=
  {| chunks := [js "Once upon"; js " a time."]; settled := Resolved tt |}.

Definition story : option jsstring := Some (js "tell me a story").

(** The chat component at rest, conversation mode off. *)
Definition resting : ChatInterface.Store :=
  ChatInterface.mkStore [Samples.greeting]
    (ChatInterface.mkVoiceState false false false 0 false false)
    false [] true [] None false false false.

(** The chat component in conversation mode, listening. *)
Definition listening : ChatInterface.Store :=
  ChatInterface.mkStore [Samples.greeting]
    (ChatInterface.mkVoiceState false false false 0 true true)
    false [] true [] None true true false.

(** The chat component listening while a reply is playing. *)
Definition playing : ChatInterface.Store :=
  ChatInterface.mkStore [Samples.greeting]
    (ChatInterface.mkVoiceState false false true 12 true true)
    false [] true [] (Some (js "blob:reply")) true true true.

Definition chatRenderOf (st : ChatInterface.Store) : ChatInterface.Render :=
  ChatInterface.renderOf true 1 8 (js "auto") st.

End Scenes.

(* ===================================================================== *)
(** * Facts about strings *)
(* ===================================================================== *)

Lemma jsstring_eqb_eq (a b : jsstring) : jsstring_eqb a b = true <-> a = b.
Proof.
  revert b; induction a as [|x a IH]; intros [|y b]; simpl;
    try (split; [discriminate | congruence]); try tauto.
  rewrite andb_true_iff, N.eqb_eq, IH. split.
  - intros [-> ->]; reflexivity.
  - intros E; injection E; auto.
Qed.

Lemma startsWith_prefix (s kw : jsstring) :
  startsWith s kw = true <-> exists post, s = kw ++ post.
Proof.
  revert s; induction kw as [|k kw IH]; intros s; simpl.
  - split; [intros _; exists s; reflexivity | destruct s; reflexivity].
  - destruct s as [|c s].
    + split; [discriminate | intros [post E]; discriminate].
    + simpl. rewrite andb_true_iff, N.eqb_eq, IH. split.
      * intros [-> [post ->]]. exists post; reflexivity.
      * intros [post E]. injection E as -> ->. split; [reflexivity | now exists post].
Qed.

Lemma includes_infix (s kw : jsstring) :
  includes s kw = true <-> exists pre post, s = pre ++ kw ++ post.
Proof.
  induction s as [|c s IH].
  - cbn [includes]. rewrite orb_false_r, startsWith_prefix. split.
    + intros [post E]. exists [], post. exact E.
    + intros [pre [post E]]. destruct pre as [|x pre]; [|discriminate].
      exists post. exact E.
  - cbn [includes]. rewrite orb_true_iff, startsWith_prefix, IH. split.
    + intros [[post E] | [pre [post E]]].
      * exists [], post. exact E.
      * exists (c :: pre), post. simpl. now rewrite E.
    + intros [pre [post E]]. destruct pre as [|x pre].
      * left. exists post. exact E.
      * right. injection E as _ E. now exists pre, post.
Qed.

Lemma map_eq_app_split {A B} (f : A -> B) (l : list A) (u v : list B) :
  map f l = u ++ v -> exists a b, l = a ++ b /\ map f a = u /\ map f b = v.
Proof.
  revert l; induction u as [|x u IH]; intros l E; simpl in E.
  - exists [], l. auto.
  - destruct l as [|y l]; [discriminate|]. simpl in E. injection E as Ex E.
    destruct (IH _ E) as [a [b [-> [Ea Eb]]]].
    exists (y :: a), b. simpl. now rewrite Ex, Ea, Eb.
Qed.

(** The boolean test of the source decides case-insensitive occurrence. *)
Lemma mentionsb_mentions (p kw : jsstring) :
  mentionsb p kw = true <-> mentions p kw.
Proof.
  unfold mentionsb, mentions, toLowerCase. rewrite includes_infix. split.
  - intros [pre [post E]].
    destruct (map_eq_app_split _ _ _ _ E) as [a [r [-> [_ Er]]]].
    destruct (map_eq_app_split _ _ _ _ Er) as [w [b [-> [Ew _]]]].
    now exists a, w, b.
  - intros [pre [w [post [-> <-]]]].
    exists (map lowerUnit pre), (map lowerUnit post).
    now rewrite !map_app.
Qed.

(** Lowering is idempotent, so matching does not depend on the case of
    the letters of the utterance. *)
Lemma lowerUnit_idem (c : N) : lowerUnit (lowerUnit c) = lowerUnit c.
Proof.
  unfold lowerUnit.
  destruct ((65 <=? c) && (c <=? 90))%N eqn:E; [|now rewrite E].
  apply andb_true_iff in E. destruct E as [E1 E2].
  apply N.leb_le in E1, E2.
  destruct ((65 <=? c + 32) && (c + 32 <=? 90))%N eqn:E'; [|reflexivity].
  apply andb_true_iff in E'. destruct E' as [_ E']. apply N.leb_le in E'. lia.
Qed.

Lemma toLowerCase_idem (s : jsstring) : toLowerCase (toLowerCase s) = toLowerCase s.
Proof.
  unfold toLowerCase. rewrite map_map. apply map_ext. apply lowerUnit_idem.
Qed.

(* ===================================================================== *)
(** * Properties of the model router *)
(* ===================================================================== *)

(** C8. With an explicit override selected, that is any model other than
    [auto], [determineOptimalModel] returns the override whatever the
    utterance says. *)
Theorem determineOptimalModel_override (utterance override : jsstring)
  (Hoverride : override <> js "auto") :
  determineOptimalModel override utterance = override.
Proof.
  unfold determineOptimalModel.
  destruct (jsstring_eqb override (js "auto")) eqn:E; [|reflexivity].
  apply jsstring_eqb_eq in E. contradiction.
Qed.

Lemma determineOptimalModel_override_witness :
  js "gpt-4o" <> js "auto" /\
  determineOptimalModel (js "gpt-4o") (js "write me a poem") = js "gpt-4o".
Proof.
  split; [discriminate|].
  apply (determineOptimalModel_override (js "write me a poem")). discriminate.
Defined.

Lemma mentionsAny_decided (utterance : jsstring) (keywords : list jsstring) :
  existsb (mentionsb utterance) keywords = true <-> mentionsAny utterance keywords.
Proof.
  unfold mentionsAny. rewrite existsb_exists.
  split; intros [kw [Hin H]]; exists kw; split; auto; now apply mentionsb_mentions.
Qed.

Lemma determineOptimalModel_table (utterance override : jsstring) :
  determineOptimalModel override utterance = selectModel_spec utterance override.
Proof.
  unfold determineOptimalModel, selectModel_spec.
  destruct (jsstring_eqb override (js "auto")); [|reflexivity].
  cbn [negb routingTable find fst snd existsb codeKeywords creativeKeywords
       analysisKeywords].
  unfold mentionsb. rewrite !orb_false_r, !orb_assoc.
  repeat match goal with
         | |- context [if ?b then _ else _] => destruct b
         end; reflexivity.
Qed.

(** C9. In auto mode the router is the precedence table of the
    specification.  Reading the utterance without regard to the case of
    its letters: if it contains one of [code], [programming], [function],
    [debug] the model is [gpt-4o]; otherwise, if it contains one of
    [write], [story], [creative], [poem], it is
    [claude-3-5-sonnet-20241022]; otherwise, if it contains one of
    [analyze], [explain], [compare], [why], it is [gpt-4o]; otherwise it
    is [gpt-4o-mini].  The result is a function of the utterance and the
    override alone, the same for an utterance and its lower-case form. *)
Theorem determineOptimalModel_auto_table :
  forall utterance : jsstring,
    let routed := determineOptimalModel (js "auto") utterance in
    routed = selectModel_spec utterance (js "auto") /\
    (mentionsAny utterance codeKeywords -> routed = js "gpt-4o") /\
    (~ mentionsAny utterance codeKeywords ->
     mentionsAny utterance creativeKeywords ->
     routed = js "claude-3-5-sonnet-20241022") /\
    (~ mentionsAny utterance codeKeywords ->
     ~ mentionsAny utterance creativeKeywords ->
     mentionsAny utterance analysisKeywords ->
     routed = js "gpt-4o") /\
    (~ mentionsAny utterance codeKeywords ->
     ~ mentionsAny utterance creativeKeywords ->
     ~ mentionsAny utterance analysisKeywords ->
     routed = js "gpt-4o-mini") /\
    determineOptimalModel (js "auto") (toLowerCase utterance) = routed.
Proof.
  intros u routed. subst routed.
  rewrite !determineOptimalModel_table. unfold selectModel_spec.
  cbn [jsstring_eqb js list_ascii_of_string map N_of_ascii N.eqb Pos.eqb andb
       routingTable find fst snd].
  pose proof (mentionsAny_decided u codeKeywords) as Hcode.
  pose proof (mentionsAny_decided u creativeKeywords) as Hcreative.
  pose proof (mentionsAny_decided u analysisKeywords) as Hanalysis.
  assert (Hlower : forall kws,
             existsb (mentionsb (toLowerCase u)) kws = existsb (mentionsb u) kws).
  { intros kws. induction kws as [|kw kws IH]; [reflexivity|].
    cbn [existsb]. rewrite IH. unfold mentionsb. now rewrite toLowerCase_idem. }
  rewrite !Hlower.
  destruct (existsb (mentionsb u) codeKeywords);
    destruct (existsb (mentionsb u) creativeKeywords);
    destruct (existsb (mentionsb u) analysisKeywords);
    cbn [snd]; repeat split; try reflexivity; intros;
    repeat match goal with
           | H : ~ mentionsAny _ _ |- _ =>
               exfalso; apply H;
               first [apply Hcode | apply Hcreative | apply Hanalysis]; reflexivity
           | H : mentionsAny _ _ |- _ =>
               first [apply Hcode in H | apply Hcreative in H | apply Hanalysis in H];
               discriminate
           end.
Qed.

Lemma determineOptimalModel_auto_table_witness :
  let utterance := js "Write a short STORY" in
  ~ mentionsAny utterance codeKeywords /\
  mentionsAny utterance creativeKeywords /\
  determineOptimalModel (js "auto") utterance = js "claude-3-5-sonnet-20241022".
Proof.
  cbv zeta.
  assert (Hcode : ~ mentionsAny (js "Write a short STORY") codeKeywords).
  { intros H. apply mentionsAny_decided in H. vm_compute in H. discriminate. }
  assert (Hcreative : mentionsAny (js "Write a short STORY") creativeKeywords).
  { apply mentionsAny_decided. vm_compute. reflexivity. }
  split; [exact Hcode|]. split; [exact Hcreative|].
  exact (proj1 (proj2 (proj2 (determineOptimalModel_auto_table
                                (js "Write a short STORY")))) Hcode Hcreative).
Defined.

Example route_debug :
  determineOptimalModel (js "auto") (js "please debug this function") = js "gpt-4o".
Proof. reflexivity. Qed.

Example route_story :
  determineOptimalModel (js "auto") (js "Write a short STORY") =
  js "claude-3-5-sonnet-20241022".
Proof. reflexivity. Qed.

Example route_precedence :
  determineOptimalModel (js "auto") (js "explain why my poem about code is bad") =
  js "gpt-4o".
Proof. reflexivity. Qed.

Example route_default :
  determineOptimalModel (js "auto") (js "hello there") = js "gpt-4o-mini".
Proof. reflexivity. Qed.

(* ===================================================================== *)
(** * Finalizing a recording *)
(* ===================================================================== *)

(** Symbolic runs of an async function: the state is taken apart into its
    fields, then the effects are unfolded. *)
Ltac store_fields :=
  cbn [clockReads calls
       App.showChat App.conversationCount App.messages App.voiceState
       App.showTextFallback App.textInput App.audioChunksRef App.currentAudioRef
       ChatInterface.messages ChatInterface.voiceState ChatInterface.showTextFallback
       ChatInterface.textInput ChatInterface.hasStartedConversation
       ChatInterface.audioChunksRef ChatInterface.currentAudioRef
       ChatInterface.audioContextRef ChatInterface.continuousStreamRef
       ChatInterface.voiceDetectionRef] in *.

Ltac enter st w := destruct st; destruct w; store_fields.

Ltac unfold_effects :=
  cbv beta iota delta
    [bind ret returnM throw gets modify ask when dateNow call await tryCatch
     tryFinally functionBody fst snd clockReads calls
     App.setShowChat App.setConversationCount App.setMessages App.setVoiceState
     App.setShowTextFallback App.setTextInput App.setCurrentAudioRef
     App.showChat App.conversationCount App.messages App.voiceState
     App.showTextFallback App.textInput App.audioChunksRef App.currentAudioRef
     ChatInterface.setMessages ChatInterface.setVoiceState
     ChatInterface.setShowTextFallback ChatInterface.setTextInput
     ChatInterface.setHasStartedConversation ChatInterface.setCurrentAudioRef
     ChatInterface.setAudioContextRef ChatInterface.setContinuousStreamRef
     ChatInterface.setVoiceDetectionRef
     ChatInterface.messages ChatInterface.voiceState ChatInterface.showTextFallback
     ChatInterface.textInput ChatInterface.hasStartedConversation
     ChatInterface.audioChunksRef ChatInterface.currentAudioRef
     ChatInterface.audioContextRef ChatInterface.continuousStreamRef
     ChatInterface.voiceDetectionRef].

Lemma length_zero_false {A} (l : list A) : l <> [] -> (length l =? 0)%nat = false.
Proof. destruct l; [congruence | reflexivity]. Qed.

Lemma app_processRecording_small (r : App.Render) (env : Env) (st : App.Store) (w : World)
  (Hchunks : App.audioChunksRef st <> [])
  (Hsmall : (length (concat (App.audioChunksRef st)) < App.MIN_BLOB_SIZE)%nat) :
  App.processRecording r env (st, w) =
  (Normal tt,
   (App.mkStore (App.showChat st) (App.conversationCount st) (App.messages st)
      (App.with_isProcessing false (App.voiceState st))
      (App.showTextFallback st) (App.textInput st) (App.audioChunksRef st)
      (App.currentAudioRef st), w)).
Proof.
  enter st w. unfold App.processRecording. unfold_effects.
  rewrite (length_zero_false _ Hchunks).
  apply Nat.ltb_lt in Hsmall. rewrite Hsmall.
  reflexivity.
Qed.

Lemma chat_processRecording_small (r : ChatInterface.Render) (env : Env)
  (st : ChatInterface.Store) (w : World)
  (Hchunks : ChatInterface.audioChunksRef st <> [])
  (Hsmall : (length (concat (ChatInterface.audioChunksRef st))
             < ChatInterface.MIN_BLOB_SIZE)%nat) :
  ChatInterface.processRecording r env (st, w) =
  (Normal tt,
   (ChatInterface.mkStore (ChatInterface.messages st)
      (ChatInterface.with_isProcessing false (ChatInterface.voiceState st))
      (ChatInterface.showTextFallback st) (ChatInterface.textInput st)
      (ChatInterface.hasStartedConversation st) (ChatInterface.audioChunksRef st)
      (ChatInterface.currentAudioRef st) (ChatInterface.audioContextRef st)
      (ChatInterface.continuousStreamRef st) (ChatInterface.voiceDetectionRef st), w)).
Proof.
  enter st w. unfold ChatInterface.processRecording. unfold_effects.
  rewrite (length_zero_false _ Hchunks).
  apply Nat.ltb_lt in Hsmall. rewrite Hsmall.
  reflexivity.
Qed.

(** With nothing buffered the function returns at once and touches nothing. *)
Lemma app_processRecording_empty (r : App.Render) (env : Env) (st : App.Store) (w : World) :
  App.audioChunksRef st = [] ->
  App.processRecording r env (st, w) = (Normal tt, (st, w)).
Proof.
  intros H. enter st w. unfold App.processRecording. unfold_effects.
  rewrite H. reflexivity.
Qed.

Lemma chat_processRecording_empty (r : ChatInterface.Render) (env : Env)
  (st : ChatInterface.Store) (w : World) :
  ChatInterface.audioChunksRef st = [] ->
  ChatInterface.processRecording r env (st, w) = (Normal tt, (st, w)).
Proof.
  intros H. enter st w. unfold ChatInterface.processRecording. unfold_effects.
  rewrite H. reflexivity.
Qed.

(** A clip that is large enough passes the size guards. *)
Lemma large_enough (n m : nat) : (m <= n)%nat -> (n <? m)%nat = false.
Proof. intros H. apply Nat.ltb_ge. exact H. Qed.

Lemma short_transcript (text : jsstring) :
  (length text < 2)%nat -> ((length text =? 0)%nat || (length text <? 2)%nat) = true.
Proof.
  intros H. apply Nat.ltb_lt in H. rewrite H. apply orb_true_r.
Qed.

(** The "couldn't hear you" exit of [processRecording], whole final state. *)
Lemma app_processRecording_unclear (r : App.Render) (env : Env) (st : App.Store)
  (w : World) (text : option jsstring)
  (Hchunks : App.audioChunksRef st <> [])
  (Hsize : (App.MIN_BLOB_SIZE <= length (concat (App.audioChunksRef st)))%nat)
  (Huser : App.r_user r = true)
  (Htranscribed : transcribeAudio env (concat (App.audioChunksRef st)) = Resolved text)
  (Hshort : (length (App.transcriptOf text) < 2)%nat) :
  App.processRecording r env (st, w) =
  (Normal tt,
   (App.mkStore (App.showChat st) (App.conversationCount st)
      (App.messages st ++
       [mkMessage (clock env (clockReads w)) assistant App.unclearSpeechText None
                  (clock env (S (clockReads w))) None None])
      (App.with_isProcessing false (App.voiceState st))
      true (App.textInput st) (App.audioChunksRef st) (App.currentAudioRef st),
    {| clockReads := S (S (clockReads w));
       calls := calls w ++
                [CallTranscribeAudio (concat (App.audioChunksRef st))
                                     (js "en") (js "whisper-1")] |})).
Proof.
  assert (Hnz : (length (concat (App.audioChunksRef st)) =? 0)%nat = false).
  { apply Nat.eqb_neq. unfold App.MIN_BLOB_SIZE in Hsize. lia. }
  enter st w. unfold App.processRecording. unfold_effects.
  rewrite (length_zero_false _ Hchunks), (large_enough _ _ Hsize).
  rewrite Hnz, Huser. cbn [negb]. rewrite Htranscribed.
  rewrite (short_transcript _ Hshort). reflexivity.
Qed.

Lemma chat_processRecording_unclear (r : ChatInterface.Render) (env : Env)
  (st : ChatInterface.Store) (w : World) (text : option jsstring)
  (Hchunks : ChatInterface.audioChunksRef st <> [])
  (Hsize : (ChatInterface.MIN_BLOB_SIZE
            <= length (concat (ChatInterface.audioChunksRef st)))%nat)
  (Htranscribed :
     transcribeAudio env (concat (ChatInterface.audioChunksRef st)) = Resolved text)
  (Hshort : (length (ChatInterface.transcriptOf text) < 2)%nat) :
  ChatInterface.processRecording r env (st, w) =
  (Normal tt,
   (ChatInterface.mkStore
      (ChatInterface.messages st ++
       [mkMessage (clock env (clockReads w)) assistant
                  ChatInterface.unclearSpeechText None
                  (clock env (S (clockReads w))) None None])
      (ChatInterface.with_isProcessing false (ChatInterface.voiceState st))
      true (ChatInterface.textInput st)
      (ChatInterface.hasStartedConversation st) (ChatInterface.audioChunksRef st)
      (ChatInterface.currentAudioRef st) (ChatInterface.audioContextRef st)
      (ChatInterface.continuousStreamRef st) (ChatInterface.voiceDetectionRef st),
    {| clockReads := S (S (clockReads w));
       calls := calls w ++
                [CallTranscribeAudio (concat (ChatInterface.audioChunksRef st))
                                     (js "en") (js "whisper-1")] |})).
Proof.
  enter st w. unfold ChatInterface.processRecording. unfold_effects.
  rewrite (length_zero_false _ Hchunks), (large_enough _ _ Hsize).
  rewrite Htranscribed.
  rewrite (short_transcript _ Hshort). reflexivity.
Qed.

Lemma trimStart_whiteSpace (t : jsstring) :
  forallb isWhiteSpace t = true -> trimStart t = [].
Proof.
  induction t as [|c t IH]; [reflexivity|].
  cbn [forallb trimStart]. intros H. apply andb_true_iff in H. destruct H as [Hc Ht].
  rewrite Hc. auto.
Qed.

Lemma trim_whiteSpace (t : jsstring) : forallb isWhiteSpace t = true -> trim t = [].
Proof.
  intros H. unfold trim. rewrite (trimStart_whiteSpace _ H). reflexivity.
Qed.

Lemma app_transcriptOf_blank (text : option jsstring) :
  onlyWhiteSpace text = true -> App.transcriptOf text = [].
Proof.
  destruct text as [t|]; [|reflexivity]. cbn. intros H.
  now rewrite (trim_whiteSpace _ H).
Qed.

Lemma chat_transcriptOf_blank (text : option jsstring) :
  onlyWhiteSpace text = true -> ChatInterface.transcriptOf text = [].
Proof.
  destruct text as [t|]; [|reflexivity]. cbn. intros H.
  now rewrite (trim_whiteSpace _ H).
Qed.

Lemma app_already_idle (vs : App.VoiceState) :
  App.isProcessing vs = false -> App.with_isProcessing false vs = vs.
Proof. destruct vs. cbn. intros ->. reflexivity. Qed.

Lemma chat_already_idle (vs : ChatInterface.VoiceState) :
  ChatInterface.isProcessing vs = false -> ChatInterface.with_isProcessing false vs = vs.
Proof. destruct vs. cbn. intros ->. reflexivity. Qed.

(** C5. A finalized clip below the minimum size (100 bytes in [App], 500
    in [ChatInterface]) is discarded: [processRecording] returns with no
    call to any collaborator, so none to transcription and none to the
    conversation-complete callback, appends no message, and leaves the
    voice state as it was with the processing flag off.  The clip is
    built from at least one chunk; a recording that buffered nothing is
    turned away before the flag is touched, so there the flag is off
    when no other turn had set it. *)
Theorem small_clip_never_transcribed :
  (forall (r : App.Render) (env : Env) (st : App.Store) (w : World),
      (length (concat (App.audioChunksRef st)) < 100)%nat ->
      App.audioChunksRef st <> [] \/ App.isProcessing (App.voiceState st) = false ->
      let '(c, (st', w')) := App.processRecording r env (st, w) in
      c = Normal tt /\
      calls w' = calls w /\
      App.messages st' = App.messages st /\
      App.voiceState st' = App.with_isProcessing false (App.voiceState st) /\
      App.isProcessing (App.voiceState st') = false /\
      App.conversationCount st' = App.conversationCount st) /\
  (forall (r : ChatInterface.Render) (env : Env) (st : ChatInterface.Store) (w : World),
      (length (concat (ChatInterface.audioChunksRef st)) < 500)%nat ->
      ChatInterface.audioChunksRef st <> [] \/
      ChatInterface.isProcessing (ChatInterface.voiceState st) = false ->
      let '(c, (st', w')) := ChatInterface.processRecording r env (st, w) in
      c = Normal tt /\
      calls w' = calls w /\
      ChatInterface.messages st' = ChatInterface.messages st /\
      ChatInterface.voiceState st' =
        ChatInterface.with_isProcessing false (ChatInterface.voiceState st) /\
      ChatInterface.isProcessing (ChatInterface.voiceState st') = false).
Proof.
  split; intros r env st w Hsmall Hclip.
  - destruct (App.audioChunksRef st) as [|chunk rest] eqn:Hbuffer.
    + destruct Hclip as [Hclip | Hidle]; [congruence|].
      rewrite (app_processRecording_empty r env st w Hbuffer).
      rewrite (app_already_idle _ Hidle). auto 10.
    + assert (Hchunks : App.audioChunksRef st <> []) by congruence.
      rewrite <- Hbuffer in Hsmall.
      rewrite (app_processRecording_small r env st w Hchunks Hsmall). cbn. auto 10.
  - destruct (ChatInterface.audioChunksRef st) as [|chunk rest] eqn:Hbuffer.
    + destruct Hclip as [Hclip | Hidle]; [congruence|].
      rewrite (chat_processRecording_empty r env st w Hbuffer).
      rewrite (chat_already_idle _ Hidle). auto 10.
    + assert (Hchunks : ChatInterface.audioChunksRef st <> []) by congruence.
      rewrite <- Hbuffer in Hsmall.
      rewrite (chat_processRecording_small r env st w Hchunks Hsmall). cbn. auto 10.
Qed.

Lemma small_clip_never_transcribed_witness :
  (let r := Samples.appRender false Samples.click in
   let env := Samples.services (Resolved (Some (js "hello"))) Samples.silent in
   let st := Samples.appStore false Samples.click in
   (length (concat (App.audioChunksRef st)) < 100)%nat /\
   (App.audioChunksRef st <> [] \/ App.isProcessing (App.voiceState st) = false) /\
   let '(c, (st', w')) := App.processRecording r env (st, Samples.world0) in
   c = Normal tt /\
   calls w' = calls Samples.world0 /\
   App.messages st' = App.messages st /\
   App.voiceState st' = App.with_isProcessing false (App.voiceState st) /\
   App.isProcessing (App.voiceState st') = false /\
   App.conversationCount st' = App.conversationCount st) /\
  (let r := Samples.chatRender 1 false Samples.click in
   let env := Samples.services (Resolved (Some (js "hello"))) Samples.silent in
   let st := Samples.chatStore false Samples.click in
   (length (concat (ChatInterface.audioChunksRef st)) < 500)%nat /\
   (ChatInterface.audioChunksRef st <> [] \/
    ChatInterface.isProcessing (ChatInterface.voiceState st) = false) /\
   let '(c, (st', w')) := ChatInterface.processRecording r env (st, Samples.world0) in
   c = Normal tt /\
   calls w' = calls Samples.world0 /\
   ChatInterface.messages st' = ChatInterface.messages st /\
   ChatInterface.voiceState st' =
     ChatInterface.with_isProcessing false (ChatInterface.voiceState st) /\
   ChatInterface.isProcessing (ChatInterface.voiceState st') = false).
Proof.
  split; cbv zeta.
  - split; [cbn; lia|]. split; [left; discriminate|].
    apply (proj1 small_clip_never_transcribed
                 (Samples.appRender false Samples.click)
                 (Samples.services (Resolved (Some (js "hello"))) Samples.silent)
                 (Samples.appStore false Samples.click) Samples.world0);
      [cbn; lia | left; discriminate].
  - split; [cbn; lia|]. split; [left; discriminate|].
    apply (proj2 small_clip_never_transcribed
                 (Samples.chatRender 1 false Samples.click)
                 (Samples.services (Resolved (Some (js "hello"))) Samples.silent)
                 (Samples.chatStore false Samples.click) Samples.world0);
      [cbn; lia | left; discriminate].
Defined.

(** C3. When transcription returns and the transcript is empty or shorter
    than 2 characters, [processRecording] appends exactly one message,
    written by the assistant and holding the fallback text, and no user
    message; the transcription call is the only call it makes, so neither
    generation nor the conversation-complete callback is reached and the
    conversation count stays as it was; the text fallback is shown and
    the processing flag is cleared. *)
Theorem unclear_transcript_falls_back :
  (forall (r : App.Render) (env : Env) (st : App.Store) (w : World)
          (text : option jsstring),
      App.audioChunksRef st <> [] ->
      (100 <= length (concat (App.audioChunksRef st)))%nat ->
      App.r_user r = true ->
      transcribeAudio env (concat (App.audioChunksRef st)) = Resolved text ->
      (length (App.transcriptOf text) < 2)%nat ->
      let '(c, (st', w')) := App.processRecording r env (st, w) in
      c = Normal tt /\
      (exists m, App.messages st' = App.messages st ++ [m] /\
                 type m = assistant /\ content m = App.unclearSpeechText) /\
      calls w' = calls w ++ [CallTranscribeAudio (concat (App.audioChunksRef st))
                                                 (js "en") (js "whisper-1")] /\
      App.conversationCount st' = App.conversationCount st /\
      App.showTextFallback st' = true /\
      App.voiceState st' = App.with_isProcessing false (App.voiceState st) /\
      App.isProcessing (App.voiceState st') = false) /\
  (forall (r : ChatInterface.Render) (env : Env) (st : ChatInterface.Store)
          (w : World) (text : option jsstring),
      ChatInterface.audioChunksRef st <> [] ->
      (500 <= length (concat (ChatInterface.audioChunksRef st)))%nat ->
      transcribeAudio env (concat (ChatInterface.audioChunksRef st)) = Resolved text ->
      (length (ChatInterface.transcriptOf text) < 2)%nat ->
      let '(c, (st', w')) := ChatInterface.processRecording r env (st, w) in
      c = Normal tt /\
      (exists m, ChatInterface.messages st' = ChatInterface.messages st ++ [m] /\
                 type m = assistant /\ content m = ChatInterface.unclearSpeechText) /\
      calls w' = calls w ++
                 [CallTranscribeAudio (concat (ChatInterface.audioChunksRef st))
                                      (js "en") (js "whisper-1")] /\
      ChatInterface.showTextFallback st' = true /\
      ChatInterface.voiceState st' =
        ChatInterface.with_isProcessing false (ChatInterface.voiceState st) /\
      ChatInterface.isProcessing (ChatInterface.voiceState st') = false).
Proof.
  split.
  - intros r env st w text Hchunks Hsize Huser Hheard Hshort.
    rewrite (app_processRecording_unclear r env st w text Hchunks Hsize Huser Hheard Hshort).
    cbn. repeat split; eauto.
  - intros r env st w text Hchunks Hsize Hheard Hshort.
    rewrite (chat_processRecording_unclear r env st w text Hchunks Hsize Hheard Hshort).
    cbn. repeat split; eauto.
Qed.

Lemma unclear_transcript_falls_back_witness :
  (let r := Samples.appRender false Samples.utterance in
   let env := Samples.services (Resolved (Some [])) Samples.silent in
   let st := Samples.appStore false Samples.utterance in
   let w := Samples.world0 in
   App.audioChunksRef st <> [] /\
   (100 <= length (concat (App.audioChunksRef st)))%nat /\
   App.r_user r = true /\
   transcribeAudio env (concat (App.audioChunksRef st)) = Resolved (Some []) /\
   (length (App.transcriptOf (Some [])) < 2)%nat /\
   let '(c, (st', w')) := App.processRecording r env (st, w) in
   c = Normal tt /\
   (exists m, App.messages st' = App.messages st ++ [m] /\
              type m = assistant /\ content m = App.unclearSpeechText) /\
   calls w' = calls w ++ [CallTranscribeAudio (concat (App.audioChunksRef st))
                                              (js "en") (js "whisper-1")] /\
   App.conversationCount st' = App.conversationCount st /\
   App.showTextFallback st' = true /\
   App.voiceState st' = App.with_isProcessing false (App.voiceState st) /\
   App.isProcessing (App.voiceState st') = false) /\
  (let r := Samples.chatRender 1 false Samples.utterance in
   let env := Samples.services (Resolved (Some (js " a "))) Samples.silent in
   let st := Samples.chatStore false Samples.utterance in
   let w := Samples.world0 in
   ChatInterface.audioChunksRef st <> [] /\
   (500 <= length (concat (ChatInterface.audioChunksRef st)))%nat /\
   transcribeAudio env (concat (ChatInterface.audioChunksRef st))
     = Resolved (Some (js " a ")) /\
   (length (ChatInterface.transcriptOf (Some (js " a "))) < 2)%nat /\
   let '(c, (st', w')) := ChatInterface.processRecording r env (st, w) in
   c = Normal tt /\
   (exists m, ChatInterface.messages st' = ChatInterface.messages st ++ [m] /\
              type m = assistant /\ content m = ChatInterface.unclearSpeechText) /\
   calls w' = calls w ++
              [CallTranscribeAudio (concat (ChatInterface.audioChunksRef st))
                                   (js "en") (js "whisper-1")] /\
   ChatInterface.showTextFallback st' = true /\
   ChatInterface.voiceState st' =
     ChatInterface.with_isProcessing false (ChatInterface.voiceState st) /\
   ChatInterface.isProcessing (ChatInterface.voiceState st') = false).
Proof.
  split; cbv zeta.
  - split; [discriminate|]. split; [vm_compute; lia|].
    split; [reflexivity|]. split; [reflexivity|]. split; [vm_compute; lia|].
    apply (proj1 unclear_transcript_falls_back
                 (Samples.appRender false Samples.utterance)
                 (Samples.services (Resolved (Some [])) Samples.silent)
                 (Samples.appStore false Samples.utterance) Samples.world0 (Some []));
      [discriminate | vm_compute; lia | reflexivity | reflexivity | vm_compute; lia].
  - split; [discriminate|]. split; [vm_compute; lia|].
    split; [reflexivity|]. split; [vm_compute; lia|].
    apply (proj2 unclear_transcript_falls_back
                 (Samples.chatRender 1 false Samples.utterance)
                 (Samples.services (Resolved (Some (js " a "))) Samples.silent)
                 (Samples.chatStore false Samples.utterance) Samples.world0
                 (Some (js " a ")));
      [discriminate | vm_compute; lia | reflexivity | vm_compute; lia].
Defined.

(** C10. The text of the transcription result is trimmed, and a missing
    text taken as empty, before its length is tested: a result made of
    white space only, however long, is handled exactly as an empty one.
    The run is the run the empty transcript gives, the "couldn't hear you"
    message is appended by the assistant, no user message is, and no call
    follows the transcription call. *)
Theorem whitespace_transcript_is_empty :
  (forall (r : App.Render) (env : Env) (st : App.Store) (w : World)
          (text : option jsstring),
      App.audioChunksRef st <> [] ->
      (100 <= length (concat (App.audioChunksRef st)))%nat ->
      App.r_user r = true ->
      transcribeAudio env (concat (App.audioChunksRef st)) = Resolved text ->
      onlyWhiteSpace text = true ->
      App.transcriptOf text = [] /\
      App.processRecording r env (st, w) =
        App.processRecording r (withTranscript env (Some [])) (st, w) /\
      let '(c, (st', w')) := App.processRecording r env (st, w) in
      c = Normal tt /\
      (exists m, App.messages st' = App.messages st ++ [m] /\
                 type m = assistant /\ content m = App.unclearSpeechText) /\
      calls w' = calls w ++ [CallTranscribeAudio (concat (App.audioChunksRef st))
                                                 (js "en") (js "whisper-1")]) /\
  (forall (r : ChatInterface.Render) (env : Env) (st : ChatInterface.Store)
          (w : World) (text : option jsstring),
      ChatInterface.audioChunksRef st <> [] ->
      (500 <= length (concat (ChatInterface.audioChunksRef st)))%nat ->
      transcribeAudio env (concat (ChatInterface.audioChunksRef st)) = Resolved text ->
      onlyWhiteSpace text = true ->
      ChatInterface.transcriptOf text = [] /\
      ChatInterface.processRecording r env (st, w) =
        ChatInterface.processRecording r (withTranscript env (Some [])) (st, w) /\
      let '(c, (st', w')) := ChatInterface.processRecording r env (st, w) in
      c = Normal tt /\
      (exists m, ChatInterface.messages st' = ChatInterface.messages st ++ [m] /\
                 type m = assistant /\ content m = ChatInterface.unclearSpeechText) /\
      calls w' = calls w ++
                 [CallTranscribeAudio (concat (ChatInterface.audioChunksRef st))
                                      (js "en") (js "whisper-1")]).
Proof.
  split.
  - intros r env st w text Hchunks Hsize Huser Hheard Hblank.
    pose proof (app_transcriptOf_blank text Hblank) as Hnil.
    assert (Hshort : (length (App.transcriptOf text) < 2)%nat) by (rewrite Hnil; cbn; lia).
    split; [exact Hnil|].
    rewrite (app_processRecording_unclear r env st w text Hchunks Hsize Huser Hheard Hshort).
    rewrite (app_processRecording_unclear r (withTranscript env (Some [])) st w (Some [])
               Hchunks Hsize Huser eq_refl); [|cbn; lia].
    cbn. repeat split; eauto.
  - intros r env st w text Hchunks Hsize Hheard Hblank.
    pose proof (chat_transcriptOf_blank text Hblank) as Hnil.
    assert (Hshort : (length (ChatInterface.transcriptOf text) < 2)%nat)
      by (rewrite Hnil; cbn; lia).
    split; [exact Hnil|].
    rewrite (chat_processRecording_unclear r env st w text Hchunks Hsize Hheard Hshort).
    rewrite (chat_processRecording_unclear r (withTranscript env (Some [])) st w (Some [])
               Hchunks Hsize eq_refl); [|cbn; lia].
    cbn. repeat split; eauto.
Qed.

(* ===================================================================== *)
(** * A failed generation *)
(* ===================================================================== *)

Lemma updateById_last (aid : Z) (f : Message -> Message) (pre : list Message) (a : Message) :
  id a = aid ->
  updateById aid f (pre ++ [a]) = updateById aid f pre ++ [f a].
Proof.
  intros Ha. unfold updateById. rewrite map_app. cbn. now rewrite Ha, Z.eqb_refl.
Qed.

Lemma updateById_length (aid : Z) (f : Message -> Message) (l : list Message) :
  length (updateById aid f l) = length l.
Proof. unfold updateById. apply length_map. Qed.

Lemma long_transcript (text : jsstring) :
  (2 <= length text)%nat -> ((length text =? 0)%nat || (length text <? 2)%nat) = false.
Proof.
  intros H. apply orb_false_iff. split.
  - apply Nat.eqb_neq. lia.
  - apply Nat.ltb_ge. exact H.
Qed.

(** Streaming always runs to the end of the chunks; it rewrites contents
    only, so the message of the turn stays last and keeps its author. *)
Lemma app_deliverChunks_run (cs : list jsstring) :
  forall (aid : Z) (rt : jsstring) (env : Env) (st : App.Store) (w : World),
  exists msgs',
    App.deliverChunks aid rt cs env (st, w) =
    (Normal (rt ++ concat cs),
     (App.mkStore (App.showChat st) (App.conversationCount st) msgs'
        (App.voiceState st) (App.showTextFallback st) (App.textInput st)
        (App.audioChunksRef st) (App.currentAudioRef st), w)) /\
    forall pre a, App.messages st = pre ++ [a] -> id a = aid ->
      exists pre' a', msgs' = pre' ++ [a'] /\ length pre' = length pre /\
                      id a' = aid /\ type a' = type a.
Proof.
  induction cs as [|ch cs IH]; intros aid rt env st w.
  - exists (App.messages st). split.
    + cbn. rewrite app_nil_r. destruct st; reflexivity.
    + intros pre a E Ha. exists pre, a. auto.
  - destruct st. store_fields. cbn [App.deliverChunks]. unfold_effects.
    match goal with |- context [App.deliverChunks _ _ _ _ (?s, _)] =>
      destruct (IH aid (rt ++ ch) env s w) as [msgs' [E H]] end.
    exists msgs'. split.
    + rewrite E. cbn. rewrite <- app_assoc. reflexivity.
    + intros pre a Epre Ha. cbn in H.
      destruct (H (updateById aid (with_content (rt ++ ch)) pre)
                  (with_content (rt ++ ch) a)) as [pre' [a' [E1 [E2 [E3 E4]]]]].
      * rewrite Epre. now apply updateById_last.
      * exact Ha.
      * exists pre', a'. rewrite updateById_length in E2. auto.
Qed.

Lemma chat_deliverChunks_run (cs : list jsstring) :
  forall (aid : Z) (rt : jsstring) (env : Env) (st : ChatInterface.Store) (w : World),
  exists msgs',
    ChatInterface.deliverChunks aid rt cs env (st, w) =
    (Normal (rt ++ concat cs),
     (ChatInterface.mkStore msgs' (ChatInterface.voiceState st)
        (ChatInterface.showTextFallback st) (ChatInterface.textInput st)
        (ChatInterface.hasStartedConversation st) (ChatInterface.audioChunksRef st)
        (ChatInterface.currentAudioRef st) (ChatInterface.audioContextRef st)
        (ChatInterface.continuousStreamRef st) (ChatInterface.voiceDetectionRef st),
      w)) /\
    forall pre a, ChatInterface.messages st = pre ++ [a] -> id a = aid ->
      exists pre' a', msgs' = pre' ++ [a'] /\ length pre' = length pre /\
                      id a' = aid /\ type a' = type a.
Proof.
  induction cs as [|ch cs IH]; intros aid rt env st w.
  - exists (ChatInterface.messages st). split.
    + cbn. rewrite app_nil_r. destruct st; reflexivity.
    + intros pre a E Ha. exists pre, a. auto.
  - destruct st. store_fields. cbn [ChatInterface.deliverChunks]. unfold_effects.
    match goal with |- context [ChatInterface.deliverChunks _ _ _ _ (?s, _)] =>
      destruct (IH aid (rt ++ ch) env s w) as [msgs' [E H]] end.
    exists msgs'. split.
    + rewrite E. cbn. rewrite <- app_assoc. reflexivity.
    + intros pre a Epre Ha. cbn in H.
      destruct (H (updateById aid (with_content (rt ++ ch)) pre)
                  (with_content (rt ++ ch) a)) as [pre' [a' [E1 [E2 [E3 E4]]]]].
      * rewrite Epre. now apply updateById_last.
      * exact Ha.
      * exists pre', a'. rewrite updateById_length in E2. auto.
Qed.

(** The end of a symbolic run in which generation failed: every way the
    speech request and the playback can turn out. *)
Ltac close_failed_generation speech player :=
  unfold generationFailed;
  destruct speech as [?url| |]; [destruct (player url)| |];
  cbn -[updateById apology js]; rewrite ?updateById_last by (cbn; assumption);
  (split; [auto|]);
  (split;
   [ eexists; eexists; split; [reflexivity|];
     rewrite !updateById_length; cbn -[apology]; repeat split; auto; lia
   | rewrite <- !app_assoc; cbn -[apology js]; eexists; split; reflexivity ]).

Lemma app_generation_failure (r : App.Render) (env : Env) (st : App.Store)
  (w : World) (text : option jsstring) (e : Error)
  (Hchunks : App.audioChunksRef st <> [])
  (Hsize : (App.MIN_BLOB_SIZE <= length (concat (App.audioChunksRef st)))%nat)
  (Huser : App.r_user r = true)
  (Hheard : transcribeAudio env (concat (App.audioChunksRef st)) = Resolved text)
  (Hlong : (2 <= length (App.transcriptOf text))%nat) :
  let transcript := App.transcriptOf text in
  let model := determineOptimalModel (App.r_selectedModel r) transcript in
  let history := conversationHistoryOf (App.r_messages r) ++ [(user, transcript)] in
  let sent := if jsstring_eqb model (js "auto") then js "gpt-4o-mini" else model in
  settled (streamText env history sent 300) = Rejected e ->
  let '(c, (st', w')) := App.processRecording r env (st, w) in
  generationFailed (App.messages st) w
    (CallTranscribeAudio (concat (App.audioChunksRef st)) (js "en") (js "whisper-1"))
    history sent c (App.messages st') w'.
Proof.
  intros transcript model history sent Hfail.
  assert (Hnz : (length (concat (App.audioChunksRef st)) =? 0)%nat = false).
  { apply Nat.eqb_neq. unfold App.MIN_BLOB_SIZE in Hsize. lia. }
  enter st w.
  unfold App.processRecording, App.speak, App.streamInto, App.playAudio. unfold_effects.
  rewrite (length_zero_false _ Hchunks), (large_enough _ _ Hsize).
  rewrite Hnz, Huser. cbn [negb]. rewrite Hheard.
  rewrite (long_transcript _ Hlong).
  fold transcript. fold model. fold history. fold sent.
  cbn [id].
  match goal with |- context [App.deliverChunks ?a ?b ?c ?d (?s, ?ww)] =>
    destruct (app_deliverChunks_run c a b d s ww) as [msgs' [E H]]; rewrite E; clear E
  end.
  rewrite Hfail. store_fields.
  destruct (H _ _ eq_refl eq_refl) as [pre' [a' [-> [Hlen [Hid Htype]]]]]; clear H.
  cbn in Htype. rewrite length_app in Hlen. cbn in Hlen.
  rewrite !updateById_last by (cbn; assumption).
  close_failed_generation (generateSpeech env apology (js "nova")) (playback env).
Qed.

Lemma chat_generation_failure (r : ChatInterface.Render) (env : Env)
  (st : ChatInterface.Store) (w : World) (text : option jsstring) (e : Error)
  (Hchunks : ChatInterface.audioChunksRef st <> [])
  (Hsize : (ChatInterface.MIN_BLOB_SIZE
            <= length (concat (ChatInterface.audioChunksRef st)))%nat)
  (Hheard :
     transcribeAudio env (concat (ChatInterface.audioChunksRef st)) = Resolved text)
  (Hlong : (2 <= length (ChatInterface.transcriptOf text))%nat) :
  let transcript := ChatInterface.transcriptOf text in
  let model := determineOptimalModel (ChatInterface.r_selectedModel r) transcript in
  let history :=
    conversationHistoryOf (ChatInterface.r_messages r) ++ [(user, transcript)] in
  let sent := if jsstring_eqb model (js "auto") then js "gpt-4o-mini" else model in
  settled (streamText env history sent 300) = Rejected e ->
  let '(c, (st', w')) := ChatInterface.processRecording r env (st, w) in
  generationFailed (ChatInterface.messages st) w
    (CallTranscribeAudio (concat (ChatInterface.audioChunksRef st))
                         (js "en") (js "whisper-1"))
    history sent c (ChatInterface.messages st') w'.
Proof.
  intros transcript model history sent Hfail.
  enter st w.
  unfold ChatInterface.processRecording, ChatInterface.speak,
    ChatInterface.streamInto, ChatInterface.playAudio.
  destruct (ChatInterface.r_hasStartedConversation r); unfold_effects.
  all: rewrite (length_zero_false _ Hchunks), (large_enough _ _ Hsize).
  all: rewrite Hheard.
  all: rewrite (long_transcript _ Hlong).
  all: fold transcript; fold model; fold history; fold sent.
  all: cbn [negb id].
  all: match goal with
       | |- context [ChatInterface.deliverChunks ?a ?b ?c ?d (?s, ?ww)] =>
           destruct (chat_deliverChunks_run c a b d s ww) as [msgs' [E H]];
           rewrite E; clear E
       end.
  all: rewrite Hfail; store_fields.
  all: destruct (H _ _ eq_refl eq_refl) as [pre' [a' [-> [Hlen [Hid Htype]]]]]; clear H.
  all: cbn in Htype; rewrite length_app in Hlen; cbn in Hlen.
  all: rewrite !updateById_last by (cbn; assumption).
  all: close_failed_generation (generateSpeech env apology (js "nova")) (playback env).
Qed.

(** C4. If the streamed generation raises an error during a turn,
    [processRecording] does not throw: the content of the assistant
    message of the turn becomes the fixed apology, the message is marked
    as no longer streaming, and speech is requested exactly once, for the
    apology text. *)
Theorem generation_error_is_spoken_as_apology :
  (forall (r : App.Render) (env : Env) (st : App.Store) (w : World)
          (text : option jsstring) (e : Error),
      let transcript := App.transcriptOf text in
      let model := determineOptimalModel (App.r_selectedModel r) transcript in
      let history := conversationHistoryOf (App.r_messages r) ++ [(user, transcript)] in
      let sent := if jsstring_eqb model (js "auto") then js "gpt-4o-mini" else model in
      App.audioChunksRef st <> [] ->
      (100 <= length (concat (App.audioChunksRef st)))%nat ->
      App.r_user r = true ->
      transcribeAudio env (concat (App.audioChunksRef st)) = Resolved text ->
      (2 <= length transcript)%nat ->
      settled (streamText env history sent 300) = Rejected e ->
      let '(c, (st', w')) := App.processRecording r env (st, w) in
      generationFailed (App.messages st) w
        (CallTranscribeAudio (concat (App.audioChunksRef st)) (js "en") (js "whisper-1"))
        history sent c (App.messages st') w') /\
  (forall (r : ChatInterface.Render) (env : Env) (st : ChatInterface.Store)
          (w : World) (text : option jsstring) (e : Error),
      let transcript := ChatInterface.transcriptOf text in
      let model := determineOptimalModel (ChatInterface.r_selectedModel r) transcript in
      let history :=
        conversationHistoryOf (ChatInterface.r_messages r) ++ [(user, transcript)] in
      let sent := if jsstring_eqb model (js "auto") then js "gpt-4o-mini" else model in
      ChatInterface.audioChunksRef st <> [] ->
      (500 <= length (concat (ChatInterface.audioChunksRef st)))%nat ->
      transcribeAudio env (concat (ChatInterface.audioChunksRef st)) = Resolved text ->
      (2 <= length transcript)%nat ->
      settled (streamText env history sent 300) = Rejected e ->
      let '(c, (st', w')) := ChatInterface.processRecording r env (st, w) in
      generationFailed (ChatInterface.messages st) w
        (CallTranscribeAudio (concat (ChatInterface.audioChunksRef st))
                             (js "en") (js "whisper-1"))
        history sent c (ChatInterface.messages st') w').
Proof.
  split.
  - intros r env st w text e transcript model history sent
           Hchunks Hsize Huser Hheard Hlong Hfail.
    exact (app_generation_failure r env st w text e Hchunks Hsize Huser Hheard Hlong Hfail).
  - intros r env st w text e transcript model history sent
           Hchunks Hsize Hheard Hlong Hfail.
    exact (chat_generation_failure r env st w text e Hchunks Hsize Hheard Hlong Hfail).
Qed.

Lemma generation_error_is_spoken_as_apology_witness :
  (let r := Samples.appRender false Samples.utterance in
   let text := Some (js "tell me a story") in
   let env := Samples.services (Resolved text) Samples.failing in
   let st := Samples.appStore false Samples.utterance in
   let w := Samples.world0 in
   let history := conversationHistoryOf (App.r_messages r) ++ [(user, js "tell me a story")] in
   let sent := js "claude-3-5-sonnet-20241022" in
   App.audioChunksRef st <> [] /\
   (100 <= length (concat (App.audioChunksRef st)))%nat /\
   App.r_user r = true /\
   transcribeAudio env (concat (App.audioChunksRef st)) = Resolved text /\
   (2 <= length (App.transcriptOf text))%nat /\
   settled (streamText env history sent 300) = Rejected ServiceError /\
   let '(c, (st', w')) := App.processRecording r env (st, w) in
   generationFailed (App.messages st) w
     (CallTranscribeAudio (concat (App.audioChunksRef st)) (js "en") (js "whisper-1"))
     history sent c (App.messages st') w') /\
  (let r := Samples.chatRender 1 false Samples.utterance in
   let text := Some (js "tell me a story") in
   let env := Samples.services (Resolved text) Samples.failing in
   let st := Samples.chatStore false Samples.utterance in
   let w := Samples.world0 in
   let history :=
     conversationHistoryOf (ChatInterface.r_messages r) ++ [(user, js "tell me a story")] in
   let sent := js "claude-3-5-sonnet-20241022" in
   ChatInterface.audioChunksRef st <> [] /\
   (500 <= length (concat (ChatInterface.audioChunksRef st)))%nat /\
   transcribeAudio env (concat (ChatInterface.audioChunksRef st)) = Resolved text /\
   (2 <= length (ChatInterface.transcriptOf text))%nat /\
   settled (streamText env history sent 300) = Rejected ServiceError /\
   let '(c, (st', w')) := ChatInterface.processRecording r env (st, w) in
   generationFailed (ChatInterface.messages st) w
     (CallTranscribeAudio (concat (ChatInterface.audioChunksRef st))
                          (js "en") (js "whisper-1"))
     history sent c (ChatInterface.messages st') w').
Proof.
  split; cbv zeta.
  - split; [discriminate|]. split; [vm_compute; lia|].
    split; [reflexivity|]. split; [reflexivity|]. split; [vm_compute; lia|].
    split; [reflexivity|].
    apply (proj1 generation_error_is_spoken_as_apology
                 (Samples.appRender false Samples.utterance)
                 (Samples.services (Resolved (Some (js "tell me a story"))) Samples.failing)
                 (Samples.appStore false Samples.utterance) Samples.world0
                 (Some (js "tell me a story")) ServiceError);
      [discriminate | vm_compute; lia | reflexivity | reflexivity
       | vm_compute; lia | reflexivity].
  - split; [discriminate|]. split; [vm_compute; lia|].
    split; [reflexivity|]. split; [vm_compute; lia|]. split; [reflexivity|].
    apply (proj2 generation_error_is_spoken_as_apology
                 (Samples.chatRender 1 false Samples.utterance)
                 (Samples.services (Resolved (Some (js "tell me a story"))) Samples.failing)
                 (Samples.chatStore false Samples.utterance) Samples.world0
                 (Some (js "tell me a story")) ServiceError);
      [discriminate | vm_compute; lia | reflexivity
       | vm_compute; lia | reflexivity].
Defined.

Example generation_error_run :
  let env := Samples.services (Resolved (Some (js "tell me a story"))) Samples.failing in
  let '(c, (st', w')) :=
    ChatInterface.processRecording (Samples.chatRender 1 false Samples.utterance) env
      (Samples.chatStore false Samples.utterance, Samples.world0) in
  c = Normal tt /\
  map content (ChatInterface.messages st') =
    [js "Hello!"; js "tell me a story"; apology] /\
  map isStreaming (ChatInterface.messages st') = [Some false; None; Some false] /\
  calls w' =
    [CallTranscribeAudio (concat Samples.utterance) (js "en") (js "whisper-1");
     CallStreamText [(assistant, js "Hello!"); (user, js "tell me a story")]
                    (js "claude-3-5-sonnet-20241022") 300;
     CallGenerateSpeech apology (js "nova");
     CallPlay (js "blob:reply");
     CallOnConversationComplete] /\
  ChatInterface.isProcessing (ChatInterface.voiceState st') = false.
Proof. vm_compute. repeat split. Qed.

Lemma whitespace_transcript_is_empty_witness :
  (let r := Samples.appRender false Samples.utterance in
   let text := Some [32; 9; 10; 160; 8232; 32]%N in
   let env := Samples.services (Resolved text) Samples.silent in
   let st := Samples.appStore false Samples.utterance in
   let w := Samples.world0 in
   App.audioChunksRef st <> [] /\
   (100 <= length (concat (App.audioChunksRef st)))%nat /\
   App.r_user r = true /\
   transcribeAudio env (concat (App.audioChunksRef st)) = Resolved text /\
   onlyWhiteSpace text = true /\
   App.transcriptOf text = [] /\
   App.processRecording r env (st, w) =
     App.processRecording r (withTranscript env (Some [])) (st, w) /\
   let '(c, (st', w')) := App.processRecording r env (st, w) in
   c = Normal tt /\
   (exists m, App.messages st' = App.messages st ++ [m] /\
              type m = assistant /\ content m = App.unclearSpeechText) /\
   calls w' = calls w ++ [CallTranscribeAudio (concat (App.audioChunksRef st))
                                              (js "en") (js "whisper-1")]) /\
  (let r := Samples.chatRender 1 false Samples.utterance in
   let text : option jsstring := None in
   let env := Samples.services (Resolved text) Samples.silent in
   let st := Samples.chatStore false Samples.utterance in
   let w := Samples.world0 in
   ChatInterface.audioChunksRef st <> [] /\
   (500 <= length (concat (ChatInterface.audioChunksRef st)))%nat /\
   transcribeAudio env (concat (ChatInterface.audioChunksRef st)) = Resolved text /\
   onlyWhiteSpace text = true /\
   ChatInterface.transcriptOf text = [] /\
   ChatInterface.processRecording r env (st, w) =
     ChatInterface.processRecording r (withTranscript env (Some [])) (st, w) /\
   let '(c, (st', w')) := ChatInterface.processRecording r env (st, w) in
   c = Normal tt /\
   (exists m, ChatInterface.messages st' = ChatInterface.messages st ++ [m] /\
              type m = assistant /\ content m = ChatInterface.unclearSpeechText) /\
   calls w' = calls w ++
              [CallTranscribeAudio (concat (ChatInterface.audioChunksRef st))
                                   (js "en") (js "whisper-1")]).
Proof.
  split; cbv zeta.
  - split; [discriminate|]. split; [vm_compute; lia|].
    split; [reflexivity|]. split; [reflexivity|]. split; [reflexivity|].
    apply (proj1 whitespace_transcript_is_empty
                 (Samples.appRender false Samples.utterance)
                 (Samples.services (Resolved (Some [32; 9; 10; 160; 8232; 32]%N))
                                   Samples.silent)
                 (Samples.appStore false Samples.utterance) Samples.world0
                 (Some [32; 9; 10; 160; 8232; 32]%N));
      [discriminate | vm_compute; lia | reflexivity | reflexivity | reflexivity].
  - split; [discriminate|]. split; [vm_compute; lia|].
    split; [reflexivity|]. split; [reflexivity|].
    apply (proj2 whitespace_transcript_is_empty
                 (Samples.chatRender 1 false Samples.utterance)
                 (Samples.services (Resolved None) Samples.silent)
                 (Samples.chatStore false Samples.utterance) Samples.world0 None);
      [discriminate | vm_compute; lia | reflexivity | reflexivity].
Defined.

(* ===================================================================== *)
(** * Manual text submission and the conversation limit *)
(* ===================================================================== *)

(** C6, as stated, fails: [handleTextSubmit] does not look at the
    processing flag.  Called with the flag set, in the state and in the
    render, it logs the user message and the reply and calls generation. *)
Lemma handleTextSubmit_ignores_processing_flag :
  (let r := Samples.appRender true [] in
   let st := Samples.appStore true [] in
   let env := Samples.services (Resolved None)
                {| chunks := [js "Hi!"]; settled := Resolved tt |} in
   App.isProcessing (App.voiceState st) = true /\
   App.isProcessing (App.r_voiceState r) = true /\
   let '(c, (st', w')) := App.handleTextSubmit r (js "hello") env (st, Samples.world0) in
   length (App.messages st) = 1%nat /\
   map content (App.messages st') = [js "Hello!"; js "hello"; js "Hi!"] /\
   calls w' = [CallStreamText [(assistant, js "Hello!"); (user, js "hello")]
                              (js "gpt-4o-mini") 300;
               CallGenerateSpeech (js "Hi!") (js "nova");
               CallPlay (js "blob:reply")] /\
   App.conversationCount st' = (App.conversationCount st + 1)%Z) /\
  (let r := Samples.chatRender 1 true [] in
   let st := Samples.chatStore true [] in
   let env := Samples.services (Resolved None)
                {| chunks := [js "Hi!"]; settled := Resolved tt |} in
   ChatInterface.isProcessing (ChatInterface.voiceState st) = true /\
   ChatInterface.isProcessing (ChatInterface.r_voiceState r) = true /\
   let '(c, (st', w')) :=
     ChatInterface.handleTextSubmit r (js "hello") env (st, Samples.world0) in
   length (ChatInterface.messages st) = 1%nat /\
   map content (ChatInterface.messages st') = [js "Hello!"; js "hello"; js "Hi!"] /\
   calls w' = [CallStreamText [(assistant, js "Hello!"); (user, js "hello")]
                              (js "gpt-4o-mini") 300;
               CallGenerateSpeech (js "Hi!") (js "nova");
               CallPlay (js "blob:reply");
               CallOnConversationComplete]).
Proof. vm_compute. repeat split. Qed.

Lemma trim_blank_length (text : jsstring) :
  trim text = [] -> (length (trim text) =? 0)%nat = true.
Proof. intros ->. reflexivity. Qed.

(** C6, amended.  Text submitted through the text fallback while the
    processing flag is set is rejected by the controls: the field and the
    send button are disabled, [handleTextSubmit] is not called, and the
    log, the state and the collaborators are left alone.
    [handleTextSubmit] itself returns without any effect when the text is
    blank, whatever the flag. *)
Theorem text_controls_reject_while_processing :
  (forall (r : App.Render) (env : Env) (st : App.Store) (w : World),
      App.isProcessing (App.r_voiceState r) = true ->
      App.pressEnterInTextField r env (st, w) = (Normal tt, (st, w)) /\
      App.clickSend r env (st, w) = (Normal tt, (st, w))) /\
  (forall (r : ChatInterface.Render) (env : Env) (st : ChatInterface.Store) (w : World),
      ChatInterface.isProcessing (ChatInterface.r_voiceState r) = true ->
      ChatInterface.pressEnterInTextField r env (st, w) = (Normal tt, (st, w)) /\
      ChatInterface.clickSend r env (st, w) = (Normal tt, (st, w))) /\
  (forall (r : App.Render) (text : jsstring) (env : Env) (st : App.Store) (w : World),
      trim text = [] ->
      App.handleTextSubmit r text env (st, w) = (Normal tt, (st, w))) /\
  (forall (r : ChatInterface.Render) (text : jsstring) (env : Env)
          (st : ChatInterface.Store) (w : World),
      trim text = [] ->
      ChatInterface.handleTextSubmit r text env (st, w) = (Normal tt, (st, w))).
Proof.
  repeat split.
  - unfold App.pressEnterInTextField. rewrite H, !orb_true_r. reflexivity.
  - unfold App.clickSend. rewrite H, !orb_true_r. reflexivity.
  - unfold ChatInterface.pressEnterInTextField. rewrite H, !orb_true_r. reflexivity.
  - unfold ChatInterface.clickSend. rewrite H, !orb_true_r. reflexivity.
  - intros r text env st w Hblank. unfold App.handleTextSubmit. unfold_effects.
    rewrite (trim_blank_length _ Hblank). reflexivity.
  - intros r text env st w Hblank. unfold ChatInterface.handleTextSubmit. unfold_effects.
    rewrite (trim_blank_length _ Hblank). reflexivity.
Qed.

Lemma text_controls_reject_while_processing_witness :
  (let r := Samples.appRender true [] in
   let st := Samples.appStore true [] in
   let env := Samples.services (Resolved None) Samples.silent in
   App.isProcessing (App.r_voiceState r) = true /\
   App.pressEnterInTextField r env (st, Samples.world0) = (Normal tt, (st, Samples.world0)) /\
   App.clickSend r env (st, Samples.world0) = (Normal tt, (st, Samples.world0))) /\
  (let r := Samples.chatRender 1 true [] in
   let st := Samples.chatStore true [] in
   let env := Samples.services (Resolved None) Samples.silent in
   ChatInterface.isProcessing (ChatInterface.r_voiceState r) = true /\
   ChatInterface.pressEnterInTextField r env (st, Samples.world0)
     = (Normal tt, (st, Samples.world0)) /\
   ChatInterface.clickSend r env (st, Samples.world0)
     = (Normal tt, (st, Samples.world0))) /\
  (let r := Samples.appRender true [] in
   let st := Samples.appStore true [] in
   let env := Samples.services (Resolved None) Samples.silent in
   trim (js "   ") = [] /\
   App.handleTextSubmit r (js "   ") env (st, Samples.world0)
     = (Normal tt, (st, Samples.world0))) /\
  (let r := Samples.chatRender 1 true [] in
   let st := Samples.chatStore true [] in
   let env := Samples.services (Resolved None) Samples.silent in
   trim (js "   ") = [] /\
   ChatInterface.handleTextSubmit r (js "   ") env (st, Samples.world0)
     = (Normal tt, (st, Samples.world0))).
Proof.
  cbv zeta. repeat apply conj.
  - reflexivity.
  - apply (proj1 text_controls_reject_while_processing). reflexivity.
  - apply (proj1 text_controls_reject_while_processing). reflexivity.
  - reflexivity.
  - apply (proj1 (proj2 text_controls_reject_while_processing)). reflexivity.
  - apply (proj1 (proj2 text_controls_reject_while_processing)). reflexivity.
  - reflexivity.
  - apply (proj1 (proj2 (proj2 text_controls_reject_while_processing))). reflexivity.
  - reflexivity.
  - apply (proj2 (proj2 (proj2 text_controls_reject_while_processing))). reflexivity.
Defined.

(** C7, as stated, fails: the limit is not tested on every path by which
    a turn starts.  In [App.tsx] text submitted with the count at the
    limit runs a whole turn, and the count goes from eight to nine.  In
    both variants a recording handed to [processRecording] with the count
    at the limit, as the recorder of a monitor that is already running
    hands it over, is transcribed, answered and spoken. *)
Lemma turns_still_start_at_the_limit :
  (let st := App.mkStore true 8 [Samples.greeting] (Samples.appVoice false)
                         true (js "hello") [] None in
   let r := App.renderOf true (js "auto") st in
   let env := Samples.services (Resolved None)
                {| chunks := [js "Hi!"]; settled := Resolved tt |} in
   (8 <= App.r_conversationCount r)%Z /\
   let '(c, (st', w')) := App.handleTextSubmit r (js "hello") env (st, Samples.world0) in
   c = Normal tt /\
   map content (App.messages st') = [js "Hello!"; js "hello"; js "Hi!"] /\
   calls w' = [CallStreamText [(assistant, js "Hello!"); (user, js "hello")]
                              (js "gpt-4o-mini") 300;
               CallGenerateSpeech (js "Hi!") (js "nova");
               CallPlay (js "blob:reply")] /\
   App.conversationCount st' = 9%Z) /\
  (let st := App.mkStore true 8 [Samples.greeting] (Samples.appVoice false)
                         false [] Samples.utterance None in
   let r := App.renderOf true (js "auto") st in
   let env := Samples.services (Resolved (Some (js "hello")))
                {| chunks := [js "Hi!"]; settled := Resolved tt |} in
   (8 <= App.r_conversationCount r)%Z /\
   let '(c, (st', w')) := App.processRecording r env (st, Samples.world0) in
   c = Normal tt /\
   map content (App.messages st') = [js "Hello!"; js "hello"; js "Hi!"] /\
   calls w' = [CallTranscribeAudio (concat Samples.utterance) (js "en") (js "whisper-1");
               CallStreamText [(assistant, js "Hello!"); (user, js "hello")]
                              (js "gpt-4o-mini") 300;
               CallGenerateSpeech (js "Hi!") (js "nova");
               CallPlay (js "blob:reply")]) /\
  (let st := Samples.chatStore false Samples.utterance in
   let r := Samples.chatRender 8 false Samples.utterance in
   let env := Samples.services (Resolved (Some (js "hello")))
                {| chunks := [js "Hi!"]; settled := Resolved tt |} in
   ChatInterface.hasReachedLimit r = true /\
   let '(c, (st', w')) := ChatInterface.processRecording r env (st, Samples.world0) in
   c = Normal tt /\
   map content (ChatInterface.messages st') = [js "Hello!"; js "hello"; js "Hi!"] /\
   calls w' = [CallTranscribeAudio (concat Samples.utterance) (js "en") (js "whisper-1");
               CallStreamText [(assistant, js "Hello!"); (user, js "hello")]
                              (js "gpt-4o-mini") 300;
               CallGenerateSpeech (js "Hi!") (js "nova");
               CallPlay (js "blob:reply");
               CallOnConversationComplete]).
Proof. vm_compute. repeat split; discriminate. Qed.

(** C7, amended.  Once the conversation count has reached the maximum the
    entry points that test it refuse: in the chat component starting
    continuous listening, toggling conversation mode and submitting text
    each return at once, and in [App.tsx] the chat cannot be entered;
    none of them changes the message log, the voice state or anything
    else, and none calls a collaborator.  The other paths by which a turn
    starts do not test the limit: what [handleTextSubmit] of [App.tsx] and
    [processRecording] of either variant do does not depend on the count
    or on the maximum. *)
Theorem limit_is_tested_at_entry_points_only :
  (forall (r : ChatInterface.Render) (env : Env) (st : ChatInterface.Store) (w : World),
      (ChatInterface.r_maxFreeConversations r <= ChatInterface.r_conversationCount r)%Z ->
      ChatInterface.startContinuousListening r env (st, w) = (Normal tt, (st, w)) /\
      ChatInterface.toggleConversationMode r env (st, w) = (Normal tt, (st, w)) /\
      forall text,
        ChatInterface.handleTextSubmit r text env (st, w) = (Normal tt, (st, w))) /\
  (forall (r : App.Render) (env : Env) (st : App.Store) (w : World),
      (8 <= App.r_conversationCount r)%Z ->
      App.handleStartChat r env (st, w) = (Normal tt, (st, w))) /\
  (forall (r : App.Render) (count : Z) (text : jsstring) (env : Env)
          (st : App.Store) (w : World),
      let r' := App.mkRender (App.r_user r) (App.r_showChat r) count (App.r_messages r)
                             (App.r_voiceState r) (App.r_selectedModel r)
                             (App.r_showTextFallback r) (App.r_textInput r) in
      App.handleTextSubmit r' text env (st, w) = App.handleTextSubmit r text env (st, w) /\
      App.processRecording r' env (st, w) = App.processRecording r env (st, w)) /\
  (forall (r : ChatInterface.Render) (count maxFree : Z) (env : Env)
          (st : ChatInterface.Store) (w : World),
      let r' := ChatInterface.mkRender (ChatInterface.r_user r) count maxFree
                  (ChatInterface.r_messages r) (ChatInterface.r_voiceState r)
                  (ChatInterface.r_selectedModel r) (ChatInterface.r_showTextFallback r)
                  (ChatInterface.r_textInput r)
                  (ChatInterface.r_hasStartedConversation r) in
      ChatInterface.processRecording r' env (st, w) =
      ChatInterface.processRecording r env (st, w)).
Proof.
  repeat match goal with |- _ /\ _ => split end.
  - intros r env st w Hlimit.
    assert (H : ChatInterface.hasReachedLimit r = true)
      by (unfold ChatInterface.hasReachedLimit; now apply Z.leb_le).
    repeat split.
    + unfold ChatInterface.startContinuousListening. unfold_effects.
      rewrite H. reflexivity.
    + unfold ChatInterface.toggleConversationMode. unfold_effects.
      rewrite H. reflexivity.
    + intros text. unfold ChatInterface.handleTextSubmit. unfold_effects.
      rewrite H, orb_true_r. reflexivity.
  - intros r env st w Hlimit. apply Z.leb_le in Hlimit.
    unfold App.handleStartChat. unfold_effects. rewrite Hlimit. reflexivity.
  - intros r count text env st w r'. subst r'. destruct r. split; reflexivity.
  - intros r count maxFree env st w r'. subst r'. destruct r. reflexivity.
Qed.

Lemma limit_is_tested_at_entry_points_only_witness :
  (let r := Samples.chatRender 8 false [] in
   let st := Samples.chatStore false [] in
   let env := Samples.services (Resolved None) Samples.silent in
   (ChatInterface.r_maxFreeConversations r <= ChatInterface.r_conversationCount r)%Z /\
   ChatInterface.startContinuousListening r env (st, Samples.world0)
     = (Normal tt, (st, Samples.world0)) /\
   ChatInterface.toggleConversationMode r env (st, Samples.world0)
     = (Normal tt, (st, Samples.world0)) /\
   forall text,
     ChatInterface.handleTextSubmit r text env (st, Samples.world0)
       = (Normal tt, (st, Samples.world0))) /\
  (let r := Samples.appRenderAt 8 in
   let st := App.mkStore false 8 [] (Samples.appVoice false) false [] [] None in
   let env := Samples.services (Resolved None) Samples.silent in
   (8 <= App.r_conversationCount r)%Z /\
   App.handleStartChat r env (st, Samples.world0) = (Normal tt, (st, Samples.world0))).
Proof.
  split; cbv zeta.
  - split; [vm_compute; discriminate|].
    apply (proj1 limit_is_tested_at_entry_points_only). vm_compute; discriminate.
  - split; [vm_compute; discriminate|].
    apply (proj1 (proj2 limit_is_tested_at_entry_points_only)). vm_compute; discriminate.
Defined.

Example below_limit_listening_starts :
  let '(c, (st', w')) :=
    ChatInterface.startContinuousListening (Samples.chatRender 7 false [])
      (Samples.services (Resolved None) Samples.silent)
      (ChatInterface.mkStore [] (ChatInterface.mkVoiceState false false false 0 false false)
                             false [] false [] None false false false,
       Samples.world0) in
  ChatInterface.isListening (ChatInterface.voiceState st') = true /\
  calls w' = [CallGetUserMedia; CallRequestAnimationFrame].
Proof. vm_compute. split; reflexivity. Qed.

(* ===================================================================== *)
(** * The log and the calls of a whole turn *)
(* ===================================================================== *)

Lemma app_deliverChunks_streamed (cs : list jsstring) :
  forall (aid : Z) (rt : jsstring) (env : Env) (st : App.Store) (w : World),
    App.deliverChunks aid rt cs env (st, w) =
    (Normal (rt ++ concat cs),
     (App.mkStore (App.showChat st) (App.conversationCount st)
        (streamed aid rt cs (App.messages st))
        (App.voiceState st) (App.showTextFallback st) (App.textInput st)
        (App.audioChunksRef st) (App.currentAudioRef st), w)).
Proof.
  induction cs as [|ch cs IH]; intros aid rt env st w.
  - cbn. rewrite app_nil_r. destruct st; reflexivity.
  - destruct st. cbn [App.deliverChunks]. unfold_effects.
    rewrite IH. cbn. rewrite <- app_assoc. reflexivity.
Qed.

Lemma chat_deliverChunks_streamed (cs : list jsstring) :
  forall (aid : Z) (rt : jsstring) (env : Env) (st : ChatInterface.Store) (w : World),
    ChatInterface.deliverChunks aid rt cs env (st, w) =
    (Normal (rt ++ concat cs),
     (ChatInterface.mkStore (streamed aid rt cs (ChatInterface.messages st))
        (ChatInterface.voiceState st)
        (ChatInterface.showTextFallback st) (ChatInterface.textInput st)
        (ChatInterface.hasStartedConversation st) (ChatInterface.audioChunksRef st)
        (ChatInterface.currentAudioRef st) (ChatInterface.audioContextRef st)
        (ChatInterface.continuousStreamRef st) (ChatInterface.voiceDetectionRef st),
      w)).
Proof.
  induction cs as [|ch cs IH]; intros aid rt env st w.
  - cbn. rewrite app_nil_r. destruct st; reflexivity.
  - destruct st. cbn [ChatInterface.deliverChunks]. unfold_effects.
    rewrite IH. cbn. rewrite <- app_assoc. reflexivity.
Qed.

Lemma updateById_ids (aid : Z) (f : Message -> Message) (l : list Message) :
  (forall m, id (f m) = id m) -> map id (updateById aid f l) = map id l.
Proof.
  intros Hf. unfold updateById. rewrite map_map. apply map_ext.
  intros m. destruct (id m =? aid)%Z; auto.
Qed.

Lemma updateById_types (aid : Z) (f : Message -> Message) (l : list Message) :
  (forall m, type (f m) = type m) -> map type (updateById aid f l) = map type l.
Proof.
  intros Hf. unfold updateById. rewrite map_map. apply map_ext.
  intros m. destruct (id m =? aid)%Z; auto.
Qed.

Lemma streamed_ids aid cs : forall rt l, map id (streamed aid rt cs l) = map id l.
Proof.
  induction cs as [|c cs IH]; intros rt l; cbn; [reflexivity|].
  rewrite IH. now apply updateById_ids.
Qed.

Lemma streamed_types aid cs : forall rt l, map type (streamed aid rt cs l) = map type l.
Proof.
  induction cs as [|c cs IH]; intros rt l; cbn; [reflexivity|].
  rewrite IH. now apply updateById_types.
Qed.

Lemma updateById_fresh (aid : Z) (f : Message -> Message) (l : list Message) :
  Forall (fun m => id m <> aid) l -> updateById aid f l = l.
Proof.
  induction 1 as [|m l Hm _ IH]; [reflexivity|].
  unfold updateById in *. cbn [map]. rewrite IH.
  apply Z.eqb_neq in Hm. now rewrite Hm.
Qed.

Lemma streamed_fresh aid cs : forall rt l,
  Forall (fun m => id m <> aid) l -> streamed aid rt cs l = l.
Proof.
  induction cs as [|c cs IH]; intros rt l H; cbn; [reflexivity|].
  rewrite (updateById_fresh _ _ _ H). now apply IH.
Qed.

Lemma updateById_app aid f l1 l2 :
  updateById aid f (l1 ++ l2) = updateById aid f l1 ++ updateById aid f l2.
Proof. unfold updateById. apply map_app. Qed.

Lemma streamed_app aid cs : forall rt l1 l2,
  streamed aid rt cs (l1 ++ l2) = streamed aid rt cs l1 ++ streamed aid rt cs l2.
Proof.
  induction cs as [|c cs IH]; intros rt l1 l2; cbn; [reflexivity|].
  rewrite updateById_app. apply IH.
Qed.

Lemma streamed_own aid cs : forall rt a,
  id a = aid -> content a = rt ->
  streamed aid rt cs [a] = [with_content (rt ++ concat cs) a].
Proof.
  induction cs as [|c cs IH]; intros rt a Hid Hc; cbn.
  - rewrite app_nil_r. destruct a; cbn in *. now subst.
  - unfold updateById. cbn [map]. rewrite Hid, Z.eqb_refl. rewrite IH; cbn; auto.
    rewrite <- app_assoc. reflexivity.
Qed.

Lemma router_never_auto (selectedModel prompt : jsstring) :
  jsstring_eqb (determineOptimalModel selectedModel prompt) (js "auto") = false.
Proof.
  unfold determineOptimalModel.
  destruct (jsstring_eqb selectedModel (js "auto")) eqn:E; cbn [negb]; [|exact E].
  repeat match goal with
         | |- context [if ?b then _ else _] => destruct b
         end; reflexivity.
Qed.

Lemma fresh_singleton (aid : Z) (m : Message) :
  id m <> aid -> Forall (fun m' => id m' <> aid) [m].
Proof. intros H. constructor; [exact H | constructor]. Qed.

Lemma updateById_other (aid : Z) (f : Message -> Message) (m : Message) :
  id m <> aid -> updateById aid f [m] = [m].
Proof. intros H. apply updateById_fresh. now apply fresh_singleton. Qed.

Lemma streamed_other (aid : Z) (rt : jsstring) (cs : list jsstring) (m : Message) :
  id m <> aid -> streamed aid rt cs [m] = [m].
Proof. intros H. apply streamed_fresh. now apply fresh_singleton. Qed.

Lemma updateById_own (aid : Z) (f : Message -> Message) (m : Message) :
  id m = aid -> updateById aid f [m] = [f m].
Proof. intros H. unfold updateById. cbn. now rewrite H, Z.eqb_refl. Qed.

Ltac settle_log Hfresh Hdistinct :=
  repeat first
    [ rewrite streamed_app | rewrite updateById_app
    | rewrite (streamed_fresh _ _ _ _ Hfresh)
    | rewrite (updateById_fresh _ _ _ Hfresh)
    | rewrite streamed_other by exact Hdistinct
    | rewrite updateById_other by exact Hdistinct
    | rewrite streamed_own by reflexivity
    | rewrite updateById_own by reflexivity ].

Lemma not_blank (text : jsstring) : trim text <> [] -> (length (trim text) =? 0)%nat = false.
Proof. apply length_zero_false. Qed.

(** X1.  When the transcription request is rejected, [processRecording] returns
    normally, in both variants: the log gains one assistant message asking the
    user to type, the text fallback is shown, the processing flag is cleared
    and transcription is the only call made. *)
Theorem transcription_failure_falls_back :
  (forall (r : App.Render) (env : Env) (st : App.Store) (w : World) (e : Error),
     App.audioChunksRef st <> [] ->
     (App.MIN_BLOB_SIZE <= length (concat (App.audioChunksRef st)))%nat ->
     App.r_user r = true ->
     transcribeAudio env (concat (App.audioChunksRef st)) = Rejected e ->
     App.processRecording r env (st, w) =
       (Normal tt,
        (App.mkStore (App.showChat st) (App.conversationCount st)
           (App.messages st ++
            [mkMessage (clock env (clockReads w)) assistant App.transcriptionErrorText None
                       (clock env (S (clockReads w))) None None])
           (App.with_isProcessing false (App.voiceState st))
           true (App.textInput st) (App.audioChunksRef st) (App.currentAudioRef st),
         {| clockReads := S (S (clockReads w));
            calls := calls w ++
                     [CallTranscribeAudio (concat (App.audioChunksRef st))
                                          (js "en") (js "whisper-1")] |}))) /\
  (forall (r : ChatInterface.Render) (env : Env) (st : ChatInterface.Store) (w : World)
          (e : Error),
     ChatInterface.audioChunksRef st <> [] ->
     (ChatInterface.MIN_BLOB_SIZE <= length (concat (ChatInterface.audioChunksRef st)))%nat ->
     transcribeAudio env (concat (ChatInterface.audioChunksRef st)) = Rejected e ->
     ChatInterface.processRecording r env (st, w) =
       (Normal tt,
        (ChatInterface.mkStore
           (ChatInterface.messages st ++
            [mkMessage (clock env (clockReads w)) assistant
                       ChatInterface.transcriptionErrorText None
                       (clock env (S (clockReads w))) None None])
           (ChatInterface.with_isProcessing false (ChatInterface.voiceState st))
           true (ChatInterface.textInput st)
           (ChatInterface.hasStartedConversation st) (ChatInterface.audioChunksRef st)
           (ChatInterface.currentAudioRef st) (ChatInterface.audioContextRef st)
           (ChatInterface.continuousStreamRef st) (ChatInterface.voiceDetectionRef st),
         {| clockReads := S (S (clockReads w));
            calls := calls w ++
                     [CallTranscribeAudio (concat (ChatInterface.audioChunksRef st))
                                          (js "en") (js "whisper-1")] |}))).
Proof.
  split.
  - intros r env st w e Hchunks Hsize Huser Hfailed.
    assert (Hnz : (length (concat (App.audioChunksRef st)) =? 0)%nat = false).
    { apply Nat.eqb_neq. unfold App.MIN_BLOB_SIZE in Hsize. lia. }
    enter st w. unfold App.processRecording. unfold_effects.
    rewrite (length_zero_false _ Hchunks), (large_enough _ _ Hsize).
    rewrite Hnz, Huser. cbn [negb]. rewrite Hfailed. reflexivity.
  - intros r env st w e Hchunks Hsize Hfailed.
    enter st w. unfold ChatInterface.processRecording. unfold_effects.
    rewrite (length_zero_false _ Hchunks), (large_enough _ _ Hsize).
    rewrite Hfailed. reflexivity.
Qed.

Lemma transcription_failure_falls_back_witness :
  (let r := Samples.appRender false Samples.utterance in
   let env := Samples.services (Rejected ServiceError) Samples.silent in
   let st := Samples.appStore false Samples.utterance in
   let w := Samples.world0 in
   let e := ServiceError in
   App.audioChunksRef st <> [] /\
   (App.MIN_BLOB_SIZE <= length (concat (App.audioChunksRef st)))%nat /\
   App.r_user r = true /\
   transcribeAudio env (concat (App.audioChunksRef st)) = Rejected e /\
   App.processRecording r env (st, w) =
     (Normal tt,
      (App.mkStore (App.showChat st) (App.conversationCount st)
         (App.messages st ++
          [mkMessage (clock env (clockReads w)) assistant App.transcriptionErrorText None
                     (clock env (S (clockReads w))) None None])
         (App.with_isProcessing false (App.voiceState st))
         true (App.textInput st) (App.audioChunksRef st) (App.currentAudioRef st),
       {| clockReads := S (S (clockReads w));
          calls := calls w ++
                   [CallTranscribeAudio (concat (App.audioChunksRef st))
                                        (js "en") (js "whisper-1")] |}))) /\
  (let r := Samples.chatRender 1 false Samples.utterance in
   let env := Samples.services (Rejected ServiceError) Samples.silent in
   let st := Samples.chatStore false Samples.utterance in
   let w := Samples.world0 in
   let e := ServiceError in
   ChatInterface.audioChunksRef st <> [] /\
   (ChatInterface.MIN_BLOB_SIZE <= length (concat (ChatInterface.audioChunksRef st)))%nat /\
   transcribeAudio env (concat (ChatInterface.audioChunksRef st)) = Rejected e /\
   ChatInterface.processRecording r env (st, w) =
     (Normal tt,
      (ChatInterface.mkStore
         (ChatInterface.messages st ++
          [mkMessage (clock env (clockReads w)) assistant
                     ChatInterface.transcriptionErrorText None
                     (clock env (S (clockReads w))) None None])
         (ChatInterface.with_isProcessing false (ChatInterface.voiceState st))
         true (ChatInterface.textInput st)
         (ChatInterface.hasStartedConversation st) (ChatInterface.audioChunksRef st)
         (ChatInterface.currentAudioRef st) (ChatInterface.audioContextRef st)
         (ChatInterface.continuousStreamRef st) (ChatInterface.voiceDetectionRef st),
       {| clockReads := S (S (clockReads w));
          calls := calls w ++
                   [CallTranscribeAudio (concat (ChatInterface.audioChunksRef st))
                                        (js "en") (js "whisper-1")] |}))).
Proof.
  split.
  - intros r env st w e.
    assert (H1 : App.audioChunksRef st <> []) by (discriminate).
    assert (H2 : (App.MIN_BLOB_SIZE <= length (concat (App.audioChunksRef st)))%nat)
      by (vm_compute; lia).
    assert (H3 : App.r_user r = true) by (reflexivity).
    assert (H4 : transcribeAudio env (concat (App.audioChunksRef st)) = Rejected e)
      by (reflexivity).
    exact (conj H1 (conj H2 (conj H3 (conj H4
             (proj1 transcription_failure_falls_back r env st w e H1 H2 H3 H4))))).
  - intros r env st w e.
    assert (H1 : ChatInterface.audioChunksRef st <> []) by (discriminate).
    assert (H2 : (ChatInterface.MIN_BLOB_SIZE <= length (concat (ChatInterface.audioChunksRef st)))%nat)
      by (vm_compute; lia).
    assert (H3 : transcribeAudio env (concat (ChatInterface.audioChunksRef st)) = Rejected e)
      by (reflexivity).
    exact (conj H1 (conj H2 (conj H3
             (proj2 transcription_failure_falls_back r env st w e H1 H2 H3)))).
Defined.

(** X2.  In [App.tsx] a recording made while no user is signed in is dropped:
    [processRecording] clears the processing flag and does nothing else, whatever
    the size of the clip; no message, no call. *)
Theorem unauthenticated_recording_is_dropped :
  forall (r : App.Render) (env : Env) (st : App.Store) (w : World),
    App.audioChunksRef st <> [] ->
    App.r_user r = false ->
    App.processRecording r env (st, w) =
      (Normal tt,
       (App.mkStore (App.showChat st) (App.conversationCount st) (App.messages st)
          (App.with_isProcessing false (App.voiceState st))
          (App.showTextFallback st) (App.textInput st) (App.audioChunksRef st)
          (App.currentAudioRef st), w)).
Proof.
  intros r env st w Hchunks Huser.
  enter st w. unfold App.processRecording. unfold_effects.
  rewrite (length_zero_false _ Hchunks), Huser. cbn [negb].
  destruct (length (concat _) <? App.MIN_BLOB_SIZE)%nat; [reflexivity|].
  destruct (length (concat _) =? 0)%nat; reflexivity.
Qed.

Lemma unauthenticated_recording_is_dropped_witness :
  let r := App.renderOf false (js "auto") (Samples.appStore false Samples.utterance) in
  let env := Samples.services (Resolved Scenes.story) Scenes.answering in
  let st := Samples.appStore false Samples.utterance in
  let w := Samples.world0 in
  App.audioChunksRef st <> [] /\
  App.r_user r = false /\
  App.processRecording r env (st, w) =
    (Normal tt,
     (App.mkStore (App.showChat st) (App.conversationCount st) (App.messages st)
        (App.with_isProcessing false (App.voiceState st))
        (App.showTextFallback st) (App.textInput st) (App.audioChunksRef st)
        (App.currentAudioRef st), w)).
Proof.
  intros r env st w.
  assert (H1 : App.audioChunksRef st <> []) by (discriminate).
  assert (H2 : App.r_user r = false) by (reflexivity).
  exact (conj H1 (conj H2
           (unauthenticated_recording_is_dropped r env st w H1 H2))).
Defined.

(** X3.  A voice turn whose collaborators all succeed, in both variants: the log
    gains the user message with the trimmed transcript and the assistant message
    with the concatenated chunks, the routed model, the audio and
    [isStreaming] false; the calls are transcription, generation with the
    history of the render plus the transcript, speech for the whole reply and
    playback, then in the chat component the conversation-complete callback;
    the flags for processing and playing end off. *)
Theorem voice_turn_completes :
  (forall (r : App.Render) (env : Env) (st : App.Store) (w : World)
          (text : option jsstring) (url : jsstring),
     App.audioChunksRef st <> [] ->
     (App.MIN_BLOB_SIZE <= length (concat (App.audioChunksRef st)))%nat ->
     App.r_user r = true ->
     transcribeAudio env (concat (App.audioChunksRef st)) = Resolved text ->
     (2 <= length (App.transcriptOf text))%nat ->
     let transcript := App.transcriptOf text in
     let model := determineOptimalModel (App.r_selectedModel r) transcript in
     let history := conversationHistoryOf (App.r_messages r) ++ [(user, transcript)] in
     let reply := streamText env history model 300 in
     let said := concat (chunks reply) in
     let uid := clock env (clockReads w) in
     let aid := (clock env (S (S (clockReads w))) + 1)%Z in
     settled reply = Resolved tt ->
     generateSpeech env said (js "nova") = Resolved url ->
     playback env url <> PlaybackStalls ->
     Forall (fun m => id m <> aid) (App.messages st) ->
     uid <> aid ->
     App.processRecording r env (st, w) =
     (Normal tt,
      (App.mkStore (App.showChat st) (App.conversationCount st)
         (App.messages st ++
          [mkMessage uid user transcript None (clock env (S (clockReads w))) None None;
           mkMessage aid assistant said (Some model)
                     (clock env (S (S (S (clockReads w))))) (Some url) (Some false)])
         (App.with_isProcessing false (App.with_isPlaying false (App.voiceState st)))
         (App.showTextFallback st) (App.textInput st) (App.audioChunksRef st) None,
       {| clockReads := S (S (S (S (clockReads w))));
          calls := calls w ++
                   [CallTranscribeAudio (concat (App.audioChunksRef st))
                                        (js "en") (js "whisper-1");
                    CallStreamText history model 300;
                    CallGenerateSpeech said (js "nova");
                    CallPlay url] |}))) /\
  (forall (r : ChatInterface.Render) (env : Env) (st : ChatInterface.Store) (w : World)
          (text : option jsstring) (url : jsstring),
     ChatInterface.audioChunksRef st <> [] ->
     (ChatInterface.MIN_BLOB_SIZE <= length (concat (ChatInterface.audioChunksRef st)))%nat ->
     transcribeAudio env (concat (ChatInterface.audioChunksRef st)) = Resolved text ->
     (2 <= length (ChatInterface.transcriptOf text))%nat ->
     let transcript := ChatInterface.transcriptOf text in
     let model := determineOptimalModel (ChatInterface.r_selectedModel r) transcript in
     let history := conversationHistoryOf (ChatInterface.r_messages r) ++ [(user, transcript)] in
     let reply := streamText env history model 300 in
     let said := concat (chunks reply) in
     let uid := clock env (clockReads w) in
     let aid := (clock env (S (S (clockReads w))) + 1)%Z in
     settled reply = Resolved tt ->
     generateSpeech env said (js "nova") = Resolved url ->
     playback env url <> PlaybackStalls ->
     Forall (fun m => id m <> aid) (ChatInterface.messages st) ->
     uid <> aid ->
     ChatInterface.processRecording r env (st, w) =
     (Normal tt,
      (ChatInterface.mkStore
         (ChatInterface.messages st ++
          [mkMessage uid user transcript None (clock env (S (clockReads w))) None None;
           mkMessage aid assistant said (Some model)
                     (clock env (S (S (S (clockReads w))))) (Some url) (Some false)])
         (ChatInterface.with_isProcessing false
            (ChatInterface.with_isPlaying false (ChatInterface.voiceState st)))
         (ChatInterface.showTextFallback st) (ChatInterface.textInput st)
         (if ChatInterface.r_hasStartedConversation r
          then ChatInterface.hasStartedConversation st else true)
         (ChatInterface.audioChunksRef st) None (ChatInterface.audioContextRef st)
         (ChatInterface.continuousStreamRef st) (ChatInterface.voiceDetectionRef st),
       {| clockReads := S (S (S (S (clockReads w))));
          calls := calls w ++
                   [CallTranscribeAudio (concat (ChatInterface.audioChunksRef st))
                                        (js "en") (js "whisper-1");
                    CallStreamText history model 300;
                    CallGenerateSpeech said (js "nova");
                    CallPlay url;
                    CallOnConversationComplete] |}))).
Proof.
  split.
  - intros r env st w text url Hchunks Hsize Huser Hheard Hlong.
    intros transcript model history reply said uid aid Hdone Hspeech Hplay Hfresh Hdistinct.
    assert (Hnz : (length (concat (App.audioChunksRef st)) =? 0)%nat = false).
    { apply Nat.eqb_neq. unfold App.MIN_BLOB_SIZE in Hsize. lia. }
    enter st w.
    unfold App.processRecording, App.speak, App.streamInto, App.playAudio. unfold_effects.
    rewrite (length_zero_false _ Hchunks), (large_enough _ _ Hsize).
    rewrite Hnz, Huser. cbn [negb]. rewrite Hheard.
    rewrite (long_transcript _ Hlong).
    fold transcript. fold model. rewrite (router_never_auto _ _ : jsstring_eqb model _ = false).
    fold history. fold reply. cbn [id].
    rewrite app_deliverChunks_streamed. store_fields. rewrite Hdone.
    cbn [app]. fold said. rewrite Hspeech.
    fold uid. fold aid.
    destruct (playback env url); try contradiction;
      settle_log Hfresh Hdistinct; cbn -[said model]; rewrite <- !app_assoc; reflexivity.
  - intros r env st w text url Hchunks Hsize Hheard Hlong.
    intros transcript model history reply said uid aid Hdone Hspeech Hplay Hfresh Hdistinct.
    enter st w.
    unfold ChatInterface.processRecording, ChatInterface.speak,
      ChatInterface.streamInto, ChatInterface.playAudio.
    destruct (ChatInterface.r_hasStartedConversation r); unfold_effects.
    all: rewrite (length_zero_false _ Hchunks), (large_enough _ _ Hsize).
    all: rewrite Hheard.
    all: rewrite (long_transcript _ Hlong).
    all: fold transcript; fold model;
         rewrite (router_never_auto _ _ : jsstring_eqb model _ = false).
    all: fold history; fold reply; cbn [id negb].
    all: rewrite chat_deliverChunks_streamed; store_fields; rewrite Hdone.
    all: cbn [app]; fold said; rewrite Hspeech.
    all: fold uid; fold aid.
    all: destruct (playback env url); try contradiction;
      settle_log Hfresh Hdistinct; cbn -[said model]; rewrite <- !app_assoc; reflexivity.
Qed.

Lemma voice_turn_completes_witness :
  (let r := Samples.appRender false Samples.utterance in
   let env := Samples.services (Resolved Scenes.story) Scenes.answering in
   let st := Samples.appStore false Samples.utterance in
   let w := Samples.world0 in
   let text := Scenes.story in
   let url := js "blob:reply" in
   let transcript := App.transcriptOf text in
   let model := determineOptimalModel (App.r_selectedModel r) transcript in
   let history := conversationHistoryOf (App.r_messages r) ++ [(user, transcript)] in
   let reply := streamText env history model 300 in
   let said := concat (chunks reply) in
   let uid := clock env (clockReads w) in
   let aid := (clock env (S (S (clockReads w))) + 1)%Z in
   App.audioChunksRef st <> [] /\
   (App.MIN_BLOB_SIZE <= length (concat (App.audioChunksRef st)))%nat /\
   App.r_user r = true /\
   transcribeAudio env (concat (App.audioChunksRef st)) = Resolved text /\
   (2 <= length (App.transcriptOf text))%nat /\
   settled reply = Resolved tt /\
   generateSpeech env said (js "nova") = Resolved url /\
   playback env url <> PlaybackStalls /\
   Forall (fun m => id m <> aid) (App.messages st) /\
   uid <> aid /\
   App.processRecording r env (st, w) =
   (Normal tt,
    (App.mkStore (App.showChat st) (App.conversationCount st)
       (App.messages st ++
        [mkMessage uid user transcript None (clock env (S (clockReads w))) None None;
         mkMessage aid assistant said (Some model)
                   (clock env (S (S (S (clockReads w))))) (Some url) (Some false)])
       (App.with_isProcessing false (App.with_isPlaying false (App.voiceState st)))
       (App.showTextFallback st) (App.textInput st) (App.audioChunksRef st) None,
     {| clockReads := S (S (S (S (clockReads w))));
        calls := calls w ++
                 [CallTranscribeAudio (concat (App.audioChunksRef st))
                                      (js "en") (js "whisper-1");
                  CallStreamText history model 300;
                  CallGenerateSpeech said (js "nova");
                  CallPlay url] |}))) /\
  (let r := Samples.chatRender 1 false Samples.utterance in
   let env := Samples.services (Resolved Scenes.story) Scenes.answering in
   let st := Samples.chatStore false Samples.utterance in
   let w := Samples.world0 in
   let text := Scenes.story in
   let url := js "blob:reply" in
   let transcript := ChatInterface.transcriptOf text in
   let model := determineOptimalModel (ChatInterface.r_selectedModel r) transcript in
   let history := conversationHistoryOf (ChatInterface.r_messages r) ++ [(user, transcript)] in
   let reply := streamText env history model 300 in
   let said := concat (chunks reply) in
   let uid := clock env (clockReads w) in
   let aid := (clock env (S (S (clockReads w))) + 1)%Z in
   ChatInterface.audioChunksRef st <> [] /\
   (ChatInterface.MIN_BLOB_SIZE <= length (concat (ChatInterface.audioChunksRef st)))%nat /\
   transcribeAudio env (concat (ChatInterface.audioChunksRef st)) = Resolved text /\
   (2 <= length (ChatInterface.transcriptOf text))%nat /\
   settled reply = Resolved tt /\
   generateSpeech env said (js "nova") = Resolved url /\
   playback env url <> PlaybackStalls /\
   Forall (fun m => id m <> aid) (ChatInterface.messages st) /\
   uid <> aid /\
   ChatInterface.processRecording r env (st, w) =
   (Normal tt,
    (ChatInterface.mkStore
       (ChatInterface.messages st ++
        [mkMessage uid user transcript None (clock env (S (clockReads w))) None None;
         mkMessage aid assistant said (Some model)
                   (clock env (S (S (S (clockReads w))))) (Some url) (Some false)])
       (ChatInterface.with_isProcessing false
          (ChatInterface.with_isPlaying false (ChatInterface.voiceState st)))
       (ChatInterface.showTextFallback st) (ChatInterface.textInput st)
       (if ChatInterface.r_hasStartedConversation r
        then ChatInterface.hasStartedConversation st else true)
       (ChatInterface.audioChunksRef st) None (ChatInterface.audioContextRef st)
       (ChatInterface.continuousStreamRef st) (ChatInterface.voiceDetectionRef st),
     {| clockReads := S (S (S (S (clockReads w))));
        calls := calls w ++
                 [CallTranscribeAudio (concat (ChatInterface.audioChunksRef st))
                                      (js "en") (js "whisper-1");
                  CallStreamText history model 300;
                  CallGenerateSpeech said (js "nova");
                  CallPlay url;
                  CallOnConversationComplete] |}))).
Proof.
  split.
  - intros r env st w text url transcript model history reply said uid aid.
    assert (H1 : App.audioChunksRef st <> []) by (discriminate).
    assert (H2 : (App.MIN_BLOB_SIZE <= length (concat (App.audioChunksRef st)))%nat)
      by (vm_compute; lia).
    assert (H3 : App.r_user r = true) by (reflexivity).
    assert (H4 : transcribeAudio env (concat (App.audioChunksRef st)) = Resolved text)
      by (reflexivity).
    assert (H5 : (2 <= length (App.transcriptOf text))%nat) by (vm_compute; lia).
    assert (H6 : settled reply = Resolved tt) by (reflexivity).
    assert (H7 : generateSpeech env said (js "nova") = Resolved url) by (reflexivity).
    assert (H8 : playback env url <> PlaybackStalls) by (discriminate).
    assert (H9 : Forall (fun m => id m <> aid) (App.messages st))
      by (constructor; [vm_compute; discriminate | constructor]).
    assert (H10 : uid <> aid) by (vm_compute; discriminate).
    exact (conj H1 (conj H2 (conj H3 (conj H4 (conj H5 (conj H6 (conj H7 (conj H8 (conj H9 (conj H10
             (proj1 voice_turn_completes r env st w text url H1 H2 H3 H4 H5 H6 H7 H8 H9 H10))))))))))).
  - intros r env st w text url transcript model history reply said uid aid.
    assert (H1 : ChatInterface.audioChunksRef st <> []) by (discriminate).
    assert (H2 : (ChatInterface.MIN_BLOB_SIZE <= length (concat (ChatInterface.audioChunksRef st)))%nat)
      by (vm_compute; lia).
    assert (H3 : transcribeAudio env (concat (ChatInterface.audioChunksRef st)) = Resolved text)
      by (reflexivity).
    assert (H4 : (2 <= length (ChatInterface.transcriptOf text))%nat)
      by (vm_compute; lia).
    assert (H5 : settled reply = Resolved tt) by (reflexivity).
    assert (H6 : generateSpeech env said (js "nova") = Resolved url) by (reflexivity).
    assert (H7 : playback env url <> PlaybackStalls) by (discriminate).
    assert (H8 : Forall (fun m => id m <> aid) (ChatInterface.messages st))
      by (constructor; [vm_compute; discriminate | constructor]).
    assert (H9 : uid <> aid) by (vm_compute; discriminate).
    exact (conj H1 (conj H2 (conj H3 (conj H4 (conj H5 (conj H6 (conj H7 (conj H8 (conj H9
             (proj2 voice_turn_completes r env st w text url H1 H2 H3 H4 H5 H6 H7 H8 H9)))))))))).
Defined.

(** X4.  When speech synthesis is rejected after a successful generation, the turn
    still completes, in both variants: the reply stays in the log without audio,
    nothing is played, the playing flag is not touched, and the chat component
    still reports the conversation as complete. *)
Theorem speech_failure_is_swallowed :
  (forall (r : App.Render) (env : Env) (st : App.Store) (w : World)
          (text : option jsstring) (e : Error),
     App.audioChunksRef st <> [] ->
     (App.MIN_BLOB_SIZE <= length (concat (App.audioChunksRef st)))%nat ->
     App.r_user r = true ->
     transcribeAudio env (concat (App.audioChunksRef st)) = Resolved text ->
     (2 <= length (App.transcriptOf text))%nat ->
     let transcript := App.transcriptOf text in
     let model := determineOptimalModel (App.r_selectedModel r) transcript in
     let history := conversationHistoryOf (App.r_messages r) ++ [(user, transcript)] in
     let reply := streamText env history model 300 in
     let said := concat (chunks reply) in
     let uid := clock env (clockReads w) in
     let aid := (clock env (S (S (clockReads w))) + 1)%Z in
     settled reply = Resolved tt ->
     generateSpeech env said (js "nova") = Rejected e ->
     Forall (fun m => id m <> aid) (App.messages st) ->
     uid <> aid ->
     App.processRecording r env (st, w) =
     (Normal tt,
      (App.mkStore (App.showChat st) (App.conversationCount st)
         (App.messages st ++
          [mkMessage uid user transcript None (clock env (S (clockReads w))) None None;
           mkMessage aid assistant said (Some model)
                     (clock env (S (S (S (clockReads w))))) None (Some false)])
         (App.with_isProcessing false (App.voiceState st))
         (App.showTextFallback st) (App.textInput st) (App.audioChunksRef st)
         (App.currentAudioRef st),
       {| clockReads := S (S (S (S (clockReads w))));
          calls := calls w ++
                   [CallTranscribeAudio (concat (App.audioChunksRef st))
                                        (js "en") (js "whisper-1");
                    CallStreamText history model 300;
                    CallGenerateSpeech said (js "nova")] |}))) /\
  (forall (r : ChatInterface.Render) (env : Env) (st : ChatInterface.Store) (w : World)
          (text : option jsstring) (e : Error),
     ChatInterface.audioChunksRef st <> [] ->
     (ChatInterface.MIN_BLOB_SIZE <= length (concat (ChatInterface.audioChunksRef st)))%nat ->
     transcribeAudio env (concat (ChatInterface.audioChunksRef st)) = Resolved text ->
     (2 <= length (ChatInterface.transcriptOf text))%nat ->
     let transcript := ChatInterface.transcriptOf text in
     let model := determineOptimalModel (ChatInterface.r_selectedModel r) transcript in
     let history := conversationHistoryOf (ChatInterface.r_messages r) ++ [(user, transcript)] in
     let reply := streamText env history model 300 in
     let said := concat (chunks reply) in
     let uid := clock env (clockReads w) in
     let aid := (clock env (S (S (clockReads w))) + 1)%Z in
     settled reply = Resolved tt ->
     generateSpeech env said (js "nova") = Rejected e ->
     Forall (fun m => id m <> aid) (ChatInterface.messages st) ->
     uid <> aid ->
     ChatInterface.processRecording r env (st, w) =
     (Normal tt,
      (ChatInterface.mkStore
         (ChatInterface.messages st ++
          [mkMessage uid user transcript None (clock env (S (clockReads w))) None None;
           mkMessage aid assistant said (Some model)
                     (clock env (S (S (S (clockReads w))))) None (Some false)])
         (ChatInterface.with_isProcessing false (ChatInterface.voiceState st))
         (ChatInterface.showTextFallback st) (ChatInterface.textInput st)
         (if ChatInterface.r_hasStartedConversation r
          then ChatInterface.hasStartedConversation st else true)
         (ChatInterface.audioChunksRef st) (ChatInterface.currentAudioRef st)
         (ChatInterface.audioContextRef st)
         (ChatInterface.continuousStreamRef st) (ChatInterface.voiceDetectionRef st),
       {| clockReads := S (S (S (S (clockReads w))));
          calls := calls w ++
                   [CallTranscribeAudio (concat (ChatInterface.audioChunksRef st))
                                        (js "en") (js "whisper-1");
                    CallStreamText history model 300;
                    CallGenerateSpeech said (js "nova");
                    CallOnConversationComplete] |}))).
Proof.
  split.
  - intros r env st w text e Hchunks Hsize Huser Hheard Hlong.
    intros transcript model history reply said uid aid Hdone Hspeech Hfresh Hdistinct.
    assert (Hnz : (length (concat (App.audioChunksRef st)) =? 0)%nat = false).
    { apply Nat.eqb_neq. unfold App.MIN_BLOB_SIZE in Hsize. lia. }
    enter st w.
    unfold App.processRecording, App.speak, App.streamInto, App.playAudio. unfold_effects.
    rewrite (length_zero_false _ Hchunks), (large_enough _ _ Hsize).
    rewrite Hnz, Huser. cbn [negb]. rewrite Hheard.
    rewrite (long_transcript _ Hlong).
    fold transcript. fold model. rewrite (router_never_auto _ _ : jsstring_eqb model _ = false).
    fold history. fold reply. cbn [id].
    rewrite app_deliverChunks_streamed. store_fields. rewrite Hdone.
    cbn [app]. fold said. rewrite Hspeech.
    fold uid. fold aid.
    settle_log Hfresh Hdistinct; cbn -[said model]; rewrite <- !app_assoc; reflexivity.
  - intros r env st w text e Hchunks Hsize Hheard Hlong.
    intros transcript model history reply said uid aid Hdone Hspeech Hfresh Hdistinct.
    enter st w.
    unfold ChatInterface.processRecording, ChatInterface.speak,
      ChatInterface.streamInto, ChatInterface.playAudio.
    destruct (ChatInterface.r_hasStartedConversation r); unfold_effects.
    all: rewrite (length_zero_false _ Hchunks), (large_enough _ _ Hsize).
    all: rewrite Hheard.
    all: rewrite (long_transcript _ Hlong).
    all: fold transcript; fold model;
         rewrite (router_never_auto _ _ : jsstring_eqb model _ = false).
    all: fold history; fold reply; cbn [id negb].
    all: rewrite chat_deliverChunks_streamed; store_fields; rewrite Hdone.
    all: cbn [app]; fold said; rewrite Hspeech.
    all: fold uid; fold aid.
    all: settle_log Hfresh Hdistinct; cbn -[said model]; rewrite <- !app_assoc; reflexivity.
Qed.

Lemma speech_failure_is_swallowed_witness :
  (let r := Samples.appRender false Samples.utterance in
   let env := Scenes.mute (Resolved Scenes.story) Scenes.answering in
   let st := Samples.appStore false Samples.utterance in
   let w := Samples.world0 in
   let text := Scenes.story in
   let e := ServiceError in
   let transcript := App.transcriptOf text in
   let model := determineOptimalModel (App.r_selectedModel r) transcript in
   let history := conversationHistoryOf (App.r_messages r) ++ [(user, transcript)] in
   let reply := streamText env history model 300 in
   let said := concat (chunks reply) in
   let uid := clock env (clockReads w) in
   let aid := (clock env (S (S (clockReads w))) + 1)%Z in
   App.audioChunksRef st <> [] /\
   (App.MIN_BLOB_SIZE <= length (concat (App.audioChunksRef st)))%nat /\
   App.r_user r = true /\
   transcribeAudio env (concat (App.audioChunksRef st)) = Resolved text /\
   (2 <= length (App.transcriptOf text))%nat /\
   settled reply = Resolved tt /\
   generateSpeech env said (js "nova") = Rejected e /\
   Forall (fun m => id m <> aid) (App.messages st) /\
   uid <> aid /\
   App.processRecording r env (st, w) =
   (Normal tt,
    (App.mkStore (App.showChat st) (App.conversationCount st)
       (App.messages st ++
        [mkMessage uid user transcript None (clock env (S (clockReads w))) None None;
         mkMessage aid assistant said (Some model)
                   (clock env (S (S (S (clockReads w))))) None (Some false)])
       (App.with_isProcessing false (App.voiceState st))
       (App.showTextFallback st) (App.textInput st) (App.audioChunksRef st)
       (App.currentAudioRef st),
     {| clockReads := S (S (S (S (clockReads w))));
        calls := calls w ++
                 [CallTranscribeAudio (concat (App.audioChunksRef st))
                                      (js "en") (js "whisper-1");
                  CallStreamText history model 300;
                  CallGenerateSpeech said (js "nova")] |}))) /\
  (let r := Samples.chatRender 1 false Samples.utterance in
   let env := Scenes.mute (Resolved Scenes.story) Scenes.answering in
   let st := Samples.chatStore false Samples.utterance in
   let w := Samples.world0 in
   let text := Scenes.story in
   let e := ServiceError in
   let transcript := ChatInterface.transcriptOf text in
   let model := determineOptimalModel (ChatInterface.r_selectedModel r) transcript in
   let history := conversationHistoryOf (ChatInterface.r_messages r) ++ [(user, transcript)] in
   let reply := streamText env history model 300 in
   let said := concat (chunks reply) in
   let uid := clock env (clockReads w) in
   let aid := (clock env (S (S (clockReads w))) + 1)%Z in
   ChatInterface.audioChunksRef st <> [] /\
   (ChatInterface.MIN_BLOB_SIZE <= length (concat (ChatInterface.audioChunksRef st)))%nat /\
   transcribeAudio env (concat (ChatInterface.audioChunksRef st)) = Resolved text /\
   (2 <= length (ChatInterface.transcriptOf text))%nat /\
   settled reply = Resolved tt /\
   generateSpeech env said (js "nova") = Rejected e /\
   Forall (fun m => id m <> aid) (ChatInterface.messages st) /\
   uid <> aid /\
   ChatInterface.processRecording r env (st, w) =
   (Normal tt,
    (ChatInterface.mkStore
       (ChatInterface.messages st ++
        [mkMessage uid user transcript None (clock env (S (clockReads w))) None None;
         mkMessage aid assistant said (Some model)
                   (clock env (S (S (S (clockReads w))))) None (Some false)])
       (ChatInterface.with_isProcessing false (ChatInterface.voiceState st))
       (ChatInterface.showTextFallback st) (ChatInterface.textInput st)
       (if ChatInterface.r_hasStartedConversation r
        then ChatInterface.hasStartedConversation st else true)
       (ChatInterface.audioChunksRef st) (ChatInterface.currentAudioRef st)
       (ChatInterface.audioContextRef st)
       (ChatInterface.continuousStreamRef st) (ChatInterface.voiceDetectionRef st),
     {| clockReads := S (S (S (S (clockReads w))));
        calls := calls w ++
                 [CallTranscribeAudio (concat (ChatInterface.audioChunksRef st))
                                      (js "en") (js "whisper-1");
                  CallStreamText history model 300;
                  CallGenerateSpeech said (js "nova");
                  CallOnConversationComplete] |}))).
Proof.
  split.
  - intros r env st w text e transcript model history reply said uid aid.
    assert (H1 : App.audioChunksRef st <> []) by (discriminate).
    assert (H2 : (App.MIN_BLOB_SIZE <= length (concat (App.audioChunksRef st)))%nat)
      by (vm_compute; lia).
    assert (H3 : App.r_user r = true) by (reflexivity).
    assert (H4 : transcribeAudio env (concat (App.audioChunksRef st)) = Resolved text)
      by (reflexivity).
    assert (H5 : (2 <= length (App.transcriptOf text))%nat) by (vm_compute; lia).
    assert (H6 : settled reply = Resolved tt) by (reflexivity).
    assert (H7 : generateSpeech env said (js "nova") = Rejected e) by (reflexivity).
    assert (H8 : Forall (fun m => id m <> aid) (App.messages st))
      by (constructor; [vm_compute; discriminate | constructor]).
    assert (H9 : uid <> aid) by (vm_compute; discriminate).
    exact (conj H1 (conj H2 (conj H3 (conj H4 (conj H5 (conj H6 (conj H7 (conj H8 (conj H9
             (proj1 speech_failure_is_swallowed r env st w text e H1 H2 H3 H4 H5 H6 H7 H8 H9)))))))))).
  - intros r env st w text e transcript model history reply said uid aid.
    assert (H1 : ChatInterface.audioChunksRef st <> []) by (discriminate).
    assert (H2 : (ChatInterface.MIN_BLOB_SIZE <= length (concat (ChatInterface.audioChunksRef st)))%nat)
      by (vm_compute; lia).
    assert (H3 : transcribeAudio env (concat (ChatInterface.audioChunksRef st)) = Resolved text)
      by (reflexivity).
    assert (H4 : (2 <= length (ChatInterface.transcriptOf text))%nat)
      by (vm_compute; lia).
    assert (H5 : settled reply = Resolved tt) by (reflexivity).
    assert (H6 : generateSpeech env said (js "nova") = Rejected e) by (reflexivity).
    assert (H7 : Forall (fun m => id m <> aid) (ChatInterface.messages st))
      by (constructor; [vm_compute; discriminate | constructor]).
    assert (H8 : uid <> aid) by (vm_compute; discriminate).
    exact (conj H1 (conj H2 (conj H3 (conj H4 (conj H5 (conj H6 (conj H7 (conj H8
             (proj2 speech_failure_is_swallowed r env st w text e H1 H2 H3 H4 H5 H6 H7 H8))))))))).
Defined.

(** X5.  A typed turn whose collaborators all succeed, in both variants: the log
    gains the user message with the text as typed (not trimmed) and the reply,
    the text field is cleared and the text fallback hidden; [App.tsx] adds one
    to the conversation count, the chat component calls the
    conversation-complete callback. *)
Theorem text_turn_completes :
  (forall (r : App.Render) (text : jsstring) (env : Env) (st : App.Store) (w : World)
          (url : jsstring),
     trim text <> [] ->
     App.r_user r = true ->
     let model := determineOptimalModel (App.r_selectedModel r) text in
     let history := conversationHistoryOf (App.r_messages r) ++ [(user, text)] in
     let reply := streamText env history model 300 in
     let said := concat (chunks reply) in
     let uid := clock env (clockReads w) in
     let aid := (clock env (S (S (clockReads w))) + 1)%Z in
     settled reply = Resolved tt ->
     generateSpeech env said (js "nova") = Resolved url ->
     playback env url <> PlaybackStalls ->
     Forall (fun m => id m <> aid) (App.messages st) ->
     uid <> aid ->
     App.handleTextSubmit r text env (st, w) =
     (Normal tt,
      (App.mkStore (App.showChat st) (App.conversationCount st + 1)
         (App.messages st ++
          [mkMessage uid user text None (clock env (S (clockReads w))) None None;
           mkMessage aid assistant said (Some model)
                     (clock env (S (S (S (clockReads w))))) (Some url) (Some false)])
         (App.with_isProcessing false (App.with_isPlaying false (App.voiceState st)))
         false [] (App.audioChunksRef st) None,
       {| clockReads := S (S (S (S (clockReads w))));
          calls := calls w ++
                   [CallStreamText history model 300;
                    CallGenerateSpeech said (js "nova");
                    CallPlay url] |}))) /\
  (forall (r : ChatInterface.Render) (text : jsstring) (env : Env)
          (st : ChatInterface.Store) (w : World) (url : jsstring),
     trim text <> [] ->
     ChatInterface.hasReachedLimit r = false ->
     let model := determineOptimalModel (ChatInterface.r_selectedModel r) text in
     let history := conversationHistoryOf (ChatInterface.r_messages r) ++ [(user, text)] in
     let reply := streamText env history model 300 in
     let said := concat (chunks reply) in
     let uid := clock env (clockReads w) in
     let aid := (clock env (S (S (clockReads w))) + 1)%Z in
     settled reply = Resolved tt ->
     generateSpeech env said (js "nova") = Resolved url ->
     playback env url <> PlaybackStalls ->
     Forall (fun m => id m <> aid) (ChatInterface.messages st) ->
     uid <> aid ->
     ChatInterface.handleTextSubmit r text env (st, w) =
     (Normal tt,
      (ChatInterface.mkStore
         (ChatInterface.messages st ++
          [mkMessage uid user text None (clock env (S (clockReads w))) None None;
           mkMessage aid assistant said (Some model)
                     (clock env (S (S (S (clockReads w))))) (Some url) (Some false)])
         (ChatInterface.with_isProcessing false
            (ChatInterface.with_isPlaying false (ChatInterface.voiceState st)))
         false []
         (if ChatInterface.r_hasStartedConversation r
          then ChatInterface.hasStartedConversation st else true)
         (ChatInterface.audioChunksRef st) None (ChatInterface.audioContextRef st)
         (ChatInterface.continuousStreamRef st) (ChatInterface.voiceDetectionRef st),
       {| clockReads := S (S (S (S (clockReads w))));
          calls := calls w ++
                   [CallStreamText history model 300;
                    CallGenerateSpeech said (js "nova");
                    CallPlay url;
                    CallOnConversationComplete] |}))).
Proof.
  split.
  - intros r text env st w url Htext Huser.
    intros model history reply said uid aid Hdone Hspeech Hplay Hfresh Hdistinct.
    enter st w.
    unfold App.handleTextSubmit, App.speak, App.streamInto, App.playAudio. unfold_effects.
    rewrite (not_blank _ Htext), Huser. cbn [negb orb].
    fold model. rewrite (router_never_auto _ _ : jsstring_eqb model _ = false).
    fold history. fold reply. cbn [id].
    rewrite app_deliverChunks_streamed. store_fields. rewrite Hdone.
    cbn [app]. fold said. rewrite Hspeech.
    fold uid. fold aid.
    destruct (playback env url); try contradiction;
      settle_log Hfresh Hdistinct; cbn -[said model]; rewrite <- !app_assoc; reflexivity.
  - intros r text env st w url Htext Hbelow.
    intros model history reply said uid aid Hdone Hspeech Hplay Hfresh Hdistinct.
    enter st w.
    unfold ChatInterface.handleTextSubmit, ChatInterface.speak,
      ChatInterface.streamInto, ChatInterface.playAudio.
    destruct (ChatInterface.r_hasStartedConversation r); unfold_effects.
    all: rewrite (not_blank _ Htext), Hbelow; cbn [negb orb].
    all: fold model; rewrite (router_never_auto _ _ : jsstring_eqb model _ = false).
    all: fold history; fold reply; cbn [id].
    all: rewrite chat_deliverChunks_streamed; store_fields; rewrite Hdone.
    all: cbn [app]; fold said; rewrite Hspeech.
    all: fold uid; fold aid.
    all: destruct (playback env url); try contradiction;
      settle_log Hfresh Hdistinct; cbn -[said model]; rewrite <- !app_assoc; reflexivity.
Qed.

Lemma text_turn_completes_witness :
  (let r := Samples.appRender false Samples.utterance in
   let text := js "tell me a story" in
   let env := Samples.services (Resolved Scenes.story) Scenes.answering in
   let st := Samples.appStore false Samples.utterance in
   let w := Samples.world0 in
   let url := js "blob:reply" in
   let model := determineOptimalModel (App.r_selectedModel r) text in
   let history := conversationHistoryOf (App.r_messages r) ++ [(user, text)] in
   let reply := streamText env history model 300 in
   let said := concat (chunks reply) in
   let uid := clock env (clockReads w) in
   let aid := (clock env (S (S (clockReads w))) + 1)%Z in
   trim text <> [] /\
   App.r_user r = true /\
   settled reply = Resolved tt /\
   generateSpeech env said (js "nova") = Resolved url /\
   playback env url <> PlaybackStalls /\
   Forall (fun m => id m <> aid) (App.messages st) /\
   uid <> aid /\
   App.handleTextSubmit r text env (st, w) =
   (Normal tt,
    (App.mkStore (App.showChat st) (App.conversationCount st + 1)
       (App.messages st ++
        [mkMessage uid user text None (clock env (S (clockReads w))) None None;
         mkMessage aid assistant said (Some model)
                   (clock env (S (S (S (clockReads w))))) (Some url) (Some false)])
       (App.with_isProcessing false (App.with_isPlaying false (App.voiceState st)))
       false [] (App.audioChunksRef st) None,
     {| clockReads := S (S (S (S (clockReads w))));
        calls := calls w ++
                 [CallStreamText history model 300;
                  CallGenerateSpeech said (js "nova");
                  CallPlay url] |}))) /\
  (let r := Samples.chatRender 1 false Samples.utterance in
   let text := js "tell me a story" in
   let env := Samples.services (Resolved Scenes.story) Scenes.answering in
   let st := Samples.chatStore false Samples.utterance in
   let w := Samples.world0 in
   let url := js "blob:reply" in
   let model := determineOptimalModel (ChatInterface.r_selectedModel r) text in
   let history := conversationHistoryOf (ChatInterface.r_messages r) ++ [(user, text)] in
   let reply := streamText env history model 300 in
   let said := concat (chunks reply) in
   let uid := clock env (clockReads w) in
   let aid := (clock env (S (S (clockReads w))) + 1)%Z in
   trim text <> [] /\
   ChatInterface.hasReachedLimit r = false /\
   settled reply = Resolved tt /\
   generateSpeech env said (js "nova") = Resolved url /\
   playback env url <> PlaybackStalls /\
   Forall (fun m => id m <> aid) (ChatInterface.messages st) /\
   uid <> aid /\
   ChatInterface.handleTextSubmit r text env (st, w) =
   (Normal tt,
    (ChatInterface.mkStore
       (ChatInterface.messages st ++
        [mkMessage uid user text None (clock env (S (clockReads w))) None None;
         mkMessage aid assistant said (Some model)
                   (clock env (S (S (S (clockReads w))))) (Some url) (Some false)])
       (ChatInterface.with_isProcessing false
          (ChatInterface.with_isPlaying false (ChatInterface.voiceState st)))
       false []
       (if ChatInterface.r_hasStartedConversation r
        then ChatInterface.hasStartedConversation st else true)
       (ChatInterface.audioChunksRef st) None (ChatInterface.audioContextRef st)
       (ChatInterface.continuousStreamRef st) (ChatInterface.voiceDetectionRef st),
     {| clockReads := S (S (S (S (clockReads w))));
        calls := calls w ++
                 [CallStreamText history model 300;
                  CallGenerateSpeech said (js "nova");
                  CallPlay url;
                  CallOnConversationComplete] |}))).
Proof.
  split.
  - intros r text env st w url model history reply said uid aid.
    assert (H1 : trim text <> []) by (discriminate).
    assert (H2 : App.r_user r = true) by (reflexivity).
    assert (H3 : settled reply = Resolved tt) by (reflexivity).
    assert (H4 : generateSpeech env said (js "nova") = Resolved url) by (reflexivity).
    assert (H5 : playback env url <> PlaybackStalls) by (discriminate).
    assert (H6 : Forall (fun m => id m <> aid) (App.messages st))
      by (constructor; [vm_compute; discriminate | constructor]).
    assert (H7 : uid <> aid) by (vm_compute; discriminate).
    exact (conj H1 (conj H2 (conj H3 (conj H4 (conj H5 (conj H6 (conj H7
             (proj1 text_turn_completes r text env st w url H1 H2 H3 H4 H5 H6 H7)))))))).
  - intros r text env st w url model history reply said uid aid.
    assert (H1 : trim text <> []) by (discriminate).
    assert (H2 : ChatInterface.hasReachedLimit r = false) by (reflexivity).
    assert (H3 : settled reply = Resolved tt) by (reflexivity).
    assert (H4 : generateSpeech env said (js "nova") = Resolved url) by (reflexivity).
    assert (H5 : playback env url <> PlaybackStalls) by (discriminate).
    assert (H6 : Forall (fun m => id m <> aid) (ChatInterface.messages st))
      by (constructor; [vm_compute; discriminate | constructor]).
    assert (H7 : uid <> aid) by (vm_compute; discriminate).
    exact (conj H1 (conj H2 (conj H3 (conj H4 (conj H5 (conj H6 (conj H7
             (proj2 text_turn_completes r text env st w url H1 H2 H3 H4 H5 H6 H7)))))))).
Defined.

(** X6.  When generation is rejected in a typed turn, [handleTextSubmit] returns
    normally but, unlike [processRecording], writes no apology: the assistant
    message keeps the chunks streamed so far and stays marked as streaming,
    no speech is requested, the turn is not counted, and the text field and
    the fallback are left as they were. *)
Theorem text_turn_generation_failure_leaves_partial_reply :
  (forall (r : App.Render) (text : jsstring) (env : Env) (st : App.Store) (w : World)
          (e : Error),
     trim text <> [] ->
     App.r_user r = true ->
     let model := determineOptimalModel (App.r_selectedModel r) text in
     let history := conversationHistoryOf (App.r_messages r) ++ [(user, text)] in
     let reply := streamText env history model 300 in
     let partial := concat (chunks reply) in
     let uid := clock env (clockReads w) in
     let aid := (clock env (S (S (clockReads w))) + 1)%Z in
     settled reply = Rejected e ->
     Forall (fun m => id m <> aid) (App.messages st) ->
     uid <> aid ->
     App.handleTextSubmit r text env (st, w) =
     (Normal tt,
      (App.mkStore (App.showChat st) (App.conversationCount st)
         (App.messages st ++
          [mkMessage uid user text None (clock env (S (clockReads w))) None None;
           mkMessage aid assistant partial (Some model)
                     (clock env (S (S (S (clockReads w))))) None (Some true)])
         (App.with_isProcessing false (App.voiceState st))
         (App.showTextFallback st) (App.textInput st) (App.audioChunksRef st)
         (App.currentAudioRef st),
       {| clockReads := S (S (S (S (clockReads w))));
          calls := calls w ++ [CallStreamText history model 300] |}))) /\
  (forall (r : ChatInterface.Render) (text : jsstring) (env : Env)
          (st : ChatInterface.Store) (w : World) (e : Error),
     trim text <> [] ->
     ChatInterface.hasReachedLimit r = false ->
     let model := determineOptimalModel (ChatInterface.r_selectedModel r) text in
     let history := conversationHistoryOf (ChatInterface.r_messages r) ++ [(user, text)] in
     let reply := streamText env history model 300 in
     let partial := concat (chunks reply) in
     let uid := clock env (clockReads w) in
     let aid := (clock env (S (S (clockReads w))) + 1)%Z in
     settled reply = Rejected e ->
     Forall (fun m => id m <> aid) (ChatInterface.messages st) ->
     uid <> aid ->
     ChatInterface.handleTextSubmit r text env (st, w) =
     (Normal tt,
      (ChatInterface.mkStore
         (ChatInterface.messages st ++
          [mkMessage uid user text None (clock env (S (clockReads w))) None None;
           mkMessage aid assistant partial (Some model)
                     (clock env (S (S (S (clockReads w))))) None (Some true)])
         (ChatInterface.with_isProcessing false (ChatInterface.voiceState st))
         (ChatInterface.showTextFallback st) (ChatInterface.textInput st)
         (if ChatInterface.r_hasStartedConversation r
          then ChatInterface.hasStartedConversation st else true)
         (ChatInterface.audioChunksRef st) (ChatInterface.currentAudioRef st)
         (ChatInterface.audioContextRef st)
         (ChatInterface.continuousStreamRef st) (ChatInterface.voiceDetectionRef st),
       {| clockReads := S (S (S (S (clockReads w))));
          calls := calls w ++ [CallStreamText history model 300] |}))).
Proof.
  split.
  - intros r text env st w e Htext Huser.
    intros model history reply partial uid aid Hfail Hfresh Hdistinct.
    enter st w.
    unfold App.handleTextSubmit, App.speak, App.streamInto, App.playAudio. unfold_effects.
    rewrite (not_blank _ Htext), Huser. cbn [negb orb].
    fold model. rewrite (router_never_auto _ _ : jsstring_eqb model _ = false).
    fold history. fold reply. cbn [id].
    rewrite app_deliverChunks_streamed. store_fields. rewrite Hfail.
    cbn [app]. fold partial. fold uid. fold aid.
    settle_log Hfresh Hdistinct; cbn -[partial model]; rewrite <- !app_assoc; reflexivity.
  - intros r text env st w e Htext Hbelow.
    intros model history reply partial uid aid Hfail Hfresh Hdistinct.
    enter st w.
    unfold ChatInterface.handleTextSubmit, ChatInterface.speak,
      ChatInterface.streamInto, ChatInterface.playAudio.
    destruct (ChatInterface.r_hasStartedConversation r); unfold_effects.
    all: rewrite (not_blank _ Htext), Hbelow; cbn [negb orb].
    all: fold model; rewrite (router_never_auto _ _ : jsstring_eqb model _ = false).
    all: fold history; fold reply; cbn [id].
    all: rewrite chat_deliverChunks_streamed; store_fields; rewrite Hfail.
    all: cbn [app]; fold partial; fold uid; fold aid.
    all: settle_log Hfresh Hdistinct; cbn -[partial model]; rewrite <- !app_assoc;
         reflexivity.
Qed.

Lemma text_turn_generation_failure_leaves_partial_reply_witness :
  (let r := Samples.appRender false Samples.utterance in
   let text := js "tell me a story" in
   let env := Samples.services (Resolved None) Samples.failing in
   let st := Samples.appStore false Samples.utterance in
   let w := Samples.world0 in
   let e := ServiceError in
   let model := determineOptimalModel (App.r_selectedModel r) text in
   let history := conversationHistoryOf (App.r_messages r) ++ [(user, text)] in
   let reply := streamText env history model 300 in
   let partial := concat (chunks reply) in
   let uid := clock env (clockReads w) in
   let aid := (clock env (S (S (clockReads w))) + 1)%Z in
   trim text <> [] /\
   App.r_user r = true /\
   settled reply = Rejected e /\
   Forall (fun m => id m <> aid) (App.messages st) /\
   uid <> aid /\
   App.handleTextSubmit r text env (st, w) =
   (Normal tt,
    (App.mkStore (App.showChat st) (App.conversationCount st)
       (App.messages st ++
        [mkMessage uid user text None (clock env (S (clockReads w))) None None;
         mkMessage aid assistant partial (Some model)
                   (clock env (S (S (S (clockReads w))))) None (Some true)])
       (App.with_isProcessing false (App.voiceState st))
       (App.showTextFallback st) (App.textInput st) (App.audioChunksRef st)
       (App.currentAudioRef st),
     {| clockReads := S (S (S (S (clockReads w))));
        calls := calls w ++ [CallStreamText history model 300] |}))) /\
  (let r := Samples.chatRender 1 false Samples.utterance in
   let text := js "tell me a story" in
   let env := Samples.services (Resolved None) Samples.failing in
   let st := Samples.chatStore false Samples.utterance in
   let w := Samples.world0 in
   let e := ServiceError in
   let model := determineOptimalModel (ChatInterface.r_selectedModel r) text in
   let history := conversationHistoryOf (ChatInterface.r_messages r) ++ [(user, text)] in
   let reply := streamText env history model 300 in
   let partial := concat (chunks reply) in
   let uid := clock env (clockReads w) in
   let aid := (clock env (S (S (clockReads w))) + 1)%Z in
   trim text <> [] /\
   ChatInterface.hasReachedLimit r = false /\
   settled reply = Rejected e /\
   Forall (fun m => id m <> aid) (ChatInterface.messages st) /\
   uid <> aid /\
   ChatInterface.handleTextSubmit r text env (st, w) =
   (Normal tt,
    (ChatInterface.mkStore
       (ChatInterface.messages st ++
        [mkMessage uid user text None (clock env (S (clockReads w))) None None;
         mkMessage aid assistant partial (Some model)
                   (clock env (S (S (S (clockReads w))))) None (Some true)])
       (ChatInterface.with_isProcessing false (ChatInterface.voiceState st))
       (ChatInterface.showTextFallback st) (ChatInterface.textInput st)
       (if ChatInterface.r_hasStartedConversation r
        then ChatInterface.hasStartedConversation st else true)
       (ChatInterface.audioChunksRef st) (ChatInterface.currentAudioRef st)
       (ChatInterface.audioContextRef st)
       (ChatInterface.continuousStreamRef st) (ChatInterface.voiceDetectionRef st),
     {| clockReads := S (S (S (S (clockReads w))));
        calls := calls w ++ [CallStreamText history model 300] |}))).
Proof.
  split.
  - intros r text env st w e model history reply partial uid aid.
    assert (H1 : trim text <> []) by (discriminate).
    assert (H2 : App.r_user r = true) by (reflexivity).
    assert (H3 : settled reply = Rejected e) by (reflexivity).
    assert (H4 : Forall (fun m => id m <> aid) (App.messages st))
      by (constructor; [vm_compute; discriminate | constructor]).
    assert (H5 : uid <> aid) by (vm_compute; discriminate).
    exact (conj H1 (conj H2 (conj H3 (conj H4 (conj H5
             (proj1 text_turn_generation_failure_leaves_partial_reply r text env st w e H1 H2 H3 H4 H5)))))).
  - intros r text env st w e model history reply partial uid aid.
    assert (H1 : trim text <> []) by (discriminate).
    assert (H2 : ChatInterface.hasReachedLimit r = false) by (reflexivity).
    assert (H3 : settled reply = Rejected e) by (reflexivity).
    assert (H4 : Forall (fun m => id m <> aid) (ChatInterface.messages st))
      by (constructor; [vm_compute; discriminate | constructor]).
    assert (H5 : uid <> aid) by (vm_compute; discriminate).
    exact (conj H1 (conj H2 (conj H3 (conj H4 (conj H5
             (proj2 text_turn_generation_failure_leaves_partial_reply r text env st w e H1 H2 H3 H4 H5)))))).
Defined.

(* ===================================================================== *)
(** * Every path through a turn *)
(* ===================================================================== *)

Lemma keeps_content c : keepsIdentity (with_content c).
Proof. intros m. split; reflexivity. Qed.

Lemma keeps_isStreaming b : keepsIdentity (with_isStreaming b).
Proof. intros m. split; reflexivity. Qed.

Lemma keeps_audioUrl u : keepsIdentity (with_audioUrl u).
Proof. intros m. split; reflexivity. Qed.

Lemma extends_streamed aid old cs : forall rt n new,
  extends aid old n new -> extends aid old n (streamed aid rt cs new).
Proof.
  induction cs as [|c cs IH]; intros rt n new H; cbn; [exact H|].
  apply IH. apply extends_update; [apply keeps_content | exact H].
Qed.

Lemma sameBut_refl (aid : Z) (l : list Message) : Forall2 (sameBut aid) l l.
Proof. induction l; constructor; [repeat split; auto | assumption]. Qed.

Lemma sameBut_update (aid : Z) (f : Message -> Message) (kept old : list Message) :
  keepsIdentity f -> Forall2 (sameBut aid) kept old ->
  Forall2 (sameBut aid) (updateById aid f kept) old.
Proof.
  intros Hf H. induction H as [|k o kept old [Hi [Ht Hsame]] _ IH]; cbn; constructor; auto.
  destruct (Z.eqb_spec (id k) aid) as [E|E].
  - destruct (Hf k) as [Hfi Hft]. repeat split; try congruence.
  - repeat split; auto.
Qed.

Lemma extends_grown (aid : Z) (old : list Message) (n : nat) (new : list Message) :
  extends aid old n new ->
  exists kept added,
    new = kept ++ added /\ length added = n /\ Forall2 (sameBut aid) kept old.
Proof.
  induction 1 as [|n new m _ IH|n new f Hf _ IH].
  - exists old, []. rewrite app_nil_r. repeat split. apply sameBut_refl.
  - destruct IH as [kept [added [-> [Hn Hk]]]].
    exists kept, (added ++ [m]). rewrite app_assoc, length_app. cbn.
    repeat split; auto. lia.
  - destruct IH as [kept [added [-> [Hn Hk]]]].
    exists (updateById aid f kept), (updateById aid f added).
    rewrite updateById_app, updateById_length.
    repeat split; auto. now apply sameBut_update.
Qed.

Lemma extends_length (aid : Z) (old : list Message) (n : nat) (new : list Message) :
  extends aid old n new -> length new = (length old + n)%nat.
Proof.
  intros H. destruct (extends_grown _ _ _ _ H) as [kept [added [-> [Hn Hk]]]].
  rewrite length_app, (Forall2_length Hk), Hn. reflexivity.
Qed.

Lemma extends_grows (aid : Z) (old : list Message) (n : nat) (new : list Message) :
  extends aid old n new -> (n <= 2)%nat -> grown aid old new.
Proof.
  intros H Hn. destruct (extends_grown _ _ _ _ H) as [kept [added [-> [Hl Hk]]]].
  exists kept, added. repeat split; auto. lia.
Qed.

Ltac grow_log :=
  repeat first
    [ apply extends_streamed
    | apply extends_update; [first [apply keeps_content | apply keeps_isStreaming
                                   | apply keeps_audioUrl]|]
    | apply extends_push
    | apply extends_same ].

Lemma no_chunks {A} (l : list A) : (length l =? 0)%nat = true -> l = [].
Proof. destruct l; [reflexivity | discriminate]. Qed.

(** Every path through an async function of the client. *)
Ltac explore :=
  repeat match goal with
         | |- context [App.deliverChunks ?a ?b ?c ?d (?s, ?w)] =>
             rewrite (app_deliverChunks_streamed c a b d s w); store_fields
         | |- context [ChatInterface.deliverChunks ?a ?b ?c ?d (?s, ?w)] =>
             rewrite (chat_deliverChunks_streamed c a b d s w); store_fields
         | |- context [if ?b then _ else _] => destruct b eqn:?; cbv beta iota
         | |- context [match ?x with Resolved _ => _ | Rejected _ => _ | Unsettled => _ end] =>
             destruct x eqn:?; cbv beta iota
         | |- context [match ?x with PlaybackEnds => _ | _ => _ end] =>
             destruct x eqn:?; cbv beta iota
         end.

Ltac hang_excluded :=
  match goal with
  | Hs : settles _ |- _ =>
      destruct Hs as [?Ht [?Hg [?Hv ?Hp]]]; exfalso;
      first [ eapply Ht; eassumption | eapply Hg; eassumption
            | eapply Hv; eassumption | eapply Hp; eassumption ]
  end.

Ltac close_path :=
  cbn -[updateById streamed];
  repeat match goal with
         | |- _ /\ _ => split
         end;
  try reflexivity;
  try (left; reflexivity); try (right; reflexivity);
  try (intros; first [discriminate | contradiction | reflexivity | hang_excluded]);
  try (eexists; split; [|grow_log]; lia).

Lemma app_processRecording_paths (r : App.Render) (env : Env) (st : App.Store) (w : World) :
  let '(c, (st', w')) := App.processRecording r env (st, w) in
  (c = Normal tt \/ c = Pending) /\
  (c = Normal tt -> App.audioChunksRef st <> [] ->
   App.isProcessing (App.voiceState st') = false) /\
  (settles env -> c = Normal tt) /\
  (exists n, (n <= 2)%nat /\
             extends (turnId env w) (App.messages st) n (App.messages st')) /\
  App.conversationCount st' = App.conversationCount st /\
  App.showChat st' = App.showChat st /\
  App.textInput st' = App.textInput st /\
  (App.showTextFallback st' = App.showTextFallback st \/
   App.showTextFallback st' = true) /\
  App.audioChunksRef st' = App.audioChunksRef st.
Proof.
  unfold turnId.
  destruct st as [shown count log vs fallback input buffer audio].
  destruct w as [reads made]. store_fields.
  destruct buffer as [|chunk rest].
  - close_path.
  - unfold App.processRecording, App.speak, App.streamInto, App.playAudio.
    unfold_effects. cbn [length Nat.eqb id]. explore.
    all: close_path.
Qed.

Ltac close_counted :=
  cbn -[updateById streamed];
  repeat match goal with
         | |- _ /\ _ => split
         end;
  try reflexivity;
  try (left; reflexivity); try (right; reflexivity);
  try (intros; first [discriminate | contradiction | reflexivity | hang_excluded]);
  try (eexists; eexists; split; [grow_log|];
       split; [lia|];
       split; [rewrite <- ?app_assoc; first [reflexivity | symmetry; apply app_nil_r]
              | reflexivity]).

Lemma chat_processRecording_paths (r : ChatInterface.Render) (env : Env)
  (st : ChatInterface.Store) (w : World) :
  let '(c, (st', w')) := ChatInterface.processRecording r env (st, w) in
  (c = Normal tt \/ c = Pending) /\
  (c = Normal tt -> ChatInterface.audioChunksRef st <> [] ->
   ChatInterface.isProcessing (ChatInterface.voiceState st') = false) /\
  (settles env -> c = Normal tt) /\
  (exists n made,
      extends (turnId env w) (ChatInterface.messages st) n (ChatInterface.messages st') /\
      (n <= 2)%nat /\
      calls w' = calls w ++ made /\
      completions made = if returned c && (n =? 2)%nat then 1%nat else 0%nat) /\
  ChatInterface.textInput st' = ChatInterface.textInput st /\
  (ChatInterface.showTextFallback st' = ChatInterface.showTextFallback st \/
   ChatInterface.showTextFallback st' = true) /\
  (ChatInterface.hasStartedConversation st' = ChatInterface.hasStartedConversation st \/
   ChatInterface.hasStartedConversation st' = true) /\
  ChatInterface.audioChunksRef st' = ChatInterface.audioChunksRef st /\
  ChatInterface.continuousStreamRef st' = ChatInterface.continuousStreamRef st /\
  ChatInterface.audioContextRef st' = ChatInterface.audioContextRef st /\
  ChatInterface.voiceDetectionRef st' = ChatInterface.voiceDetectionRef st.
Proof.
  unfold turnId.
  destruct st as [log vs fallback input started buffer audio context stream detecting].
  destruct w as [reads made]. store_fields.
  destruct buffer as [|chunk rest].
  - cbn. repeat match goal with |- _ /\ _ => split end; auto; try discriminate;
      try contradiction.
    exists 0%nat, []. rewrite app_nil_r. repeat split; auto. constructor.
  - unfold ChatInterface.processRecording, ChatInterface.speak,
      ChatInterface.streamInto, ChatInterface.playAudio.
    unfold_effects. cbn [length Nat.eqb id]. explore.
    all: close_counted.
Qed.

Ltac close_text_path :=
  cbn -[updateById streamed];
  repeat match goal with
         | |- _ /\ _ => split
         end;
  try reflexivity;
  try (left; reflexivity); try (right; reflexivity);
  try (intros; first [discriminate | contradiction | reflexivity | hang_excluded]);
  try (eexists; split; [|grow_log]; lia);
  try (first [ left; repeat split; reflexivity | right; repeat split; reflexivity ]).

Lemma app_handleTextSubmit_paths (r : App.Render) (text : jsstring) (env : Env)
  (st : App.Store) (w : World) :
  let '(c, (st', w')) := App.handleTextSubmit r text env (st, w) in
  (c = Normal tt \/ c = Pending) /\
  (c = Normal tt -> App.isProcessing (App.voiceState st') = false \/ st' = st) /\
  (settles env -> c = Normal tt) /\
  (exists n, (n <= 2)%nat /\
             extends (turnId env w) (App.messages st) n (App.messages st')) /\
  ((App.conversationCount st' = App.conversationCount st /\
    App.textInput st' = App.textInput st /\
    App.showTextFallback st' = App.showTextFallback st) \/
   (c = Normal tt /\
    App.conversationCount st' = (App.conversationCount st + 1)%Z /\
    App.textInput st' = [] /\
    App.showTextFallback st' = false)) /\
  App.showChat st' = App.showChat st /\
  App.audioChunksRef st' = App.audioChunksRef st.
Proof.
  unfold turnId.
  destruct st as [shown count log vs fallback input buffer audio].
  destruct w as [reads made]. store_fields.
  unfold App.handleTextSubmit, App.speak, App.streamInto, App.playAudio.
  unfold_effects. cbn [id]. explore.
  all: close_text_path.
Qed.

Ltac close_counted_text :=
  cbn -[updateById streamed];
  repeat match goal with
         | |- _ /\ _ => split
         end;
  try reflexivity;
  try (left; reflexivity); try (right; reflexivity);
  try (intros; first [discriminate | contradiction | reflexivity | hang_excluded]);
  try (eexists; eexists; split; [grow_log|];
       split; [lia|];
       split; [rewrite <- ?app_assoc; first [reflexivity | symmetry; apply app_nil_r]|];
       first [ left; repeat split; reflexivity | right; repeat split; reflexivity ]).

Lemma chat_handleTextSubmit_paths (r : ChatInterface.Render) (text : jsstring)
  (env : Env) (st : ChatInterface.Store) (w : World) :
  let '(c, (st', w')) := ChatInterface.handleTextSubmit r text env (st, w) in
  (c = Normal tt \/ c = Pending) /\
  (c = Normal tt ->
   ChatInterface.isProcessing (ChatInterface.voiceState st') = false \/ st' = st) /\
  (settles env -> c = Normal tt) /\
  (exists n made,
      extends (turnId env w) (ChatInterface.messages st) n (ChatInterface.messages st') /\
      (n <= 2)%nat /\
      calls w' = calls w ++ made /\
      ((completions made = 0%nat /\
        ChatInterface.textInput st' = ChatInterface.textInput st /\
        ChatInterface.showTextFallback st' = ChatInterface.showTextFallback st) \/
       (completions made = 1%nat /\ c = Normal tt /\
        ChatInterface.textInput st' = [] /\
        ChatInterface.showTextFallback st' = false))) /\
  ChatInterface.audioChunksRef st' = ChatInterface.audioChunksRef st /\
  ChatInterface.continuousStreamRef st' = ChatInterface.continuousStreamRef st /\
  ChatInterface.audioContextRef st' = ChatInterface.audioContextRef st /\
  ChatInterface.voiceDetectionRef st' = ChatInterface.voiceDetectionRef st.
Proof.
  unfold turnId.
  destruct st as [log vs fallback input started buffer audio context stream detecting].
  destruct w as [reads made]. store_fields.
  unfold ChatInterface.handleTextSubmit, ChatInterface.speak,
    ChatInterface.streamInto, ChatInterface.playAudio.
  unfold_effects. cbn [id]. explore.
  all: close_counted_text.
Qed.

(** X7.  [processRecording] never completes by throwing, in either variant,
    and when every collaborator settles and playback does not stall it
    returns.  When it returns for a recording that buffered something, the
    processing flag is off.  It leaves the text field, the buffer of chunks
    and, in the chat component, the stream, the audio graph and the
    detection flag alone; it never hides the text fallback. *)
Theorem processRecording_always_returns :
  (forall (r : App.Render) (env : Env) (st : App.Store) (w : World),
      let '(c, (st', w')) := App.processRecording r env (st, w) in
      (c = Normal tt \/ c = Pending) /\
      (settles env -> c = Normal tt) /\
      (c = Normal tt -> App.audioChunksRef st <> [] ->
       App.isProcessing (App.voiceState st') = false) /\
      App.showChat st' = App.showChat st /\
      App.textInput st' = App.textInput st /\
      App.audioChunksRef st' = App.audioChunksRef st /\
      (App.showTextFallback st' = App.showTextFallback st \/
       App.showTextFallback st' = true)) /\
  (forall (r : ChatInterface.Render) (env : Env) (st : ChatInterface.Store) (w : World),
      let '(c, (st', w')) := ChatInterface.processRecording r env (st, w) in
      (c = Normal tt \/ c = Pending) /\
      (settles env -> c = Normal tt) /\
      (c = Normal tt -> ChatInterface.audioChunksRef st <> [] ->
       ChatInterface.isProcessing (ChatInterface.voiceState st') = false) /\
      ChatInterface.textInput st' = ChatInterface.textInput st /\
      ChatInterface.audioChunksRef st' = ChatInterface.audioChunksRef st /\
      ChatInterface.continuousStreamRef st' = ChatInterface.continuousStreamRef st /\
      ChatInterface.audioContextRef st' = ChatInterface.audioContextRef st /\
      ChatInterface.voiceDetectionRef st' = ChatInterface.voiceDetectionRef st /\
      (ChatInterface.showTextFallback st' = ChatInterface.showTextFallback st \/
       ChatInterface.showTextFallback st' = true)).
Proof.
  split; intros r env st w.
  - pose proof (app_processRecording_paths r env st w) as H.
    destruct (App.processRecording r env (st, w)) as [c [st' w']].
    destruct H as (H1 & H2 & H3 & _ & _ & H6 & H7 & H8 & H9).
    repeat match goal with |- _ /\ _ => split end; assumption.
  - pose proof (chat_processRecording_paths r env st w) as H.
    destruct (ChatInterface.processRecording r env (st, w)) as [c [st' w']].
    destruct H as (H1 & H2 & H3 & _ & H5 & H6 & _ & H8 & H9 & H10 & H11).
    repeat match goal with |- _ /\ _ => split end; assumption.
Qed.

Lemma processRecording_always_returns_witness :
  let env := Samples.services (Resolved Scenes.story) Scenes.answering in
  settles env /\
  fst (App.processRecording (Samples.appRender false Samples.utterance) env
         (Samples.appStore false Samples.utterance, Samples.world0)) = Normal tt /\
  fst (ChatInterface.processRecording (Samples.chatRender 1 false Samples.utterance) env
         (Samples.chatStore false Samples.utterance, Samples.world0)) = Normal tt.
Proof.
  intros env.
  assert (Hs : settles env) by (repeat split; intros; vm_compute; discriminate).
  split; [exact Hs|]. split.
  - generalize (proj1 processRecording_always_returns
                  (Samples.appRender false Samples.utterance) env
                  (Samples.appStore false Samples.utterance) Samples.world0).
    destruct (App.processRecording _ _ _) as [c [st' w']].
    intros H. exact (proj1 (proj2 H) Hs).
  - generalize (proj2 processRecording_always_returns
                  (Samples.chatRender 1 false Samples.utterance) env
                  (Samples.chatStore false Samples.utterance) Samples.world0).
    destruct (ChatInterface.processRecording _ _ _) as [c [st' w']].
    intros H. exact (proj1 (proj2 H) Hs).
Defined.

(** X8.  [handleTextSubmit] never completes by throwing, in either variant,
    and returns when every collaborator settles and playback does not stall.
    When it returns, either nothing was changed or the processing flag is
    off.  It leaves the buffer of chunks and, in the chat component, the
    stream, the audio graph and the detection flag alone. *)
Theorem handleTextSubmit_always_returns :
  (forall (r : App.Render) (text : jsstring) (env : Env) (st : App.Store) (w : World),
      let '(c, (st', w')) := App.handleTextSubmit r text env (st, w) in
      (c = Normal tt \/ c = Pending) /\
      (settles env -> c = Normal tt) /\
      (c = Normal tt -> App.isProcessing (App.voiceState st') = false \/ st' = st) /\
      App.showChat st' = App.showChat st /\
      App.audioChunksRef st' = App.audioChunksRef st) /\
  (forall (r : ChatInterface.Render) (text : jsstring) (env : Env)
          (st : ChatInterface.Store) (w : World),
      let '(c, (st', w')) := ChatInterface.handleTextSubmit r text env (st, w) in
      (c = Normal tt \/ c = Pending) /\
      (settles env -> c = Normal tt) /\
      (c = Normal tt ->
       ChatInterface.isProcessing (ChatInterface.voiceState st') = false \/ st' = st) /\
      ChatInterface.audioChunksRef st' = ChatInterface.audioChunksRef st /\
      ChatInterface.continuousStreamRef st' = ChatInterface.continuousStreamRef st /\
      ChatInterface.audioContextRef st' = ChatInterface.audioContextRef st /\
      ChatInterface.voiceDetectionRef st' = ChatInterface.voiceDetectionRef st).
Proof.
  split; intros r text env st w.
  - pose proof (app_handleTextSubmit_paths r text env st w) as H.
    destruct (App.handleTextSubmit r text env (st, w)) as [c [st' w']].
    destruct H as (H1 & H2 & H3 & _ & _ & H6 & H7).
    repeat match goal with |- _ /\ _ => split end; assumption.
  - pose proof (chat_handleTextSubmit_paths r text env st w) as H.
    destruct (ChatInterface.handleTextSubmit r text env (st, w)) as [c [st' w']].
    destruct H as (H1 & H2 & H3 & _ & H5 & H6 & H7 & H8).
    repeat match goal with |- _ /\ _ => split end; assumption.
Qed.

Lemma handleTextSubmit_always_returns_witness :
  let env := Samples.services (Resolved None) Samples.failing in
  settles env /\
  fst (App.handleTextSubmit (Samples.appRender false []) (js "tell me a story") env
         (Samples.appStore false [], Samples.world0)) = Normal tt /\
  fst (ChatInterface.handleTextSubmit (Samples.chatRender 1 false [])
         (js "tell me a story") env
         (Samples.chatStore false [], Samples.world0)) = Normal tt.
Proof.
  intros env.
  assert (Hs : settles env) by (repeat split; intros; vm_compute; discriminate).
  split; [exact Hs|]. split.
  - generalize (proj1 handleTextSubmit_always_returns
                  (Samples.appRender false []) (js "tell me a story") env
                  (Samples.appStore false []) Samples.world0).
    destruct (App.handleTextSubmit _ _ _ _) as [c [st' w']].
    intros H. exact (proj1 (proj2 H) Hs).
  - generalize (proj2 handleTextSubmit_always_returns
                  (Samples.chatRender 1 false []) (js "tell me a story") env
                  (Samples.chatStore false []) Samples.world0).
    destruct (ChatInterface.handleTextSubmit _ _ _ _) as [c [st' w']].
    intros H. exact (proj1 (proj2 H) Hs).
Defined.

(** X9.  A turn only ever grows the log, whatever its collaborators do and
    however it ends: after [processRecording] or [handleTextSubmit], in
    either variant, the log is the old log followed by at most two new
    messages; no message is removed or moved, and an old message is the
    same afterwards unless it carries the id the turn gives its reply, in
    which case it keeps its id and its author. *)
Theorem log_only_grows :
  (forall (r : App.Render) (env : Env) (st : App.Store) (w : World),
      grown (turnId env w) (App.messages st)
            (App.messages (fst (snd (App.processRecording r env (st, w)))))) /\
  (forall (r : App.Render) (text : jsstring) (env : Env) (st : App.Store) (w : World),
      grown (turnId env w) (App.messages st)
            (App.messages (fst (snd (App.handleTextSubmit r text env (st, w)))))) /\
  (forall (r : ChatInterface.Render) (env : Env) (st : ChatInterface.Store) (w : World),
      grown (turnId env w) (ChatInterface.messages st)
            (ChatInterface.messages
               (fst (snd (ChatInterface.processRecording r env (st, w)))))) /\
  (forall (r : ChatInterface.Render) (text : jsstring) (env : Env)
          (st : ChatInterface.Store) (w : World),
      grown (turnId env w) (ChatInterface.messages st)
            (ChatInterface.messages
               (fst (snd (ChatInterface.handleTextSubmit r text env (st, w)))))).
Proof.
  repeat match goal with |- _ /\ _ => split end.
  - intros r env st w.
    pose proof (app_processRecording_paths r env st w) as H.
    destruct (App.processRecording r env (st, w)) as [c [st' w']].
    destruct H as (_ & _ & _ & [n [Hn He]] & _). exact (extends_grows _ _ _ _ He Hn).
  - intros r text env st w.
    pose proof (app_handleTextSubmit_paths r text env st w) as H.
    destruct (App.handleTextSubmit r text env (st, w)) as [c [st' w']].
    destruct H as (_ & _ & _ & [n [Hn He]] & _). exact (extends_grows _ _ _ _ He Hn).
  - intros r env st w.
    pose proof (chat_processRecording_paths r env st w) as H.
    destruct (ChatInterface.processRecording r env (st, w)) as [c [st' w']].
    destruct H as (_ & _ & _ & [n [made [He [Hn _]]]] & _).
    exact (extends_grows _ _ _ _ He Hn).
  - intros r text env st w.
    pose proof (chat_handleTextSubmit_paths r text env st w) as H.
    destruct (ChatInterface.handleTextSubmit r text env (st, w)) as [c [st' w']].
    destruct H as (_ & _ & _ & [n [made [He [Hn _]]]] & _).
    exact (extends_grows _ _ _ _ He Hn).
Qed.

(** X10.  How turns are counted, on every path.  In [App.tsx] a voice turn
    never changes the conversation count; a typed turn either leaves the
    count, the text field and the text fallback as they were, or returns
    having added exactly one, cleared the field and hidden the fallback.
    In the chat component [processRecording] calls the
    conversation-complete callback at most once, and exactly once precisely
    when it returns with the log grown by two messages; [handleTextSubmit]
    calls it either never, leaving the field and the fallback, or once,
    returning with the field cleared and the fallback hidden. *)
Theorem completed_turns_are_counted :
  (forall (r : App.Render) (env : Env) (st : App.Store) (w : World),
      App.conversationCount (fst (snd (App.processRecording r env (st, w)))) =
      App.conversationCount st) /\
  (forall (r : App.Render) (text : jsstring) (env : Env) (st : App.Store) (w : World),
      let '(c, (st', w')) := App.handleTextSubmit r text env (st, w) in
      (App.conversationCount st' = App.conversationCount st /\
       App.textInput st' = App.textInput st /\
       App.showTextFallback st' = App.showTextFallback st) \/
      (c = Normal tt /\
       App.conversationCount st' = (App.conversationCount st + 1)%Z /\
       App.textInput st' = [] /\
       App.showTextFallback st' = false)) /\
  (forall (r : ChatInterface.Render) (env : Env) (st : ChatInterface.Store) (w : World),
      let '(c, (st', w')) := ChatInterface.processRecording r env (st, w) in
      exists made,
        calls w' = calls w ++ made /\
        (completions made <= 1)%nat /\
        (completions made = 1%nat <->
         c = Normal tt /\
         length (ChatInterface.messages st') =
         (length (ChatInterface.messages st) + 2)%nat)) /\
  (forall (r : ChatInterface.Render) (text : jsstring) (env : Env)
          (st : ChatInterface.Store) (w : World),
      let '(c, (st', w')) := ChatInterface.handleTextSubmit r text env (st, w) in
      exists made,
        calls w' = calls w ++ made /\
        ((completions made = 0%nat /\
          ChatInterface.textInput st' = ChatInterface.textInput st /\
          ChatInterface.showTextFallback st' = ChatInterface.showTextFallback st) \/
         (completions made = 1%nat /\ c = Normal tt /\
          ChatInterface.textInput st' = [] /\
          ChatInterface.showTextFallback st' = false))).
Proof.
  repeat match goal with |- _ /\ _ => split end.
  - intros r env st w.
    pose proof (app_processRecording_paths r env st w) as H.
    destruct (App.processRecording r env (st, w)) as [c [st' w']].
    destruct H as (_ & _ & _ & _ & H & _). exact H.
  - intros r text env st w.
    pose proof (app_handleTextSubmit_paths r text env st w) as H.
    destruct (App.handleTextSubmit r text env (st, w)) as [c [st' w']].
    destruct H as (_ & _ & _ & _ & H & _). exact H.
  - intros r env st w.
    pose proof (chat_processRecording_paths r env st w) as H.
    destruct (ChatInterface.processRecording r env (st, w)) as [c [st' w']].
    destruct H as (Hc & _ & _ & [n [made [He [Hn [Hw Hm]]]]] & _).
    exists made. split; [exact Hw|].
    pose proof (extends_length _ _ _ _ He) as Hl.
    destruct Hc as [-> | ->]; cbn [returned andb] in Hm.
    + destruct (Nat.eqb_spec n 2) as [E|E]; rewrite Hm.
      * split; [lia|]. split; [intros _; split; [reflexivity | lia] | reflexivity].
      * split; [lia|]. split; [discriminate | intros [_ H2]; lia].
    + rewrite Hm. split; [lia|]. split; [discriminate | intros [H1 _]; discriminate].
  - intros r text env st w.
    pose proof (chat_handleTextSubmit_paths r text env st w) as H.
    destruct (ChatInterface.handleTextSubmit r text env (st, w)) as [c [st' w']].
    destruct H as (_ & _ & _ & [n [made [_ [_ [Hw Hm]]]]] & _).
    exists made. split; assumption.
Qed.

(** X11.  The router never answers ['auto']: it answers the selected model
    when one is selected, and otherwise one of the three models of its
    table.  The test [model === 'auto' ? 'gpt-4o-mini' : model] its callers
    make before generation therefore always sends the router's answer. *)
Theorem router_never_answers_auto :
  forall selectedModel prompt : jsstring,
    let model := determineOptimalModel selectedModel prompt in
    model <> js "auto" /\
    (if jsstring_eqb model (js "auto") then js "gpt-4o-mini" else model) = model /\
    (model = selectedModel \/ model = js "gpt-4o" \/
     model = js "claude-3-5-sonnet-20241022" \/ model = js "gpt-4o-mini").
Proof.
  intros selectedModel prompt model.
  pose proof (router_never_auto selectedModel prompt) as H. fold model in H.
  split; [|split].
  - intros E. apply jsstring_eqb_eq in E. congruence.
  - rewrite H. reflexivity.
  - unfold model, determineOptimalModel.
    repeat match goal with
           | |- context [if ?b then _ else _] => destruct b
           end; auto.
Qed.

(** X12.  The history sent with a generation request holds the latest six
    messages of the log of the render, or all of them when there are fewer,
    in their order, each with its author and its content. *)
Theorem conversationHistory_is_latest_six :
  forall messages : list Message,
    exists earlier latest,
      messages = earlier ++ latest /\
      length latest = Nat.min 6 (length messages) /\
      conversationHistoryOf messages = map (fun m => (type m, content m)) latest.
Proof.
  intros messages.
  exists (firstn (length messages - 6) messages), (skipn (length messages - 6) messages).
  split; [symmetry; apply firstn_skipn|]. split.
  - rewrite length_skipn. lia.
  - unfold conversationHistoryOf. apply map_ext. intros m. destruct (type m); reflexivity.
Qed.

(* ===================================================================== *)
(** * Conversation mode of the chat component *)
(* ===================================================================== *)

Lemma chat_toggle_on_denied (r : ChatInterface.Render) (env : Env)
  (st : ChatInterface.Store) (w : World) (e : Error) :
  ChatInterface.hasReachedLimit r = false ->
  ChatInterface.conversationMode (ChatInterface.r_voiceState r) = false ->
  getUserMedia env = Rejected e ->
  ChatInterface.toggleConversationMode r env (st, w) =
  (Normal tt,
   (ChatInterface.mkStore (ChatInterface.messages st)
      (ChatInterface.with_conversationMode true (ChatInterface.voiceState st))
      (ChatInterface.showTextFallback st) (ChatInterface.textInput st)
      (ChatInterface.hasStartedConversation st) (ChatInterface.audioChunksRef st)
      (ChatInterface.currentAudioRef st) (ChatInterface.audioContextRef st)
      (ChatInterface.continuousStreamRef st) (ChatInterface.voiceDetectionRef st),
    {| clockReads := clockReads w;
       calls := calls w ++ CallGetUserMedia ::
                match e with
                | NotAllowedError => [CallAlert microphoneDenied]
                | _ => []
                end |})).
Proof.
  intros Hbelow Hoff Hdenied. enter st w.
  unfold ChatInterface.toggleConversationMode, ChatInterface.startContinuousListening,
    ChatInterface.setupContinuousVoiceDetection.
  unfold_effects. rewrite Hbelow, Hoff, Hdenied.
  destruct e; cbn; rewrite <- ?app_assoc; try rewrite app_nil_r; reflexivity.
Qed.

(** X13.  Switching conversation mode on when the microphone cannot be had:
    [startContinuousListening] swallows the rejection of [getUserMedia],
    alerting the user only for [NotAllowedError], and
    [toggleConversationMode] then still sets [conversationMode].  The
    component ends in conversation mode without listening: no stream, no
    audio graph, no monitor. *)
Theorem conversation_mode_is_set_without_microphone :
  forall (r : ChatInterface.Render) (env : Env) (st : ChatInterface.Store) (w : World)
         (e : Error),
    ChatInterface.hasReachedLimit r = false ->
    ChatInterface.conversationMode (ChatInterface.r_voiceState r) = false ->
    getUserMedia env = Rejected e ->
    ChatInterface.toggleConversationMode r env (st, w) =
    (Normal tt,
     (ChatInterface.mkStore (ChatInterface.messages st)
        (ChatInterface.with_conversationMode true (ChatInterface.voiceState st))
        (ChatInterface.showTextFallback st) (ChatInterface.textInput st)
        (ChatInterface.hasStartedConversation st) (ChatInterface.audioChunksRef st)
        (ChatInterface.currentAudioRef st) (ChatInterface.audioContextRef st)
        (ChatInterface.continuousStreamRef st) (ChatInterface.voiceDetectionRef st),
      {| clockReads := clockReads w;
         calls := calls w ++ CallGetUserMedia ::
                  match e with
                  | NotAllowedError => [CallAlert microphoneDenied]
                  | _ => []
                  end |})).
Proof.
  intros r env st w e. apply chat_toggle_on_denied.
Qed.

Lemma conversation_mode_is_set_without_microphone_witness :
  let r := Scenes.chatRenderOf Scenes.resting in
  let env := Scenes.noMicrophone in
  let st := Scenes.resting in
  let w := Samples.world0 in
  ChatInterface.hasReachedLimit r = false /\
  ChatInterface.conversationMode (ChatInterface.r_voiceState r) = false /\
  getUserMedia env = Rejected NotAllowedError /\
  ChatInterface.toggleConversationMode r env (st, w) =
  (Normal tt,
   (ChatInterface.mkStore (ChatInterface.messages st)
      (ChatInterface.with_conversationMode true (ChatInterface.voiceState st))
      (ChatInterface.showTextFallback st) (ChatInterface.textInput st)
      (ChatInterface.hasStartedConversation st) (ChatInterface.audioChunksRef st)
      (ChatInterface.currentAudioRef st) (ChatInterface.audioContextRef st)
      (ChatInterface.continuousStreamRef st) (ChatInterface.voiceDetectionRef st),
    {| clockReads := clockReads w;
       calls := calls w ++ [CallGetUserMedia; CallAlert microphoneDenied] |})).
Proof.
  intros r env st w.
  assert (H1 : ChatInterface.hasReachedLimit r = false) by reflexivity.
  assert (H2 : ChatInterface.conversationMode (ChatInterface.r_voiceState r) = false)
    by reflexivity.
  assert (H3 : getUserMedia env = Rejected NotAllowedError) by reflexivity.
  exact (conj H1 (conj H2 (conj H3
           (conversation_mode_is_set_without_microphone r env st w NotAllowedError
              H1 H2 H3)))).
Defined.

(** The first frame of a monitor whose locals are fresh: the level is
    shown, the clock is read, speech is noted, and neither
    [startAutomaticRecording] nor [stopRecording] is called. *)
Lemma chat_first_frame (env : Env) (st : ChatInterface.Store) (w : World) :
  ChatInterface.voiceDetectionRef st = false ->
  ChatInterface.monitorVoiceActivity (ChatInterface.mkLocals 0 0 false) env (st, w) =
  (Normal (if Qle_bool (analyserLevel env) 15
           then ChatInterface.mkLocals 0 0 false
           else ChatInterface.mkLocals (clock env (clockReads w))
                                       (clock env (clockReads w)) false),
   (ChatInterface.mkStore (ChatInterface.messages st)
      (ChatInterface.with_audioLevel (analyserLevel env) (ChatInterface.voiceState st))
      (ChatInterface.showTextFallback st) (ChatInterface.textInput st)
      (ChatInterface.hasStartedConversation st) (ChatInterface.audioChunksRef st)
      (ChatInterface.currentAudioRef st) (ChatInterface.audioContextRef st)
      (ChatInterface.continuousStreamRef st)
      (negb (Qle_bool (analyserLevel env) 15)),
    {| clockReads := S (clockReads w);
       calls := calls w ++
                if ChatInterface.continuousStreamRef st
                then [CallRequestAnimationFrame] else [] |})).
Proof.
  intros Hvd.
  destruct st as [log vs fallback input started buffer audio context stream detecting].
  destruct w as [reads made]. cbn [ChatInterface.voiceDetectionRef] in Hvd. subst detecting.
  unfold ChatInterface.monitorVoiceActivity.
  cbv beta iota zeta delta
    [bind ret gets modify ask when dateNow call fst snd clockReads calls
     ChatInterface.setVoiceState ChatInterface.setVoiceDetectionRef
     ChatInterface.messages ChatInterface.voiceState ChatInterface.showTextFallback
     ChatInterface.textInput ChatInterface.hasStartedConversation
     ChatInterface.audioChunksRef ChatInterface.currentAudioRef
     ChatInterface.audioContextRef ChatInterface.continuousStreamRef
     ChatInterface.voiceDetectionRef].
  destruct (Qle_bool (analyserLevel env) 15); cbn;
    rewrite ?Z.sub_diag; cbn; destruct stream; cbn; rewrite ?app_nil_r; reflexivity.
Qed.

Lemma chat_toggle_on (r : ChatInterface.Render) (env : Env)
  (st : ChatInterface.Store) (w : World) :
  ChatInterface.hasReachedLimit r = false ->
  ChatInterface.conversationMode (ChatInterface.r_voiceState r) = false ->
  getUserMedia env = Resolved tt ->
  ChatInterface.toggleConversationMode r env (st, w) =
  match audioContext env, audioGraph env with
  | Resolved _, None =>
      (Normal tt,
       (ChatInterface.mkStore (ChatInterface.messages st)
          (ChatInterface.with_conversationMode true
             (ChatInterface.with_audioLevel (analyserLevel env)
                (ChatInterface.with_isListening true (ChatInterface.voiceState st))))
          (ChatInterface.showTextFallback st) (ChatInterface.textInput st)
          (ChatInterface.hasStartedConversation st) (ChatInterface.audioChunksRef st)
          (ChatInterface.currentAudioRef st) true true
          (negb (Qle_bool (analyserLevel env) 15)),
        {| clockReads := S (clockReads w);
           calls := calls w ++ [CallGetUserMedia; CallRequestAnimationFrame] |}))
  | Resolved _, Some _ =>
      (Normal tt,
       (ChatInterface.mkStore (ChatInterface.messages st)
          (ChatInterface.with_conversationMode true
             (ChatInterface.with_isListening true (ChatInterface.voiceState st)))
          (ChatInterface.showTextFallback st) (ChatInterface.textInput st)
          (ChatInterface.hasStartedConversation st) (ChatInterface.audioChunksRef st)
          (ChatInterface.currentAudioRef st) true true
          (ChatInterface.voiceDetectionRef st),
        {| clockReads := clockReads w; calls := calls w ++ [CallGetUserMedia] |}))
  | Rejected _, _ =>
      (Normal tt,
       (ChatInterface.mkStore (ChatInterface.messages st)
          (ChatInterface.with_conversationMode true
             (ChatInterface.with_isListening true (ChatInterface.voiceState st)))
          (ChatInterface.showTextFallback st) (ChatInterface.textInput st)
          (ChatInterface.hasStartedConversation st) (ChatInterface.audioChunksRef st)
          (ChatInterface.currentAudioRef st) (ChatInterface.audioContextRef st) true
          (ChatInterface.voiceDetectionRef st),
        {| clockReads := clockReads w; calls := calls w ++ [CallGetUserMedia] |}))
  | Unsettled, _ =>
      (Pending,
       (ChatInterface.mkStore (ChatInterface.messages st)
          (ChatInterface.with_isListening true (ChatInterface.voiceState st))
          (ChatInterface.showTextFallback st) (ChatInterface.textInput st)
          (ChatInterface.hasStartedConversation st) (ChatInterface.audioChunksRef st)
          (ChatInterface.currentAudioRef st) (ChatInterface.audioContextRef st) true
          (ChatInterface.voiceDetectionRef st),
        {| clockReads := clockReads w; calls := calls w ++ [CallGetUserMedia] |}))
  end.
Proof.
  intros Hbelow Hoff Hgranted. enter st w.
  unfold ChatInterface.toggleConversationMode, ChatInterface.startContinuousListening,
    ChatInterface.setupContinuousVoiceDetection.
  unfold_effects. rewrite Hbelow, Hoff, Hgranted.
  destruct (audioContext env) as [[]|e|]; cbv beta iota;
    [destruct (audioGraph env) as [e|]; cbv beta iota | |];
    try (cbn; rewrite <- ?app_assoc; reflexivity).
  rewrite chat_first_frame by reflexivity. cbn. rewrite <- ?app_assoc. reflexivity.
Qed.

Lemma chat_toggle_off (r : ChatInterface.Render) (env : Env)
  (st : ChatInterface.Store) (w : World) :
  ChatInterface.hasReachedLimit r = false ->
  ChatInterface.conversationMode (ChatInterface.r_voiceState r) = true ->
  ChatInterface.toggleConversationMode r env (st, w) =
  (Normal tt,
   (ChatInterface.mkStore (ChatInterface.messages st)
      (silenced (ChatInterface.currentAudioRef st)
         (ChatInterface.stoppedListening (ChatInterface.voiceState st)))
      (ChatInterface.showTextFallback st) (ChatInterface.textInput st)
      (ChatInterface.hasStartedConversation st) (ChatInterface.audioChunksRef st)
      None false false false, w)).
Proof.
  intros Hbelow Hon. enter st w.
  unfold ChatInterface.toggleConversationMode, ChatInterface.stopContinuousListening,
    ChatInterface.stopAudio.
  unfold_effects. rewrite Hbelow, Hon.
  match goal with |- context [match ?a with Some _ => _ | None => _ end] => destruct a end;
    reflexivity.
Qed.

(** X14.  Switching conversation mode on with the microphone granted.
    [isListening] and [conversationMode] are set and the stream is kept,
    whatever happens to the audio graph, because
    [setupContinuousVoiceDetection] swallows what is thrown.  If the audio
    context cannot be made, no context is kept and no monitor runs.  If the
    context is made but the rest of the graph throws, the context is kept
    all the same, and no monitor runs.  If the graph is built, the
    detection flag is cleared and the first frame of the monitor runs at
    once: it shows the level it reads, reads the clock once, sets the
    detection flag if and only if the level is above the threshold, calls
    neither [startAutomaticRecording] nor [stopRecording], and asks for
    the next frame. *)
Theorem conversation_mode_starts_listening :
  forall (r : ChatInterface.Render) (env : Env) (st : ChatInterface.Store) (w : World),
    ChatInterface.hasReachedLimit r = false ->
    ChatInterface.conversationMode (ChatInterface.r_voiceState r) = false ->
    getUserMedia env = Resolved tt ->
    (audioContext env = Resolved tt -> audioGraph env = None ->
     ChatInterface.toggleConversationMode r env (st, w) =
     (Normal tt,
      (ChatInterface.mkStore (ChatInterface.messages st)
         (ChatInterface.with_conversationMode true
            (ChatInterface.with_audioLevel (analyserLevel env)
               (ChatInterface.with_isListening true (ChatInterface.voiceState st))))
         (ChatInterface.showTextFallback st) (ChatInterface.textInput st)
         (ChatInterface.hasStartedConversation st) (ChatInterface.audioChunksRef st)
         (ChatInterface.currentAudioRef st) true true
         (negb (Qle_bool (analyserLevel env) 15)),
       {| clockReads := S (clockReads w);
          calls := calls w ++ [CallGetUserMedia; CallRequestAnimationFrame] |}))) /\
    (forall e, audioContext env = Resolved tt -> audioGraph env = Some e ->
     ChatInterface.toggleConversationMode r env (st, w) =
     (Normal tt,
      (ChatInterface.mkStore (ChatInterface.messages st)
         (ChatInterface.with_conversationMode true
            (ChatInterface.with_isListening true (ChatInterface.voiceState st)))
         (ChatInterface.showTextFallback st) (ChatInterface.textInput st)
         (ChatInterface.hasStartedConversation st) (ChatInterface.audioChunksRef st)
         (ChatInterface.currentAudioRef st) true true
         (ChatInterface.voiceDetectionRef st),
       {| clockReads := clockReads w; calls := calls w ++ [CallGetUserMedia] |}))) /\
    (forall e, audioContext env = Rejected e ->
     ChatInterface.toggleConversationMode r env (st, w) =
     (Normal tt,
      (ChatInterface.mkStore (ChatInterface.messages st)
         (ChatInterface.with_conversationMode true
            (ChatInterface.with_isListening true (ChatInterface.voiceState st)))
         (ChatInterface.showTextFallback st) (ChatInterface.textInput st)
         (ChatInterface.hasStartedConversation st) (ChatInterface.audioChunksRef st)
         (ChatInterface.currentAudioRef st) (ChatInterface.audioContextRef st) true
         (ChatInterface.voiceDetectionRef st),
       {| clockReads := clockReads w; calls := calls w ++ [CallGetUserMedia] |}))).
Proof.
  intros r env st w Hbelow Hoff Hgranted.
  rewrite (chat_toggle_on r env st w Hbelow Hoff Hgranted).
  split; [|split].
  - intros -> ->. reflexivity.
  - intros e -> ->. reflexivity.
  - intros e ->. reflexivity.
Qed.

Lemma conversation_mode_starts_listening_witness :
  (let r := Scenes.chatRenderOf Scenes.resting in
   let env := Scenes.speechAtOnce in
   let st := Scenes.resting in
   let w := Samples.world0 in
   ChatInterface.hasReachedLimit r = false /\
   ChatInterface.conversationMode (ChatInterface.r_voiceState r) = false /\
   getUserMedia env = Resolved tt /\
   audioContext env = Resolved tt /\
   audioGraph env = None /\
   ChatInterface.toggleConversationMode r env (st, w) =
   (Normal tt,
    (ChatInterface.mkStore [Samples.greeting]
       (ChatInterface.mkVoiceState false false false 40 true true)
       false [] true [] None true true true,
     {| clockReads := 1; calls := [CallGetUserMedia; CallRequestAnimationFrame] |}))) /\
  (let r := Scenes.chatRenderOf Scenes.resting in
   let env := Scenes.brokenGraph in
   let st := Scenes.resting in
   let w := Samples.world0 in
   ChatInterface.hasReachedLimit r = false /\
   ChatInterface.conversationMode (ChatInterface.r_voiceState r) = false /\
   getUserMedia env = Resolved tt /\
   audioContext env = Resolved tt /\
   audioGraph env = Some ServiceError /\
   ChatInterface.toggleConversationMode r env (st, w) =
   (Normal tt,
    (ChatInterface.mkStore [Samples.greeting]
       (ChatInterface.mkVoiceState false false false 0 true true)
       false [] true [] None true true false,
     {| clockReads := 0; calls := [CallGetUserMedia] |}))).
Proof.
  split.
  - intros r env st w.
    assert (H1 : ChatInterface.hasReachedLimit r = false) by reflexivity.
    assert (H2 : ChatInterface.conversationMode (ChatInterface.r_voiceState r) = false)
      by reflexivity.
    assert (H3 : getUserMedia env = Resolved tt) by reflexivity.
    assert (H4 : audioContext env = Resolved tt) by reflexivity.
    assert (H5 : audioGraph env = None) by reflexivity.
    split; [exact H1|]. split; [exact H2|]. split; [exact H3|]. split; [exact H4|].
    split; [exact H5|].
    exact (proj1 (conversation_mode_starts_listening r env st w H1 H2 H3) H4 H5).
  - intros r env st w.
    assert (H1 : ChatInterface.hasReachedLimit r = false) by reflexivity.
    assert (H2 : ChatInterface.conversationMode (ChatInterface.r_voiceState r) = false)
      by reflexivity.
    assert (H3 : getUserMedia env = Resolved tt) by reflexivity.
    assert (H4 : audioContext env = Resolved tt) by reflexivity.
    assert (H5 : audioGraph env = Some ServiceError) by reflexivity.
    split; [exact H1|]. split; [exact H2|]. split; [exact H3|]. split; [exact H4|].
    split; [exact H5|].
    exact (proj1 (proj2 (conversation_mode_starts_listening r env st w H1 H2 H3))
             ServiceError H4 H5).
Defined.

(** X15.  Switching conversation mode off releases everything, whatever the
    component was doing: the stream, the audio graph and the detection flag
    are dropped, [isListening] and [conversationMode] are cleared and the
    audio level reset, a reply being played is stopped and forgotten.  No
    collaborator is called; the log, the buffer of chunks and the flags for
    recording and processing are left alone. *)
Theorem conversation_mode_off_releases_everything :
  forall (r : ChatInterface.Render) (env : Env) (st : ChatInterface.Store) (w : World),
    ChatInterface.hasReachedLimit r = false ->
    ChatInterface.conversationMode (ChatInterface.r_voiceState r) = true ->
    ChatInterface.toggleConversationMode r env (st, w) =
    (Normal tt,
     (ChatInterface.mkStore (ChatInterface.messages st)
        (ChatInterface.mkVoiceState
           (ChatInterface.isRecording (ChatInterface.voiceState st))
           (ChatInterface.isProcessing (ChatInterface.voiceState st))
           (match ChatInterface.currentAudioRef st with
            | Some _ => false
            | None => ChatInterface.isPlaying (ChatInterface.voiceState st)
            end)
           0 false false)
        (ChatInterface.showTextFallback st) (ChatInterface.textInput st)
        (ChatInterface.hasStartedConversation st) (ChatInterface.audioChunksRef st)
        None false false false, w)).
Proof.
  intros r env st w Hbelow Hon. rewrite (chat_toggle_off r env st w Hbelow Hon).
  destruct st as [log vs fallback input started buffer audio context stream detecting].
  destruct vs; destruct audio; reflexivity.
Qed.

Lemma conversation_mode_off_releases_everything_witness :
  let r := Scenes.chatRenderOf Scenes.playing in
  let env := Scenes.noMicrophone in
  let st := Scenes.playing in
  let w := Samples.world0 in
  ChatInterface.hasReachedLimit r = false /\
  ChatInterface.conversationMode (ChatInterface.r_voiceState r) = true /\
  ChatInterface.toggleConversationMode r env (st, w) =
  (Normal tt,
   (ChatInterface.mkStore [Samples.greeting]
      (ChatInterface.mkVoiceState false false false 0 false false)
      false [] true [] None false false false, w)).
Proof.
  intros r env st w.
  assert (H1 : ChatInterface.hasReachedLimit r = false) by reflexivity.
  assert (H2 : ChatInterface.conversationMode (ChatInterface.r_voiceState r) = true)
    by reflexivity.
  exact (conj H1 (conj H2
           (conversation_mode_off_releases_everything r env st w H1 H2))).
Defined.

(** X16.  Conversation mode on and off again: if the microphone request and
    the audio graph settle, switching the mode on and then, from the next
    render, off leaves the component in the state in which switching it off
    at once would have left it; only the calls made while starting remain
    in the world. *)
Theorem conversation_mode_on_then_off :
  forall (r r' : ChatInterface.Render) (env : Env) (st : ChatInterface.Store) (w : World),
    ChatInterface.hasReachedLimit r = false ->
    ChatInterface.hasReachedLimit r' = false ->
    ChatInterface.conversationMode (ChatInterface.r_voiceState r) = false ->
    ChatInterface.conversationMode (ChatInterface.r_voiceState r') = true ->
    getUserMedia env <> Unsettled ->
    audioContext env <> Unsettled ->
    let '(c1, (st1, w1)) := ChatInterface.toggleConversationMode r env (st, w) in
    let '(c2, (st2, w2)) := ChatInterface.toggleConversationMode r' env (st1, w1) in
    c1 = Normal tt /\ c2 = Normal tt /\ w2 = w1 /\
    st2 = fst (snd (ChatInterface.toggleConversationMode r' env (st, w))).
Proof.
  intros r r' env st w Hbelow Hbelow' Hoff Hon Hmic Hgraph.
  rewrite (chat_toggle_off r' env st w Hbelow' Hon). cbn [fst snd].
  destruct (getUserMedia env) as [[]|e|] eqn:Hm; [| |contradiction].
  - rewrite (chat_toggle_on r env st w Hbelow Hoff Hm).
    destruct (audioContext env) as [[]|e|]; [destruct (audioGraph env) | |contradiction];
      cbv beta iota; rewrite chat_toggle_off by assumption; cbv beta iota;
      destruct st as [log vs fallback input started buffer audio context stream detecting];
      destruct vs; repeat split.
  - rewrite (chat_toggle_on_denied r env st w e Hbelow Hoff Hm).
    cbv beta iota. rewrite chat_toggle_off by assumption. cbv beta iota.
    destruct st as [log vs fallback input started buffer audio context stream detecting].
    destruct vs; repeat split.
Qed.

Lemma conversation_mode_on_then_off_witness :
  let r := Scenes.chatRenderOf Scenes.resting in
  let r' := Scenes.chatRenderOf Scenes.listening in
  let env := Samples.services (Resolved None) Samples.silent in
  let st := Scenes.resting in
  let w := Samples.world0 in
  ChatInterface.hasReachedLimit r = false /\
  ChatInterface.hasReachedLimit r' = false /\
  ChatInterface.conversationMode (ChatInterface.r_voiceState r) = false /\
  ChatInterface.conversationMode (ChatInterface.r_voiceState r') = true /\
  getUserMedia env <> Unsettled /\
  audioContext env <> Unsettled /\
  let '(c1, (st1, w1)) := ChatInterface.toggleConversationMode r env (st, w) in
  let '(c2, (st2, w2)) := ChatInterface.toggleConversationMode r' env (st1, w1) in
  c1 = Normal tt /\ c2 = Normal tt /\ w2 = w1 /\
  st2 = fst (snd (ChatInterface.toggleConversationMode r' env (st, w))).
Proof.
  intros r r' env st w.
  assert (H1 : ChatInterface.hasReachedLimit r = false) by reflexivity.
  assert (H2 : ChatInterface.hasReachedLimit r' = false) by reflexivity.
  assert (H3 : ChatInterface.conversationMode (ChatInterface.r_voiceState r) = false)
    by reflexivity.
  assert (H4 : ChatInterface.conversationMode (ChatInterface.r_voiceState r') = true)
    by reflexivity.
  assert (H5 : getUserMedia env <> Unsettled) by (vm_compute; discriminate).
  assert (H6 : audioContext env <> Unsettled) by (vm_compute; discriminate).
  split; [exact H1|]. split; [exact H2|]. split; [exact H3|]. split; [exact H4|].
  split; [exact H5|]. split; [exact H6|].
  exact (conversation_mode_on_then_off r r' env st w H1 H2 H3 H4 H5 H6).
Defined.

(* ===================================================================== *)
(** * Referral codes *)
(* ===================================================================== *)

Section Referral.

Import SubscriptionModal.

Lemma parseInt_from (digits : jsstring) : forall acc,
  fold_left (fun acc d => 10 * acc + (d - 48))%N digits acc =
  (acc * 10 ^ N.of_nat (length digits) + decimal digits)%N.
Proof.
  induction digits as [|d rest IH]; intros acc; cbn [fold_left decimal length].
  - cbn. lia.
  - rewrite IH. rewrite Nat2N.inj_succ, N.pow_succ_r'. lia.
Qed.

Lemma parseInt_decimal (digits : jsstring) : parseInt digits = decimal digits.
Proof. unfold parseInt. rewrite parseInt_from. lia. Qed.

Lemma matchesLetter_lower (c letter : N) :
  (65 <= letter <= 90)%N ->
  matchesLetter c letter = true <-> lowerUnit c = (letter + 32)%N.
Proof.
  intros Hl. unfold matchesLetter, lowerUnit.
  rewrite orb_true_iff, !N.eqb_eq.
  destruct ((65 <=? c) && (c <=? 90))%N eqn:E.
  - apply andb_true_iff in E. destruct E as [E1 E2]. apply N.leb_le in E1, E2. lia.
  - apply andb_false_iff in E. destruct E as [E|E]; apply N.leb_gt in E; lia.
Qed.

Lemma matchCode_spec (code digits : jsstring) :
  matchCode code = Some digits <->
  exists prefix, code = prefix ++ digits /\ toLowerCase prefix = js "orkes" /\
                 digits <> [] /\ forallb isDigit digits = true.
Proof.
  split.
  - destruct code as [|o [|r [|k [|e [|s ds]]]]]; try discriminate.
    cbn [matchCode].
    destruct (matchesLetter o 79 && matchesLetter r 82 && matchesLetter k 75 &&
              matchesLetter e 69 && matchesLetter s 83 &&
              negb (length ds =? 0)%nat && forallb isDigit ds) eqn:E; [|discriminate].
    intros H. injection H as <-.
    repeat (apply andb_true_iff in E; destruct E as [E ?]).
    exists [o; r; k; e; s]. repeat split; auto.
    + cbn. repeat f_equal;
        match goal with
        | |- lowerUnit ?c = _ =>
            match goal with
            | H : matchesLetter c ?l = true |- _ =>
                apply (matchesLetter_lower c l) in H; [exact H | lia]
            end
        end.
    + destruct ds; [discriminate | congruence].
  - intros [prefix [-> [Hp [Hne Hd]]]].
    destruct prefix as [|o [|r [|k [|e [|s [|x p]]]]]]; try discriminate.
    cbn in Hp. injection Hp as Ho Hr Hk He Hs.
    cbn [app matchCode].
    rewrite (proj2 (matchesLetter_lower o 79 ltac:(lia)) Ho),
            (proj2 (matchesLetter_lower r 82 ltac:(lia)) Hr),
            (proj2 (matchesLetter_lower k 75 ltac:(lia)) Hk),
            (proj2 (matchesLetter_lower e 69 ltac:(lia)) He),
            (proj2 (matchesLetter_lower s 83 ltac:(lia)) Hs), Hd.
    destruct digits; [congruence | reflexivity].
Qed.

Lemma digit_not_whiteSpace (c : N) : isDigit c = true -> isWhiteSpace c = false.
Proof.
  unfold isDigit. intros H. apply andb_true_iff in H. destruct H as [H1 H2].
  apply N.leb_le in H1, H2. unfold isWhiteSpace. cbn [existsb].
  repeat (apply orb_false_iff; split); try reflexivity; apply N.eqb_neq; lia.
Qed.

Lemma letter_not_whiteSpace (c letter : N) :
  (65 <= letter <= 90)%N -> matchesLetter c letter = true -> isWhiteSpace c = false.
Proof.
  intros Hl H. unfold matchesLetter in H. apply orb_true_iff in H.
  rewrite !N.eqb_eq in H. unfold isWhiteSpace. cbn [existsb].
  repeat (apply orb_false_iff; split); try reflexivity; apply N.eqb_neq; lia.
Qed.

Lemma trimStart_keeps_last (l : jsstring) (c : N) :
  isWhiteSpace c = false -> trimStart (l ++ [c]) <> [].
Proof.
  intros Hc. induction l as [|x l IH]; cbn [trimStart app].
  - rewrite Hc. discriminate.
  - destruct (isWhiteSpace x); [exact IH | discriminate].
Qed.

Lemma trim_not_blank (first last : N) (middle : jsstring) :
  isWhiteSpace first = false -> isWhiteSpace last = false ->
  trim (first :: middle ++ [last]) <> [].
Proof.
  intros Hf Hl. unfold trim, trimEnd. cbn [trimStart]. rewrite Hf.
  cbn [rev]. rewrite rev_app_distr. cbn [rev app trimStart]. rewrite Hl.
  intros H. apply (f_equal (@length N)) in H. rewrite length_rev in H.
  cbn in H. discriminate.
Qed.

Lemma matched_not_blank (code digits : jsstring) :
  matchCode code = Some digits -> (length (trim code) =? 0)%nat = false.
Proof.
  intros H. apply length_zero_false.
  destruct code as [|o [|r [|k [|e [|s ds]]]]]; try discriminate.
  cbn [matchCode] in H.
  destruct (matchesLetter o 79 && matchesLetter r 82 && matchesLetter k 75 &&
            matchesLetter e 69 && matchesLetter s 83 &&
            negb (length ds =? 0)%nat && forallb isDigit ds) eqn:E; [|discriminate].
  repeat (apply andb_true_iff in E; destruct E as [E ?]).
  assert (Ho : isWhiteSpace o = false) by (apply (letter_not_whiteSpace o 79); [lia | auto]).
  destruct ds as [|d ds] using rev_ind; [discriminate|].
  assert (Hd : isWhiteSpace d = false).
  { apply digit_not_whiteSpace.
    match goal with Hall : forallb isDigit _ = true |- _ =>
      rewrite forallb_app in Hall; apply andb_true_iff in Hall;
      destruct Hall as [_ Hall]; cbn in Hall; now rewrite andb_true_r in Hall end. }
  change (o :: r :: k :: e :: s :: ds ++ [d]) with (o :: (r :: k :: e :: s :: ds) ++ [d]).
  now apply trim_not_blank.
Qed.

Lemma grants_iff :
  forall code : jsstring,
    grants code = true <->
    exists prefix digits,
      code = prefix ++ digits /\
      toLowerCase prefix = js "orkes" /\
      digits <> [] /\ forallb isDigit digits = true /\
      (1 <= decimal digits <= 100)%N.
Proof.
  intros code. unfold grants, validateReferralCode. cbn [referralCode snd]. split.
  - destruct (length (trim code) =? 0)%nat; [discriminate|].
    destruct (matchCode code) as [digits|] eqn:Hm; [|discriminate].
    destruct ((1 <=? parseInt digits) && (parseInt digits <=? 100))%N eqn:Hr;
      [|discriminate].
    intros _. apply matchCode_spec in Hm. destruct Hm as [prefix [-> [Hp [Hne Hd]]]].
    exists prefix, digits. repeat split; auto;
      apply andb_true_iff in Hr; destruct Hr as [H1 H2];
      apply N.leb_le in H1, H2; rewrite parseInt_decimal in *; assumption.
  - intros [prefix [digits [E [Hp [Hne [Hd [H1 H2]]]]]]].
    assert (Hm : matchCode code = Some digits).
    { apply matchCode_spec. exists prefix. auto. }
    rewrite (matched_not_blank _ _ Hm), Hm. cbn [snd].
    rewrite parseInt_decimal.
    apply N.leb_le in H1, H2. rewrite H1, H2. reflexivity.
Qed.

Lemma decimal_zeros (k : nat) (digits : jsstring) :
  decimal (repeat 48%N k ++ digits) = decimal digits.
Proof.
  induction k as [|k IH]; [reflexivity|].
  cbn [repeat app decimal]. rewrite IH. lia.
Qed.

(** X17.  The codes that give lifetime access are exactly the strings made of
    the letters ORKES, each in either case, followed by one or more decimal
    digits that write a number from 1 to 100; nothing may come before or
    after. *)
Theorem referral_codes_accepted :
  forall code : jsstring,
    grants code = true <->
    exists prefix digits,
      code = prefix ++ digits /\
      toLowerCase prefix = js "orkes" /\
      digits <> [] /\ forallb isDigit digits = true /\
      (1 <= decimal digits <= 100)%N.
Proof. exact grants_iff. Qed.

(** X18.  Whether a code is accepted depends neither on the case of its
    letters nor on zeros written before its number: ORKES7, orkes7 and
    Orkes007 fare alike. *)
Theorem referral_code_ignores_case_and_leading_zeros :
  forall (prefix prefix' digits : jsstring) (zeros : nat),
    toLowerCase prefix = js "orkes" ->
    toLowerCase prefix' = js "orkes" ->
    digits <> [] -> forallb isDigit digits = true ->
    grants (prefix' ++ repeat 48%N zeros ++ digits) = grants (prefix ++ digits).
Proof.
  intros prefix prefix' digits zeros Hp Hp' Hne Hd.
  assert (Hz : forallb isDigit (repeat 48%N zeros ++ digits) = true).
  { rewrite forallb_app, Hd, andb_true_r. induction zeros; cbn; auto. }
  assert (Hnz : repeat 48%N zeros ++ digits <> []).
  { destruct zeros; cbn; [exact Hne | discriminate]. }
  destruct (grants (prefix ++ digits)) eqn:G.
  - apply grants_iff in G.
    destruct G as [p [ds [E [Hp0 [Hne0 [Hd0 Hr]]]]]].
    assert (ds = digits).
    { assert (Hlen : length p = length prefix).
      { apply (f_equal (@length N)) in Hp0, Hp. unfold toLowerCase in *.
        rewrite length_map in *. congruence. }
      apply (f_equal (skipn (length prefix))) in E.
      rewrite skipn_app, Nat.sub_diag, skipn_all, skipn_0 in E. cbn in E.
      rewrite <- Hlen, skipn_app, Nat.sub_diag, skipn_all, skipn_0 in E. cbn in E.
      auto. }
    subst ds. apply grants_iff.
    exists prefix', (repeat 48%N zeros ++ digits). rewrite decimal_zeros. auto.
  - destruct (grants (prefix' ++ repeat 48%N zeros ++ digits)) eqn:G'; [|reflexivity].
    apply grants_iff in G'.
    destruct G' as [p [ds [E [Hp0 [Hne0 [Hd0 Hr]]]]]].
    assert (ds = repeat 48%N zeros ++ digits).
    { assert (Hlen : length p = length prefix').
      { apply (f_equal (@length N)) in Hp0, Hp'. unfold toLowerCase in *.
        rewrite length_map in *. congruence. }
      apply (f_equal (skipn (length prefix'))) in E.
      rewrite skipn_app, Nat.sub_diag, skipn_all, skipn_0 in E. cbn in E.
      rewrite <- Hlen, skipn_app, Nat.sub_diag, skipn_all, skipn_0 in E. cbn in E.
      auto. }
    subst ds. rewrite decimal_zeros in Hr.
    assert (G2 : grants (prefix ++ digits) = true).
    { apply grants_iff. exists prefix, digits. auto. }
    congruence.
Qed.

Lemma referral_code_ignores_case_and_leading_zeros_witness :
  toLowerCase (js "ORKES") = js "orkes" /\
  toLowerCase (js "orKes") = js "orkes" /\
  js "42" <> [] /\ forallb isDigit (js "42") = true /\
  grants (js "orKes" ++ repeat 48%N 3 ++ js "42") = grants (js "ORKES" ++ js "42").
Proof.
  assert (H1 : toLowerCase (js "ORKES") = js "orkes") by reflexivity.
  assert (H2 : toLowerCase (js "orKes") = js "orkes") by reflexivity.
  assert (H3 : js "42" <> []) by (vm_compute; discriminate).
  assert (H4 : forallb isDigit (js "42") = true) by reflexivity.
  exact (conj H1 (conj H2 (conj H3 (conj H4
           (referral_code_ignores_case_and_leading_zeros
              (js "ORKES") (js "orKes") (js "42") 3 H1 H2 H3 H4))))).
Defined.

(** X19.  The code is matched as typed, not trimmed.  A code that is blank
    after trimming is ignored: no state changes and no timer is set.  A code
    that is not blank but begins or ends with white space is always
    rejected, even when its trimmed form is a valid code. *)
Theorem padded_referral_code_is_rejected :
  forall st : State,
    let code := referralCode st in
    (trim code = [] -> validateReferralCode st = (st, None)) /\
    (trim code <> [] ->
     (exists c rest, code = c :: rest /\ isWhiteSpace c = true) \/
     (exists init c, code = init ++ [c] /\ isWhiteSpace c = true) ->
     validateReferralCode st = (mkState code true [], Some RejectCode)).
Proof.
  intros st code. subst code. split.
  - intros H. unfold validateReferralCode. rewrite H. reflexivity.
  - intros Hnb Hpad. unfold validateReferralCode.
    rewrite (length_zero_false _ Hnb).
    destruct (matchCode (referralCode st)) as [digits|] eqn:Hm; [|reflexivity].
    exfalso. apply matchCode_spec in Hm.
    destruct Hm as [prefix [E [Hp [Hne Hd]]]].
    destruct prefix as [|o [|r [|k [|e [|s [|x p]]]]]]; try discriminate.
    cbn in Hp. injection Hp as Ho _ _ _ _.
    destruct Hpad as [[c [rest [E' Hc]]] | [init [c [E' Hc]]]].
    + rewrite E' in E. cbn in E. injection E as -> _.
      assert (isWhiteSpace o = false).
      { apply (letter_not_whiteSpace o 79); [lia|].
        apply matchesLetter_lower; [lia | exact Ho]. }
      congruence.
    + destruct digits as [|d ds] using rev_ind; [congruence|].
      rewrite E' in E. change ([o; r; k; e; s] ++ ds ++ [d])
        with ([o; r; k; e; s] ++ (ds ++ [d])) in E.
      rewrite app_assoc in E. apply app_inj_tail in E. destruct E as [_ ->].
      rewrite forallb_app in Hd. apply andb_true_iff in Hd. destruct Hd as [_ Hd].
      cbn in Hd. rewrite andb_true_r in Hd.
      rewrite (digit_not_whiteSpace _ Hd) in Hc. discriminate.
Qed.

Lemma padded_referral_code_is_rejected_witness :
  let st := mkState (js "ORKES7 ") false [] in
  trim (referralCode st) <> [] /\
  ((exists c rest, referralCode st = c :: rest /\ isWhiteSpace c = true) \/
   (exists init c, referralCode st = init ++ [c] /\ isWhiteSpace c = true)) /\
  grants (trim (referralCode st)) = true /\
  validateReferralCode st = (mkState (referralCode st) true [], Some RejectCode).
Proof.
  intros st.
  assert (H1 : trim (referralCode st) <> []) by (vm_compute; discriminate).
  assert (H2 : (exists c rest, referralCode st = c :: rest /\ isWhiteSpace c = true) \/
               (exists init c, referralCode st = init ++ [c] /\ isWhiteSpace c = true)).
  { right. exists (js "ORKES7"), 32%N. split; reflexivity. }
  assert (H3 : grants (trim (referralCode st)) = true) by reflexivity.
  exact (conj H1 (conj H2 (conj H3
           (proj2 (padded_referral_code_is_rejected st) H1 H2)))).
Defined.

(** X20.  A validation and its timer together.  For a code that is not
    blank, [validateReferralCode] marks the dialog as validating, clears the
    error and sets one timer.  When the timer fires the dialog is no longer
    validating; for a code that gives access the user is alerted, the two
    items are stored, the second being the code as typed, the dialog is
    closed and the page reloaded, and no error is shown; for any other code
    the error message is shown and nothing else happens. *)
Theorem referral_validation_settles :
  forall st : State,
    trim (referralCode st) <> [] ->
    exists st1 timer,
      validateReferralCode st = (st1, Some timer) /\
      isValidatingCode st1 = true /\ codeError st1 = [] /\
      referralCode st1 = referralCode st /\
      let '(st2, effects) := fire timer st1 in
      isValidatingCode st2 = false /\ referralCode st2 = referralCode st /\
      if grants (referralCode st)
      then codeError st2 = [] /\
           effects = [Alert congratulations;
                      SetItem (js "orkestra_lifetime_access") (js "true");
                      SetItem (js "orkestra_referral_code") (referralCode st);
                      OnClose; Reload]
      else codeError st2 = invalidCode /\ effects = [].
Proof.
  intros st Hnb. unfold grants, validateReferralCode. cbn [referralCode].
  rewrite (length_zero_false _ Hnb).
  destruct (matchCode (referralCode st)) as [digits|].
  - destruct ((1 <=? parseInt digits) && (parseInt digits <=? 100))%N;
      eexists; eexists; (split; [reflexivity|]); cbn; auto 10.
  - eexists; eexists; (split; [reflexivity|]); cbn; auto 10.
Qed.

Lemma referral_validation_settles_witness :
  let st := mkState (js "orkes100") false (js "old error") in
  trim (referralCode st) <> [] /\
  exists st1 timer,
    validateReferralCode st = (st1, Some timer) /\
    isValidatingCode st1 = true /\ codeError st1 = [] /\
    referralCode st1 = referralCode st /\
    let '(st2, effects) := fire timer st1 in
    isValidatingCode st2 = false /\ referralCode st2 = referralCode st /\
    if grants (referralCode st)
    then codeError st2 = [] /\
         effects = [Alert congratulations;
                    SetItem (js "orkestra_lifetime_access") (js "true");
                    SetItem (js "orkestra_referral_code") (referralCode st);
                    OnClose; Reload]
    else codeError st2 = invalidCode /\ effects = [].
Proof.
  intros st.
  assert (H1 : trim (referralCode st) <> []) by (vm_compute; discriminate).
  exact (conj H1 (referral_validation_settles st H1)).
Defined.

End Referral.

(* ===================================================================== *)
(** * The voice-activity monitor over a session *)
(* ===================================================================== *)

Import Vad.

Lemma monitor_app cap : forall l1 l2 s,
  monitor cap s (l1 ++ l2) =
  let (i1, s1) := monitor cap s l1 in
  let (i2, s2) := monitor cap s1 l2 in (i1 ++ i2, s2).
Proof.
  induction l1 as [|t l1 IH]; intros l2 s; cbn [monitor app].
  - destruct (monitor cap s l2); reflexivity.
  - destruct (monitorVoiceActivity cap s t) as [i s'].
    rewrite IH. destruct (monitor cap s' l1) as [i1 s1].
    destruct (monitor cap s1 l2) as [i2 s2]. reflexivity.
Qed.

Lemma stateAfter_app cap prior before l :
  stateAfter cap prior (before ++ l) = snd (monitor cap (stateAfter cap prior before) l).
Proof.
  unfold stateAfter. rewrite monitor_app.
  destruct (monitor cap (setUp prior) before) as [i1 s1]. cbn.
  destruct (monitor cap s1 l). reflexivity.
Qed.

(** The state after one more frame is one call of the monitor away. *)
Lemma stateAfter_snoc cap prior before t :
  stateAfter cap prior (before ++ [t]) =
  snd (monitorVoiceActivity cap (stateAfter cap prior before) t).
Proof.
  rewrite stateAfter_app. cbn.
  destruct (monitorVoiceActivity cap (stateAfter cap prior before) t). reflexivity.
Qed.

Lemma invokedOver_snoc cap prior before l t :
  invokedOver cap prior before (l ++ [t]) =
  invokedOver cap prior before l ++ invokedAt cap prior (before ++ l) t.
Proof.
  unfold invokedOver, invokedAt. rewrite stateAfter_app, monitor_app.
  destruct (monitor cap (stateAfter cap prior before) l) as [i1 s1]. cbn.
  destruct (monitorVoiceActivity cap s1 t) as [i s2]. cbn.
  rewrite concat_app. cbn. rewrite app_nil_r. reflexivity.
Qed.

(** Where the last frame of a session falls in a splitting of it. *)
Lemma snoc_split {A} (before b1 b2 : list A) (t ts : A) :
  before ++ [t] = b1 ++ ts :: b2 ->
  (b2 = [] /\ before = b1 /\ t = ts) \/
  (exists b2', b2 = b2' ++ [t] /\ before = b1 ++ ts :: b2').
Proof.
  destruct b2 as [|x b2 _] using rev_ind; intros E.
  - left. apply app_inj_tail in E. destruct E. auto.
  - right. exists b2.
    change (b1 ++ ts :: b2 ++ [x]) with (b1 ++ (ts :: b2) ++ [x]) in E.
    rewrite app_assoc in E. apply app_inj_tail in E. destruct E as [-> ->]. auto.
Qed.

(** All the paths through one call of the monitor. *)
Ltac step_cases s t :=
  unfold speech, silence, startsRecorder, monitorVoiceActivity,
    startAutomaticRecording, stopRecording;
  destruct s as [sst lst icr vd sref act rec lvl]; cbn;
  destruct (aboveThreshold t) eqn:Habove; cbn;
  destruct vd, icr; cbn;
  repeat match goal with
         | |- context [if ?b then _ else _] => destruct b eqn:?; cbn
         end.

Ltac read_guards :=
  repeat match goal with
         | H : (_ && _) = true |- _ => apply andb_true_iff in H; destruct H
         | H : (_ <? _)%Z = true |- _ => apply Z.ltb_lt in H
         end;
  unfold SPEECH_START_DURATION, SPEECH_END_DURATION, MIN_RECORDING_TIME in *.

Lemma heard_invariant cap prior before :
  (Forall silence before /\ isCurrentlyRecording (stateAfter cap prior before) = false) \/
  heard before (stateAfter cap prior before).
Proof.
  induction before as [|t before IH] using rev_ind.
  - left. split; [constructor | reflexivity].
  - rewrite stateAfter_snoc.
    destruct (aboveThreshold t) eqn:Ht.
    + right. exists before, t, []. repeat split; auto.
      revert Ht. generalize (stateAfter cap prior before). intros s.
      step_cases s t; intros; try discriminate; reflexivity.
    + destruct IH as [[Hall Hicr] | [pre [tj [sil [E [Hj [Hsil Hl]]]]]]].
      * left. split.
        -- apply Forall_app. split; auto.
        -- revert Hicr Ht. generalize (stateAfter cap prior before). intros s.
           step_cases s t; intros; try discriminate; reflexivity.
      * right. exists pre, tj, (sil ++ [t]). repeat split; auto.
        -- rewrite E. rewrite <- app_assoc. reflexivity.
        -- apply Forall_app. split; auto.
        -- rewrite <- Hl. revert Ht. generalize (stateAfter cap prior before). intros s.
           step_cases s t; intros; try discriminate; reflexivity.
Qed.

Lemma episode_invariant cap prior before :
  isCurrentlyRecording (stateAfter cap prior before) = false ->
  if voiceDetectionRef (stateAfter cap prior before)
  then episodeAt before (stateAfter cap prior before)
  else silentEnd before.
Proof.
  induction before as [|t before IH] using rev_ind.
  - intros _. left. reflexivity.
  - rewrite stateAfter_snoc. revert IH.
    generalize (stateAfter cap prior before). intros s IH.
    destruct (aboveThreshold t) eqn:Ht.
    + destruct (isCurrentlyRecording s) eqn:Hicr.
      * revert Hicr Ht. step_cases s t; intros; discriminate.
      * specialize (IH eq_refl). intros Hicr'.
        assert (Hvd' : voiceDetectionRef (snd (monitorVoiceActivity cap s t)) = true).
        { revert Hicr Ht Hicr'. clear IH.
          step_cases s t; intros; try discriminate; reflexivity. }
        rewrite Hvd'. destruct (voiceDetectionRef s) eqn:Hvd.
        -- destruct IH as [pre [first [rest [E [Hpre [Hall Hst]]]]]].
           exists pre, first, (rest ++ [t]). repeat split; auto.
           ++ rewrite E. rewrite <- app_assoc. reflexivity.
           ++ change (first :: rest ++ [t]) with ((first :: rest) ++ [t]).
              apply Forall_app. split; auto.
           ++ rewrite <- Hst. revert Hicr Hvd Ht Hicr'.
              step_cases s t; intros; try discriminate; reflexivity.
        -- exists before, t, []. repeat split; auto.
           revert Hicr Hvd Ht Hicr'.
           step_cases s t; intros; try discriminate; reflexivity.
    + intros Hicr'.
      assert (Hvd' : voiceDetectionRef (snd (monitorVoiceActivity cap s t)) = false).
      { revert Ht Hicr'. clear IH.
        step_cases s t; intros; try discriminate; reflexivity. }
      rewrite Hvd'. right. exists before, t. auto.
Qed.

Lemma step_alternates cap s t :
  let (i, s') := monitorVoiceActivity cap s t in
  (i = [] /\ isCurrentlyRecording s' = isCurrentlyRecording s) \/
  (i = [StartAutomaticRecording] /\ isCurrentlyRecording s = false /\
   isCurrentlyRecording s' = true) \/
  (i = [StopRecording] /\ isCurrentlyRecording s = true /\
   isCurrentlyRecording s' = false).
Proof.
  step_cases s t; auto 10.
Qed.

Lemma monitor_alternates cap : forall ticks s,
  alternates (isCurrentlyRecording s) (concat (fst (monitor cap s ticks))).
Proof.
  induction ticks as [|t ticks IH]; intros s; cbn [monitor].
  - exact I.
  - pose proof (step_alternates cap s t) as Hstep.
    destruct (monitorVoiceActivity cap s t) as [i s'].
    specialize (IH s'). destruct (monitor cap s' ticks) as [rest s''].
    cbn [fst concat] in *.
    destruct Hstep as [[-> E] | [[-> [E1 E2]] | [-> [E1 E2]]]]; cbn.
    + rewrite <- E. exact IH.
    + split; [exact E1 | now rewrite <- E2].
    + split; [exact E1 | now rewrite <- E2].
Qed.

Lemma alternates_two_starts : forall a recording b c,
  alternates recording (a ++ StartAutomaticRecording :: b ++ StartAutomaticRecording :: c) ->
  In StopRecording b.
Proof.
  induction a as [|x a IH]; intros recording b c H.
  - cbn in H. destruct H as [_ H]. clear recording.
    induction b as [|y b IHb].
    + cbn in H. destruct H as [H _]. discriminate.
    + destruct y.
      * cbn in H. destruct H as [H _]. discriminate.
      * now left.
  - destruct x; cbn in H; destruct H as [_ H]; eauto.
Qed.

Lemma start_step cap s t :
  In StartAutomaticRecording (fst (monitorVoiceActivity cap s t)) ->
  speech t /\ isCurrentlyRecording s = false /\ voiceDetectionRef s = true /\
  (now t - speechStartTime s > 200)%Z.
Proof.
  step_cases s t; intros Hin; cbn in Hin;
    try (destruct Hin as [Hin|[]]; discriminate); try contradiction;
    read_guards; repeat split; try reflexivity; try lia.
Qed.

Lemma stop_step cap s t :
  In StopRecording (fst (monitorVoiceActivity cap s t)) ->
  silence t /\ isCurrentlyRecording s = true /\
  (now t - lastSpeechTime s > 1200)%Z /\ (now t - speechStartTimeRef s > 600)%Z /\
  mediaRecorderActive (snd (monitorVoiceActivity cap s t)) = false.
Proof.
  step_cases s t; intros Hin; cbn in Hin;
    try (destruct Hin as [Hin|[]]; discriminate); try contradiction;
    read_guards; repeat split; try reflexivity; try lia.
Qed.

Lemma quiet_step cap s t :
  silence t ->
  (now t - speechStartTimeRef s <= 600)%Z \/ (now t - lastSpeechTime s <= 1200)%Z ->
  fst (monitorVoiceActivity cap s t) = [] /\
  mediaRecorderActive (snd (monitorVoiceActivity cap s t)) = mediaRecorderActive s.
Proof.
  step_cases s t; intros Ht Hearly; try discriminate; auto;
    read_guards; lia.
Qed.

(** A call of [startAutomaticRecording] that gets a recorder going. *)
Lemma started_step cap s t :
  In StartAutomaticRecording (fst (monitorVoiceActivity cap s t)) ->
  startsRecorder cap t = true ->
  mediaRecorderActive (snd (monitorVoiceActivity cap s t)) = true /\
  speechStartTimeRef (snd (monitorVoiceActivity cap s t)) = startedAt t /\
  isCurrentlyRecording (snd (monitorVoiceActivity cap s t)) = true.
Proof.
  step_cases s t; intros Hin Hst; cbn in Hin, Hst;
    try (destruct Hin as [Hin|[]]; discriminate); try contradiction;
    try discriminate; auto.
Qed.

(** A call of [startAutomaticRecording] that does not. *)
Lemma blocked_step cap s t :
  In StartAutomaticRecording (fst (monitorVoiceActivity cap s t)) ->
  startsRecorder cap t = false ->
  mediaRecorderActive (snd (monitorVoiceActivity cap s t)) = true ->
  mediaRecorderActive s = true /\
  speechStartTimeRef (snd (monitorVoiceActivity cap s t)) = speechStartTimeRef s.
Proof.
  step_cases s t; intros Hin Hst Hact; cbn in Hin, Hst;
    try (destruct Hin as [Hin|[]]; discriminate); try contradiction;
    try discriminate; auto.
Qed.

(** A frame on which the monitor calls nothing. *)
Lemma idle_step cap s t :
  fst (monitorVoiceActivity cap s t) = [] ->
  mediaRecorderActive (snd (monitorVoiceActivity cap s t)) = mediaRecorderActive s /\
  speechStartTimeRef (snd (monitorVoiceActivity cap s t)) = speechStartTimeRef s /\
  isCurrentlyRecording (snd (monitorVoiceActivity cap s t)) = isCurrentlyRecording s /\
  isRecording (snd (monitorVoiceActivity cap s t)) = isRecording s.
Proof.
  step_cases s t; intros Hin; try discriminate; auto.
Qed.

(** What [recordingSince] says of the state. *)
Lemma recordingSince_state cap prior before ts :
  recordingSince cap prior before ts ->
  mediaRecorderActive (stateAfter cap prior before) = true /\
  speechStartTimeRef (stateAfter cap prior before) = startedAt ts /\
  isCurrentlyRecording (stateAfter cap prior before) = true.
Proof.
  intros [b1 [b2 [-> [Hin [Hst Hq]]]]]. revert Hq.
  induction b2 as [|x b2 IH] using rev_ind; intros Hq.
  - rewrite stateAfter_snoc. now apply started_step.
  - rewrite invokedOver_snoc in Hq. apply app_eq_nil in Hq. destruct Hq as [Hq Hx].
    specialize (IH Hq).
    assert (E : (b1 ++ [ts]) ++ b2 = b1 ++ ts :: b2)
      by (rewrite <- app_assoc; reflexivity).
    rewrite E in Hx. unfold invokedAt in Hx.
    change (b1 ++ ts :: b2 ++ [x]) with (b1 ++ (ts :: b2) ++ [x]).
    rewrite app_assoc, stateAfter_snoc.
    destruct (idle_step cap _ _ Hx) as [Ha [Hr [Hi _]]].
    rewrite Ha, Hr, Hi. exact IH.
Qed.

Lemma recordingSince_snoc cap prior before ts t :
  recordingSince cap prior before ts ->
  invokedAt cap prior before t = [] ->
  recordingSince cap prior (before ++ [t]) ts.
Proof.
  intros [b1 [b2 [-> [Hin [Hst Hq]]]]] Hidle.
  exists b1, (b2 ++ [t]). repeat split; auto.
  - rewrite <- app_assoc. reflexivity.
  - rewrite invokedOver_snoc, Hq.
    replace ((b1 ++ [ts]) ++ b2) with (b1 ++ ts :: b2)
      by (rewrite <- app_assoc; reflexivity).
    exact Hidle.
Qed.

Lemma recordingFromBefore_snoc cap prior before t :
  recordingFromBefore cap prior before ->
  (In StartAutomaticRecording (invokedAt cap prior before t) ->
   startsRecorder cap t = false) ->
  recordingFromBefore cap prior (before ++ [t]).
Proof.
  intros [Hact Hnone] Ht. split; [exact Hact|].
  intros b1 ts b2 E Hin.
  destruct (snoc_split _ _ _ _ _ E) as [[-> [-> ->]] | [b2' [-> ->]]].
  - now apply Ht.
  - exact (Hnone b1 ts b2' eq_refl Hin).
Qed.

(** The recorder that is active was started by the latest call of
    [startAutomaticRecording] that got one going, with nothing called
    since, or it was running when the detector was set up; and
    [speechStartTimeRef] holds the time noted when it was started. *)
Lemma recorder_invariant cap prior before :
  mediaRecorderActive (stateAfter cap prior before) = true ->
  (exists ts, recordingSince cap prior before ts) \/
  (recordingFromBefore cap prior before /\
   speechStartTimeRef (stateAfter cap prior before) = speechStartTimeRef prior).
Proof.
  induction before as [|t before IH] using rev_ind.
  - intros Hact. right. split; [split|]; [exact Hact | | reflexivity].
    intros b1 ts b2 E. destruct b1; discriminate.
  - rewrite stateAfter_snoc. intros Hact.
    pose proof (step_alternates cap (stateAfter cap prior before) t) as Hstep.
    destruct (monitorVoiceActivity cap (stateAfter cap prior before) t) as [i s'] eqn:Es.
    assert (Ei : invokedAt cap prior before t = i)
      by (unfold invokedAt; rewrite Es; reflexivity).
    assert (Esnd : snd (monitorVoiceActivity cap (stateAfter cap prior before) t) = s')
      by (rewrite Es; reflexivity).
    cbn [snd] in Hact.
    destruct Hstep as [[-> _] | [[-> [Hicr _]] | [-> _]]].
    + assert (Hidle : fst (monitorVoiceActivity cap (stateAfter cap prior before) t) = [])
        by (rewrite Es; reflexivity).
      destruct (idle_step cap _ _ Hidle) as [Ha [Hr _]]. rewrite Esnd in Ha, Hr.
      rewrite Ha in Hact.
      destruct (IH Hact) as [[ts Hs] | [Hb Href]].
      * left. exists ts. now apply recordingSince_snoc.
      * right. split.
        -- apply recordingFromBefore_snoc; [exact Hb|]. rewrite Ei. intros [].
        -- congruence.
    + assert (Hin : In StartAutomaticRecording
                       (fst (monitorVoiceActivity cap (stateAfter cap prior before) t)))
        by (rewrite Es; now left).
      destruct (startsRecorder cap t) eqn:Hst.
      * left. exists t. exists before, []. repeat split; auto.
      * destruct (blocked_step cap _ _ Hin Hst) as [Ha Hr];
          [rewrite Esnd; exact Hact|]. rewrite Esnd in Hr.
        destruct (IH Ha) as [[ts Hs] | [Hb Href]].
        -- destruct (recordingSince_state _ _ _ _ Hs) as [_ [_ Hrec]]. congruence.
        -- right. split.
           ++ apply recordingFromBefore_snoc; [exact Hb | intros _; exact Hst].
           ++ congruence.
    + assert (Hin : In StopRecording
                       (fst (monitorVoiceActivity cap (stateAfter cap prior before) t)))
        by (rewrite Es; now left).
      destruct (stop_step cap _ _ Hin) as [_ [_ [_ [_ Hoff]]]].
      rewrite Esnd in Hoff. congruence.
Qed.

Lemma last_speech cap prior pre tj sil :
  speech tj -> Forall silence sil ->
  lastSpeechTime (stateAfter cap prior (pre ++ tj :: sil)) = now tj.
Proof.
  intros Hj. induction sil as [|x sil IH] using rev_ind; intros Hsil.
  - rewrite stateAfter_snoc. revert Hj. generalize (stateAfter cap prior pre). intros s.
    step_cases s tj; intros; try discriminate; reflexivity.
  - apply Forall_app in Hsil. destruct Hsil as [Hsil Hx].
    assert (E : pre ++ tj :: sil ++ [x] = (pre ++ tj :: sil) ++ [x]).
    { rewrite <- app_assoc. reflexivity. }
    rewrite E, stateAfter_snoc. rewrite <- (IH Hsil).
    assert (Hx' : silence x) by (now inversion Hx).
    revert Hx'. generalize (stateAfter cap prior (pre ++ tj :: sil)). intros s.
    step_cases s x; intros; try discriminate; reflexivity.
Qed.

(** The first frame of a session calls nothing, whatever it hears: it
    shows the level and notes whether there is speech, as the first frame
    the chat component runs at set-up does. *)
Lemma first_frame_calls_nothing cap prior t :
  invokedAt cap prior [] t = [] /\
  voiceDetectionRef (stateAfter cap prior [t]) = aboveThreshold t /\
  audioLevel (stateAfter cap prior [t]) = rms t /\
  isRecording (stateAfter cap prior [t]) = isRecording prior /\
  mediaRecorderActive (stateAfter cap prior [t]) = mediaRecorderActive prior /\
  speechStartTimeRef (stateAfter cap prior [t]) = speechStartTimeRef prior.
Proof.
  unfold invokedAt, stateAfter, setUp. cbn [monitor fst snd].
  unfold monitorVoiceActivity. cbn.
  destruct (aboveThreshold t); cbn; rewrite ?Z.sub_diag; cbn; auto 10.
Qed.

(** C1. Whatever state the component was in when the detector was set up
    and whatever frames the monitor has seen, it calls [stopRecording]
    only on a frame of silence, when more than 1200 ms have passed since
    the latest frame of speech; and if a recorder is active then, it has
    been recording for more than 600 ms: it is the recorder started by the
    latest call of [startAutomaticRecording] that got one going, more than
    600 ms before, or one that was running when the detector was set up,
    whose start was noted more than 600 ms before.  After the call no
    recorder is active.  On a frame of silence that comes within 600 ms of
    the start of the active recorder the monitor calls nothing and the
    recorder stays active, however long the silence; so it does on a frame
    of silence that comes within 1200 ms of the latest frame of speech.
    In both cases no clip goes to transcription. *)
Theorem monitor_stops_only_after_silence_and_minimum :
  (forall (cap : Captured) (prior : State) (before : list Tick) (t : Tick),
      In StopRecording (invokedAt cap prior before t) ->
      silence t /\
      (exists pre tj sil,
          before = pre ++ tj :: sil /\ speech tj /\ Forall silence sil /\
          (now t - now tj > 1200)%Z) /\
      (mediaRecorderActive (stateAfter cap prior before) = true ->
       (exists ts,
           recordingSince cap prior before ts /\ (now t - startedAt ts > 600)%Z) \/
       (recordingFromBefore cap prior before /\
        (now t - speechStartTimeRef prior > 600)%Z)) /\
      mediaRecorderActive (stateAfter cap prior (before ++ [t])) = false) /\
  (forall (cap : Captured) (prior : State) (before : list Tick) (ts t : Tick),
      recordingSince cap prior before ts ->
      silence t ->
      (now t - startedAt ts <= 600)%Z ->
      invokedAt cap prior before t = [] /\
      mediaRecorderActive (stateAfter cap prior (before ++ [t])) = true) /\
  (forall (cap : Captured) (prior : State) (pre : list Tick) (tj : Tick)
          (sil : list Tick) (t : Tick),
      speech tj -> Forall silence sil -> silence t ->
      (now t - now tj <= 1200)%Z ->
      invokedAt cap prior (pre ++ tj :: sil) t = [] /\
      mediaRecorderActive (stateAfter cap prior ((pre ++ tj :: sil) ++ [t])) =
      mediaRecorderActive (stateAfter cap prior (pre ++ tj :: sil))).
Proof.
  split; [|split].
  - intros cap prior before t Hin. unfold invokedAt in Hin.
    destruct (stop_step cap _ _ Hin) as [Ht [Hicr [Hsil [Hrec Hoff]]]].
    split; [exact Ht|]. split; [|split].
    + destruct (heard_invariant cap prior before)
        as [[_ Hno] | [pre [tj [sil [E [Hj [Hs Hl]]]]]]].
      * congruence.
      * exists pre, tj, sil. repeat split; auto. lia.
    + intros Hact.
      destruct (recorder_invariant cap prior before Hact) as [[ts Hs] | [Hb Href]].
      * left. exists ts. split; [exact Hs|].
        destruct (recordingSince_state _ _ _ _ Hs) as [_ [Hr _]]. lia.
      * right. split; [exact Hb | lia].
    + rewrite stateAfter_snoc. exact Hoff.
  - intros cap prior before ts t Hs Ht Hearly.
    destruct (recordingSince_state _ _ _ _ Hs) as [Ha [Hr _]].
    unfold invokedAt. rewrite stateAfter_snoc, <- Ha.
    apply quiet_step; [exact Ht | left; lia].
  - intros cap prior pre tj sil t Hj Hsil Ht Hearly.
    pose proof (last_speech cap prior pre tj sil Hj Hsil) as Hl.
    unfold invokedAt. rewrite stateAfter_snoc.
    apply quiet_step; [exact Ht | right; lia].
Qed.

Lemma monitor_stops_only_after_silence_and_minimum_witness :
  (let before := Samples.speaking ++ Samples.pausing in
   let t := Samples.closing in
   In StopRecording (invokedAt Samples.live initial before t) /\
   silence t /\
   (exists pre tj sil,
       before = pre ++ tj :: sil /\ speech tj /\ Forall silence sil /\
       (now t - now tj > 1200)%Z) /\
   (mediaRecorderActive (stateAfter Samples.live initial before) = true ->
    (exists ts,
        recordingSince Samples.live initial before ts /\
        (now t - startedAt ts > 600)%Z) \/
    (recordingFromBefore Samples.live initial before /\
     (now t - speechStartTimeRef initial > 600)%Z)) /\
   mediaRecorderActive (stateAfter Samples.live initial (before ++ [t])) = false) /\
  (let ts := Samples.delayed 25 250 1200 in
   let before := [Samples.frame 20 0; Samples.frame 22 100; ts;
                  Samples.frame 21 300; Samples.frame 3 1000] in
   let t := Samples.frame 2 1601 in
   recordingSince Samples.live initial before ts /\
   silence t /\
   (now t - startedAt ts <= 600)%Z /\
   (now t - now (Samples.frame 21 300) > 1200)%Z /\
   invokedAt Samples.live initial before t = [] /\
   mediaRecorderActive (stateAfter Samples.live initial (before ++ [t])) = true) /\
  (let pre := [Samples.frame 20 0; Samples.frame 22 100; Samples.frame 25 250] in
   let tj := Samples.frame 21 300 in
   let t := Samples.frame 3 1400 in
   speech tj /\ Forall silence (@nil Tick) /\ silence t /\
   (now t - now tj <= 1200)%Z /\
   (now t - speechStartTimeRef (stateAfter Samples.live initial (pre ++ [tj])) > 600)%Z /\
   invokedAt Samples.live initial (pre ++ [tj]) t = [] /\
   mediaRecorderActive (stateAfter Samples.live initial ((pre ++ [tj]) ++ [t])) =
   mediaRecorderActive (stateAfter Samples.live initial (pre ++ [tj]))).
Proof.
  split; [|split].
  - intros before t.
    assert (H1 : In StopRecording (invokedAt Samples.live initial before t))
      by (vm_compute; left; reflexivity).
    split; [exact H1|].
    exact (proj1 monitor_stops_only_after_silence_and_minimum
             Samples.live initial before t H1).
  - intros ts before t.
    assert (H1 : recordingSince Samples.live initial before ts).
    { exists [Samples.frame 20 0; Samples.frame 22 100],
             [Samples.frame 21 300; Samples.frame 3 1000].
      split; [reflexivity|]. split; [vm_compute; left; reflexivity|].
      split; vm_compute; reflexivity. }
    assert (H2 : silence t) by reflexivity.
    assert (H3 : (now t - startedAt ts <= 600)%Z) by (vm_compute; discriminate).
    split; [exact H1|]. split; [exact H2|]. split; [exact H3|].
    split; [vm_compute; reflexivity|].
    exact (proj1 (proj2 monitor_stops_only_after_silence_and_minimum)
             Samples.live initial before ts t H1 H2 H3).
  - intros pre tj t.
    assert (H1 : speech tj) by reflexivity.
    assert (H2 : Forall silence (@nil Tick)) by constructor.
    assert (H3 : silence t) by reflexivity.
    assert (H4 : (now t - now tj <= 1200)%Z) by (vm_compute; discriminate).
    split; [exact H1|]. split; [exact H2|]. split; [exact H3|]. split; [exact H4|].
    split; [vm_compute; reflexivity|].
    exact (proj2 (proj2 monitor_stops_only_after_silence_and_minimum)
             Samples.live initial pre tj [] t H1 H2 H3 H4).
Defined.

(** C2. Whatever state the component was in when the detector was set up
    and whatever frames the monitor sees, two calls of
    [startAutomaticRecording] are always separated by a call of
    [stopRecording]; and it calls [startAutomaticRecording] only on a
    frame of speech that ends an unbroken run of frames of speech whose
    first frame, the first after silence or the first of all, is more
    than 200 ms old. *)
Theorem monitor_starts_once_after_sustained_speech :
  (forall (cap : Captured) (prior : State) (ticks : list Tick) (a b c : list Invocation),
      invocations cap prior ticks =
        a ++ StartAutomaticRecording :: b ++ StartAutomaticRecording :: c ->
      In StopRecording b) /\
  (forall (cap : Captured) (prior : State) (before : list Tick) (t : Tick),
      In StartAutomaticRecording (invokedAt cap prior before t) ->
      speech t /\
      exists pre first rest,
        before = pre ++ first :: rest /\
        silentEnd pre /\
        Forall speech (first :: rest) /\
        (now t - now first > 200)%Z).
Proof.
  split.
  - intros cap prior ticks a b c E.
    pose proof (monitor_alternates cap ticks (setUp prior)) as H.
    unfold invocations in E. rewrite E in H.
    exact (alternates_two_starts _ _ _ _ H).
  - intros cap prior before t Hin. unfold invokedAt in Hin.
    destruct (start_step cap _ _ Hin) as [Ht [Hicr [Hvd Hdur]]].
    split; [exact Ht|].
    pose proof (episode_invariant cap prior before Hicr) as Hep. rewrite Hvd in Hep.
    destruct Hep as [pre [first [rest [E [Hpre [Hall Hst]]]]]].
    exists pre, first, rest. repeat split; auto. lia.
Qed.

Lemma monitor_starts_once_after_sustained_speech_witness :
  (let ticks := Samples.speaking ++ Samples.pausing ++ [Samples.closing]
                ++ Samples.resuming in
   invocations Samples.live Samples.interrupted ticks =
     [] ++ StartAutomaticRecording :: [StopRecording] ++ StartAutomaticRecording :: [] /\
   In StopRecording [StopRecording]) /\
  (let before := [Samples.frame 20 0; Samples.frame 22 100] in
   let t := Samples.frame 25 250 in
   In StartAutomaticRecording (invokedAt Samples.live Samples.interrupted before t) /\
   speech t /\
   exists pre first rest,
     before = pre ++ first :: rest /\
     silentEnd pre /\
     Forall speech (first :: rest) /\
     (now t - now first > 200)%Z).
Proof.
  split; cbv zeta.
  - split; [vm_compute; reflexivity|].
    apply (proj1 monitor_starts_once_after_sustained_speech Samples.live
                 Samples.interrupted
                 (Samples.speaking ++ Samples.pausing ++ [Samples.closing]
                  ++ Samples.resuming) [] [StopRecording] []).
    vm_compute; reflexivity.
  - split; [vm_compute; left; reflexivity|].
    apply (proj2 monitor_starts_once_after_sustained_speech Samples.live
                 Samples.interrupted
                 [Samples.frame 20 0; Samples.frame 22 100] (Samples.frame 25 250)).
    vm_compute; left; reflexivity.
Defined.

Example session_invocations :
  invocations Samples.live initial
    (Samples.speaking ++ Samples.pausing ++ [Samples.closing] ++ Samples.resuming) =
  [StartAutomaticRecording; StopRecording; StartAutomaticRecording].
Proof. vm_compute. reflexivity. Qed.

(** A single loud frame starts nothing, however late it comes. *)
Example transient_noise_ignored :
  invocations Samples.live initial
    [Samples.frame 40 0; Samples.frame 2 16; Samples.frame 40 5000] = [].
Proof. vm_compute. reflexivity. Qed.

(* ===================================================================== *)
(** * The monitor and its recorder *)
(* ===================================================================== *)

Lemma recording_step cap s t :
  let s' := snd (monitorVoiceActivity cap s t) in
  ((mediaRecorderActive s = true -> isCurrentlyRecording s = true) ->
   (mediaRecorderActive s' = true -> isCurrentlyRecording s' = true)) /\
  ((isCurrentlyRecording s = true -> voiceDetectionRef s = true) ->
   (isCurrentlyRecording s' = true -> voiceDetectionRef s' = true)) /\
  ((mediaRecorderActive s = true -> isCurrentlyRecording s = true) ->
   isRecording s = mediaRecorderActive s ->
   isRecording s' = mediaRecorderActive s').
Proof.
  step_cases s t; destruct act, rec; repeat split; intros;
    repeat match goal with
           | H : true = true -> _ |- _ => specialize (H eq_refl)
           end;
    try reflexivity; try discriminate; auto.
Qed.

Lemma recording_invariant cap prior ticks :
  let s := stateAfter cap prior ticks in
  (mediaRecorderActive prior = false ->
   mediaRecorderActive s = true -> isCurrentlyRecording s = true) /\
  (isCurrentlyRecording s = true -> voiceDetectionRef s = true) /\
  (mediaRecorderActive prior = false -> isRecording prior = false ->
   isRecording s = mediaRecorderActive s).
Proof.
  induction ticks as [|t ticks IH] using rev_ind.
  - cbn. repeat split; intros; congruence.
  - cbv zeta in *. rewrite stateAfter_snoc.
    destruct IH as [H1 [H2 H3]].
    destruct (recording_step cap (stateAfter cap prior ticks) t) as [S1 [S2 S3]].
    repeat split.
    + intros Hp. apply S1. now apply H1.
    + apply S2. exact H2.
    + intros Hp Hr. apply S3; [now apply H1 | now apply H3].
Qed.

(** X21.  One recorder at a time.  If no recorder is running when the
    detector is set up, then after any frames an active recorder is one
    the monitor started and has not yet stopped, and whenever the monitor
    calls [startAutomaticRecording] no recorder is active.  If, moreover,
    the [isRecording] flag is off when the detector is set up, the flag
    says at every frame whether a recorder is active, and it is off
    whenever the monitor calls [startAutomaticRecording].  Nothing is
    said here of a flag that the previous session left on. *)
Theorem monitor_records_one_clip_at_a_time :
  forall (cap : Captured) (prior : State) (before : list Tick) (t : Tick),
    let s := stateAfter cap prior before in
    mediaRecorderActive prior = false ->
    (mediaRecorderActive s = true -> isCurrentlyRecording s = true) /\
    (In StartAutomaticRecording (invokedAt cap prior before t) ->
     mediaRecorderActive s = false) /\
    (isRecording prior = false ->
     isRecording s = mediaRecorderActive s /\
     (In StartAutomaticRecording (invokedAt cap prior before t) ->
      isRecording s = false)).
Proof.
  intros cap prior before t s Hp.
  destruct (recording_invariant cap prior before) as [H1 [H2 H3]]. fold s in H1, H2, H3.
  assert (Hidle : In StartAutomaticRecording (invokedAt cap prior before t) ->
                  mediaRecorderActive s = false).
  { intros H. unfold invokedAt in H. fold s in H.
    destruct (start_step cap _ _ H) as [_ [Hicr _]].
    destruct (mediaRecorderActive s); [|reflexivity].
    rewrite (H1 Hp eq_refl) in Hicr. discriminate. }
  split; [exact (H1 Hp)|]. split; [exact Hidle|].
  intros Hr. split; [exact (H3 Hp Hr)|].
  intros H. rewrite (H3 Hp Hr). exact (Hidle H).
Qed.

Lemma monitor_records_one_clip_at_a_time_witness :
  let cap := Samples.live in
  let prior := initial in
  let before := [Samples.frame 20 0; Samples.frame 22 100] in
  let t := Samples.frame 25 250 in
  let s := stateAfter cap prior before in
  mediaRecorderActive prior = false /\
  isRecording prior = false /\
  In StartAutomaticRecording (invokedAt cap prior before t) /\
  mediaRecorderActive s = false /\
  isRecording s = false.
Proof.
  intros cap prior before t s.
  assert (H1 : mediaRecorderActive prior = false) by reflexivity.
  assert (H2 : isRecording prior = false) by reflexivity.
  assert (H3 : In StartAutomaticRecording (invokedAt cap prior before t))
    by (vm_compute; left; reflexivity).
  split; [exact H1|]. split; [exact H2|]. split; [exact H3|].
  destruct (monitor_records_one_clip_at_a_time cap prior before t H1) as [_ [Ha Hr]].
  split; [exact (Ha H3) | exact (proj2 (Hr H2) H3)].
Defined.

Lemma stale_step cap s t :
  capIsRecording cap || capIsProcessing cap = true ->
  speechStartTimeRef (snd (monitorVoiceActivity cap s t)) = speechStartTimeRef s /\
  (mediaRecorderActive (snd (monitorVoiceActivity cap s t)) = true ->
   mediaRecorderActive s = true) /\
  (mediaRecorderActive s = false ->
   isRecording (snd (monitorVoiceActivity cap s t)) = isRecording s).
Proof.
  intros Hcap. destruct (capIsRecording cap || capIsProcessing cap) eqn:E; [|discriminate].
  unfold monitorVoiceActivity, startAutomaticRecording, stopRecording. rewrite E.
  destruct s as [sst lst icr vd sref act rec lvl]; cbn.
  destruct (aboveThreshold t); cbn; destruct vd, icr; cbn;
    repeat match goal with
           | |- context [if ?b then _ else _] => destruct b; cbn
           end; repeat split; intros; try discriminate; auto.
Qed.

(** X22.  [startAutomaticRecording] tests the recording and processing
    flags of the voice state it closed over when the detector was set up,
    not the current ones.  A detector set up while either flag was on
    therefore never starts a recorder, however long the user speaks: a
    recorder is active only if one was running at set-up, and
    [speechStartTimeRef] keeps the value it had.  If no recorder was
    running at set-up, none ever is, and [isRecording] keeps the value it
    had: a flag that the previous session left on stays on. *)
Theorem stale_flags_block_every_recording :
  forall (cap : Captured) (prior : State) (ticks : list Tick),
    capIsRecording cap || capIsProcessing cap = true ->
    let s := stateAfter cap prior ticks in
    speechStartTimeRef s = speechStartTimeRef prior /\
    (mediaRecorderActive s = true -> mediaRecorderActive prior = true) /\
    (mediaRecorderActive prior = false ->
     mediaRecorderActive s = false /\ isRecording s = isRecording prior).
Proof.
  intros cap prior ticks Hcap s. subst s.
  induction ticks as [|t ticks IH] using rev_ind.
  - repeat split; auto.
  - rewrite stateAfter_snoc. destruct IH as [Hs [Ha Hr]].
    destruct (stale_step cap (stateAfter cap prior ticks) t Hcap) as [Hs' [Ha' Hr']].
    split; [congruence|]. split; [auto|].
    intros Hp. destruct (Hr Hp) as [Hoff Hrec]. split.
    + destruct (mediaRecorderActive (snd (monitorVoiceActivity cap _ t))) eqn:E;
        [|reflexivity].
      specialize (Ha' eq_refl). congruence.
    + rewrite (Hr' Hoff). exact Hrec.
Qed.

Lemma stale_flags_block_every_recording_witness :
  let cap := mkCaptured true false in
  let prior := Samples.interrupted in
  let ticks := Samples.speaking in
  let s := stateAfter cap prior ticks in
  capIsRecording cap || capIsProcessing cap = true /\
  mediaRecorderActive prior = false /\
  In StartAutomaticRecording (invocations cap prior ticks) /\
  speechStartTimeRef s = 234%Z /\
  mediaRecorderActive s = false /\
  isRecording s = true.
Proof.
  intros cap prior ticks s.
  assert (H1 : capIsRecording cap || capIsProcessing cap = true) by reflexivity.
  assert (H2 : mediaRecorderActive prior = false) by reflexivity.
  assert (H3 : In StartAutomaticRecording (invocations cap prior ticks))
    by (vm_compute; left; reflexivity).
  split; [exact H1|]. split; [exact H2|]. split; [exact H3|].
  destruct (stale_flags_block_every_recording cap prior ticks H1) as [Hs [_ Hr]].
  split; [exact Hs|]. exact (Hr H2).
Defined.

Lemma speech_keeps_recording cap s t :
  speech t -> isCurrentlyRecording s = true ->
  isCurrentlyRecording (snd (monitorVoiceActivity cap s t)) = true.
Proof.
  step_cases s t; intros; try discriminate; reflexivity.
Qed.

Lemma idle_after_silence cap prior before :
  silentEnd before ->
  isCurrentlyRecording (stateAfter cap prior before) = false ->
  voiceDetectionRef (stateAfter cap prior before) = false.
Proof.
  intros [-> | [p [tl [-> Htl]]]]; [reflexivity|].
  rewrite stateAfter_snoc. revert Htl. generalize (stateAfter cap prior p). intros s.
  step_cases s tl; intros; try discriminate; reflexivity.
Qed.

Lemma episode_start cap prior pre first rest :
  silentEnd pre ->
  Forall speech (first :: rest) ->
  isCurrentlyRecording (stateAfter cap prior (pre ++ first :: rest)) = false ->
  voiceDetectionRef (stateAfter cap prior (pre ++ first :: rest)) = true /\
  speechStartTime (stateAfter cap prior (pre ++ first :: rest)) = now first.
Proof.
  intros Hpre. induction rest as [|x rest IH] using rev_ind; intros Hall Hicr.
  - rewrite stateAfter_snoc in *.
    assert (Hfirst : speech first) by (inversion Hall; assumption).
    destruct (isCurrentlyRecording (stateAfter cap prior pre)) eqn:Hbefore.
    + rewrite (speech_keeps_recording cap _ _ Hfirst Hbefore) in Hicr. discriminate.
    + pose proof (idle_after_silence cap prior pre Hpre Hbefore) as Hvd.
      revert Hfirst Hbefore Hvd Hicr. generalize (stateAfter cap prior pre). intros s.
      step_cases s first; intros; try discriminate; split; reflexivity.
  - assert (E : pre ++ first :: rest ++ [x] = (pre ++ first :: rest) ++ [x]).
    { rewrite <- app_assoc. reflexivity. }
    rewrite E in *. rewrite stateAfter_snoc in *.
    assert (Hx : speech x).
    { change (first :: rest ++ [x]) with ((first :: rest) ++ [x]) in Hall.
      apply Forall_app in Hall. destruct Hall as [_ Hx]. now inversion Hx. }
    assert (Hrest : Forall speech (first :: rest)).
    { change (first :: rest ++ [x]) with ((first :: rest) ++ [x]) in Hall.
      apply Forall_app in Hall. tauto. }
    destruct (isCurrentlyRecording (stateAfter cap prior (pre ++ first :: rest)))
      eqn:Hbefore.
    + rewrite (speech_keeps_recording cap _ _ Hx Hbefore) in Hicr. discriminate.
    + destruct (IH Hrest eq_refl) as [Hvd Hst].
      rewrite <- Hst.
      revert Hx Hbefore Hvd Hicr.
      generalize (stateAfter cap prior (pre ++ first :: rest)). intros s.
      step_cases s x; intros; try discriminate; split; reflexivity.
Qed.

Lemma start_fires cap s t :
  speech t -> isCurrentlyRecording s = false -> voiceDetectionRef s = true ->
  (now t - speechStartTime s > 200)%Z ->
  fst (monitorVoiceActivity cap s t) = [StartAutomaticRecording] /\
  isCurrentlyRecording (snd (monitorVoiceActivity cap s t)) = true.
Proof.
  step_cases s t; intros Ht Hi Hv Hlong; try discriminate; auto;
    match goal with
    | H : (_ <? _)%Z = false |- _ =>
        apply Z.ltb_ge in H; unfold SPEECH_START_DURATION in H; lia
    end.
Qed.

(** X23.  Speech that lasts is recorded.  If the frames so far end in an
    unbroken run of speech, not yet being recorded, that began after a
    silent frame or at the start of the session, then a frame of speech more
    than 200 ms after the first frame of the run makes the monitor call
    [startAutomaticRecording], once, and mark the episode as recording;
    and this whatever state the component was in when the detector was
    set up. *)
Theorem sustained_speech_starts_recording :
  forall (cap : Captured) (prior : State) (pre : list Tick) (first : Tick)
         (rest : list Tick) (t : Tick),
    silentEnd pre ->
    Forall speech (first :: rest) ->
    speech t ->
    isCurrentlyRecording (stateAfter cap prior (pre ++ first :: rest)) = false ->
    (now t - now first > 200)%Z ->
    invokedAt cap prior (pre ++ first :: rest) t = [StartAutomaticRecording] /\
    isCurrentlyRecording (stateAfter cap prior ((pre ++ first :: rest) ++ [t])) = true.
Proof.
  intros cap prior pre first rest t Hpre Hall Ht Hicr Hlong.
  destruct (episode_start cap prior pre first rest Hpre Hall Hicr) as [Hvd Hst].
  unfold invokedAt. rewrite stateAfter_snoc.
  apply start_fires; auto. rewrite Hst. exact Hlong.
Qed.

Lemma sustained_speech_starts_recording_witness :
  let cap := Samples.live in
  let prior := Samples.interrupted in
  let pre := @nil Tick in
  let first := Samples.frame 20 0 in
  let rest := [Samples.frame 22 100] in
  let t := Samples.frame 25 250 in
  silentEnd pre /\
  Forall speech (first :: rest) /\
  speech t /\
  isCurrentlyRecording (stateAfter cap prior (pre ++ first :: rest)) = false /\
  (now t - now first > 200)%Z /\
  invokedAt cap prior (pre ++ first :: rest) t = [StartAutomaticRecording] /\
  isCurrentlyRecording (stateAfter cap prior ((pre ++ first :: rest) ++ [t])) = true.
Proof.
  intros cap prior pre first rest t.
  assert (H1 : silentEnd pre) by (left; reflexivity).
  assert (H2 : Forall speech (first :: rest)) by (repeat constructor).
  assert (H3 : speech t) by reflexivity.
  assert (H4 : isCurrentlyRecording (stateAfter cap prior (pre ++ first :: rest)) = false)
    by reflexivity.
  assert (H5 : (now t - now first > 200)%Z) by (vm_compute; reflexivity).
  exact (conj H1 (conj H2 (conj H3 (conj H4 (conj H5
           (sustained_speech_starts_recording cap prior pre first rest t
              H1 H2 H3 H4 H5)))))).
Defined.

Lemma stop_fires cap s t :
  silence t -> isCurrentlyRecording s = true -> voiceDetectionRef s = true ->
  (now t - lastSpeechTime s > 1200)%Z -> (now t - speechStartTimeRef s > 600)%Z ->
  fst (monitorVoiceActivity cap s t) = [StopRecording] /\
  isCurrentlyRecording (snd (monitorVoiceActivity cap s t)) = false /\
  voiceDetectionRef (snd (monitorVoiceActivity cap s t)) = false /\
  mediaRecorderActive (snd (monitorVoiceActivity cap s t)) = false /\
  isRecording (snd (monitorVoiceActivity cap s t)) =
  (if mediaRecorderActive s then false else isRecording s).
Proof.
  step_cases s t; intros Ht Hi Hv Hsil Hrec; try discriminate; auto 10;
    match goal with
    | H : (_ && _) = false |- _ =>
        apply andb_false_iff in H; destruct H as [H|H];
        apply Z.ltb_ge in H; unfold SPEECH_END_DURATION, MIN_RECORDING_TIME in H; lia
    end.
Qed.

(** X24.  Silence that lasts ends the recording.  If the recorder started
    at some frame is still the active one and the frames since the latest
    frame of speech were all silent, then a silent frame more than 1200 ms
    after that frame of speech, and more than 600 ms after the recorder
    was started, makes the monitor call [stopRecording], once: the episode
    is over, no recorder is active and [isRecording] is off.  More
    generally, whenever an episode is marked as recording, such a frame,
    coming more than 600 ms after the time noted in [speechStartTimeRef],
    makes the monitor call [stopRecording] and ends the episode;
    [isRecording] is then off if a recorder was active, and is left as it
    was if none was, as for a detector whose start the stale flags blocked. *)
Theorem sustained_silence_stops_recording :
  (forall (cap : Captured) (prior : State) (pre : list Tick) (tj : Tick)
          (sil : list Tick) (ts t : Tick),
      let before := pre ++ tj :: sil in
      recordingSince cap prior before ts ->
      speech tj -> Forall silence sil -> silence t ->
      (now t - now tj > 1200)%Z ->
      (now t - startedAt ts > 600)%Z ->
      invokedAt cap prior before t = [StopRecording] /\
      isCurrentlyRecording (stateAfter cap prior (before ++ [t])) = false /\
      mediaRecorderActive (stateAfter cap prior (before ++ [t])) = false /\
      isRecording (stateAfter cap prior (before ++ [t])) = false) /\
  (forall (cap : Captured) (prior : State) (pre : list Tick) (tj : Tick)
          (sil : list Tick) (t : Tick),
      let before := pre ++ tj :: sil in
      speech tj -> Forall silence sil -> silence t ->
      isCurrentlyRecording (stateAfter cap prior before) = true ->
      (now t - now tj > 1200)%Z ->
      (now t - speechStartTimeRef (stateAfter cap prior before) > 600)%Z ->
      invokedAt cap prior before t = [StopRecording] /\
      isCurrentlyRecording (stateAfter cap prior (before ++ [t])) = false /\
      mediaRecorderActive (stateAfter cap prior (before ++ [t])) = false /\
      isRecording (stateAfter cap prior (before ++ [t])) =
      (if mediaRecorderActive (stateAfter cap prior before)
       then false else isRecording (stateAfter cap prior before))).
Proof.
  assert (General :
    forall cap prior pre tj sil t,
      speech tj -> Forall silence sil -> silence t ->
      isCurrentlyRecording (stateAfter cap prior (pre ++ tj :: sil)) = true ->
      (now t - now tj > 1200)%Z ->
      (now t - speechStartTimeRef (stateAfter cap prior (pre ++ tj :: sil)) > 600)%Z ->
      invokedAt cap prior (pre ++ tj :: sil) t = [StopRecording] /\
      isCurrentlyRecording (stateAfter cap prior ((pre ++ tj :: sil) ++ [t])) = false /\
      mediaRecorderActive (stateAfter cap prior ((pre ++ tj :: sil) ++ [t])) = false /\
      isRecording (stateAfter cap prior ((pre ++ tj :: sil) ++ [t])) =
      (if mediaRecorderActive (stateAfter cap prior (pre ++ tj :: sil))
       then false else isRecording (stateAfter cap prior (pre ++ tj :: sil)))).
  { intros cap prior pre tj sil t Hj Hsil Ht Hicr Hlong Hmin.
    destruct (recording_invariant cap prior (pre ++ tj :: sil)) as [_ [Hvd _]].
    pose proof (last_speech cap prior pre tj sil Hj Hsil) as Hlast.
    unfold invokedAt. rewrite stateAfter_snoc.
    destruct (stop_fires cap (stateAfter cap prior (pre ++ tj :: sil)) t Ht Hicr (Hvd Hicr))
      as [H1 [H2 [H3 [H4 H5]]]]; try (rewrite Hlast); auto. }
  split.
  - intros cap prior pre tj sil ts t before Hs Hj Hsil Ht Hlong Hmin. subst before.
    destruct (recordingSince_state _ _ _ _ Hs) as [Ha [Hr Hicr]].
    destruct (General cap prior pre tj sil t Hj Hsil Ht Hicr Hlong) as [H1 [H2 [H3 H4]]].
    { rewrite Hr. exact Hmin. }
    rewrite Ha in H4. auto.
  - intros cap prior pre tj sil t before. subst before. apply General.
Qed.

Lemma sustained_silence_stops_recording_witness :
  (let cap := Samples.live in
   let prior := Samples.interrupted in
   let pre := [Samples.frame 20 0; Samples.frame 22 100; Samples.frame 25 250] in
   let tj := Samples.frame 21 300 in
   let sil := Samples.pausing in
   let ts := Samples.frame 25 250 in
   let t := Samples.closing in
   let before := pre ++ tj :: sil in
   recordingSince cap prior before ts /\
   speech tj /\ Forall silence sil /\ silence t /\
   (now t - now tj > 1200)%Z /\
   (now t - startedAt ts > 600)%Z /\
   invokedAt cap prior before t = [StopRecording] /\
   isCurrentlyRecording (stateAfter cap prior (before ++ [t])) = false /\
   mediaRecorderActive (stateAfter cap prior (before ++ [t])) = false /\
   isRecording (stateAfter cap prior (before ++ [t])) = false) /\
  (let cap := mkCaptured true false in
   let prior := Samples.interrupted in
   let pre := [Samples.frame 20 0; Samples.frame 22 100; Samples.frame 25 250] in
   let tj := Samples.frame 21 300 in
   let sil := Samples.pausing in
   let t := Samples.closing in
   let before := pre ++ tj :: sil in
   speech tj /\ Forall silence sil /\ silence t /\
   isCurrentlyRecording (stateAfter cap prior before) = true /\
   (now t - now tj > 1200)%Z /\
   (now t - speechStartTimeRef (stateAfter cap prior before) > 600)%Z /\
   mediaRecorderActive (stateAfter cap prior before) = false /\
   invokedAt cap prior before t = [StopRecording] /\
   isCurrentlyRecording (stateAfter cap prior (before ++ [t])) = false /\
   mediaRecorderActive (stateAfter cap prior (before ++ [t])) = false /\
   isRecording (stateAfter cap prior (before ++ [t])) = true).
Proof.
  split.
  - intros cap prior pre tj sil ts t before.
    assert (H0 : recordingSince cap prior before ts).
    { exists [Samples.frame 20 0; Samples.frame 22 100],
             [Samples.frame 21 300; Samples.frame 3 1000].
      split; [reflexivity|]. split; [vm_compute; left; reflexivity|].
      split; vm_compute; reflexivity. }
    assert (H1 : speech tj) by reflexivity.
    assert (H2 : Forall silence sil) by (repeat constructor).
    assert (H3 : silence t) by reflexivity.
    assert (H4 : (now t - now tj > 1200)%Z) by (vm_compute; reflexivity).
    assert (H5 : (now t - startedAt ts > 600)%Z) by (vm_compute; reflexivity).
    split; [exact H0|]. split; [exact H1|]. split; [exact H2|]. split; [exact H3|].
    split; [exact H4|]. split; [exact H5|].
    exact (proj1 sustained_silence_stops_recording cap prior pre tj sil ts t
             H0 H1 H2 H3 H4 H5).
  - intros cap prior pre tj sil t before.
    assert (H1 : speech tj) by reflexivity.
    assert (H2 : Forall silence sil) by (repeat constructor).
    assert (H3 : silence t) by reflexivity.
    assert (H4 : isCurrentlyRecording (stateAfter cap prior before) = true) by reflexivity.
    assert (H5 : (now t - now tj > 1200)%Z) by (vm_compute; reflexivity).
    assert (H6 : (now t - speechStartTimeRef (stateAfter cap prior before) > 600)%Z)
      by (vm_compute; reflexivity).
    split; [exact H1|]. split; [exact H2|]. split; [exact H3|]. split; [exact H4|].
    split; [exact H5|]. split; [exact H6|]. split; [reflexivity|].
    exact (proj2 sustained_silence_stops_recording cap prior pre tj sil t
             H1 H2 H3 H4 H5 H6).
Defined.
